(** * Gatekeeper: the credential lifecycle core

    A shallow embedding of the agent orchestrator
    ([packages/agent/src/core/agent.ts]), the PostgreSQL provider
    ([packages/agent/src/providers/postgres-provider.ts]), the job schemas
    ([packages/shared/src/jobs.ts], [types.ts], [errors.ts],
    [database-provider.ts]) and the bootstrap helper routines
    ([bootstrap_roles.sql]); and, around them, of the Lambda handler
    ([packages/agent/src/lambda/handler.ts]), the validators of
    [packages/shared/src/validation.ts] and the provider registry
    ([provider-registry.ts], [provider-factory.ts]).

    Conventions.
    - A JavaScript or SQL string is a [string] of character codes; [length]
      counts them.
    - An instant is a [Z] number of milliseconds since the epoch.  The ISO-8601
      text that [Date.prototype.toISOString] renders and that PostgreSQL parses
      back into a TIMESTAMPTZ denotes the same instant, so the embedding keeps
      the instant itself.
    - [async] code is run sequentially: every [await] is a plain call. *)

From Stdlib Require Import ZArith List String Ascii Bool Lia Arith.
From Stdlib Require Import Strings.Byte.
From Stdlib Require Import DecimalString.
Import ListNotations.

Local Open Scope string_scope.
Local Open Scope Z_scope.

(* ===================================================================== *)
(** ** Strings, character classes and the regular expressions of the code *)
(* ===================================================================== *)

Module Str.

Definition code (c : ascii) : nat := nat_of_ascii c.

Definition between (lo hi : nat) (c : ascii) : bool :=
  (Nat.leb lo (code c) && Nat.leb (code c) hi)%bool.

Definition is_digit : ascii -> bool := between 48 57.
Definition is_upper : ascii -> bool := between 65 90.
Definition is_lower : ascii -> bool := between 97 122.
Definition is_alnum (c : ascii) : bool :=
  (is_lower c || is_upper c || is_digit c)%bool.
Definition is_underscore (c : ascii) : bool := Nat.eqb (code c) 95.
Definition is_word (c : ascii) : bool := (is_alnum c || is_underscore c)%bool.
Definition is_hex (c : ascii) : bool :=
  (is_digit c || between 97 102 c || between 65 70 c)%bool.

Fixpoint all (p : ascii -> bool) (s : string) : bool :=
  match s with
  | EmptyString => true
  | String c r => (p c && all p r)%bool
  end.

(** [String.prototype.startsWith]. *)
Fixpoint startsWith (s pre : string) : bool :=
  match pre, s with
  | EmptyString, _ => true
  | String a p, String b r => (Ascii.eqb a b && startsWith r p)%bool
  | String _ _, EmptyString => false
  end.

(** [String.prototype.includes]. *)
Fixpoint includes (s needle : string) : bool :=
  (startsWith s needle ||
   match s with
   | EmptyString => false
   | String _ r => includes r needle
   end)%bool.

(** The text after a literal prefix, when the string starts with it. *)
Fixpoint strip (pre s : string) : option string :=
  match pre, s with
  | EmptyString, _ => Some s
  | String a p, String b r => if Ascii.eqb a b then strip p r else None
  | String _ _, EmptyString => None
  end.

(** A pattern [^<lit>[class]+$]: the literal, then one or more characters
    of the class, and nothing else. *)
Definition lit_plus (lit : string) (cls : ascii -> bool) (s : string) : bool :=
  match strip lit s with
  | Some (String c r) => (cls c && all cls r)%bool
  | _ => false
  end.

(** The double quote character, as a one-character string. *)
Definition dquote : string := String (ascii_of_nat 34) EmptyString.

Definition of_Z (z : Z) : string := NilZero.string_of_int (Z.to_int z).
Definition of_nat (n : nat) : string := of_Z (Z.of_nat n).

End Str.

(** [/^gk_[a-zA-Z0-9_]+$/], the pattern of [gk_create_ephemeral_user] and
    [gk_drop_user]. *)
Definition re_gk_word : string -> bool := Str.lit_plus "gk_" Str.is_word.

(** [/^gk_[a-zA-Z0-9]+$/], the pattern of [gk_list_ephemeral_users],
    [gk_cleanup_expired_users] and [validateEphemeralUsername]. *)
Definition re_gk_alnum : string -> bool := Str.lit_plus "gk_" Str.is_alnum.

(** [/^ses_[a-zA-Z0-9]+$/], the pattern of [validateSessionId]. *)
Definition re_ses_alnum : string -> bool := Str.lit_plus "ses_" Str.is_alnum.

(* ===================================================================== *)
(** ** Buffers: [Buffer.prototype.toString('hex' | 'base64')] *)
(* ===================================================================== *)

Module Buffer.

Definition hex_digit (n : N) : ascii :=
  ascii_of_N (if (n <? 10)%N then 48 + n else 87 + n)%N.

(** ['hex']: two lower-case digits per byte. *)
Fixpoint to_hex (bs : list byte) : string :=
  match bs with
  | [] => EmptyString
  | b :: r =>
      let n := Byte.to_N b in
      String (hex_digit (n / 16)) (String (hex_digit (n mod 16)) (to_hex r))
  end.

(** The base64 alphabet [A-Za-z0-9+/]. *)
Definition b64_digit (n : N) : ascii :=
  ascii_of_N
    (if (n <? 26)%N then 65 + n
     else if (n <? 52)%N then 71 + n
     else if (n <? 62)%N then n - 4
     else if (n =? 62)%N then 43 else 47)%N.

Definition pad : ascii := ascii_of_nat 61.

(** ['base64']: four characters per group of three bytes, the last group
    padded with [=]. *)
Fixpoint to_base64 (bs : list byte) : string :=
  match bs with
  | [] => EmptyString
  | [a] =>
      let x := Byte.to_N a in
      String (b64_digit (x / 4))
        (String (b64_digit ((x mod 4) * 16)) (String pad (String pad EmptyString)))
  | [a; b] =>
      let x := Byte.to_N a in
      let y := Byte.to_N b in
      String (b64_digit (x / 4))
        (String (b64_digit ((x mod 4) * 16 + y / 16))
           (String (b64_digit ((y mod 16) * 4)) (String pad EmptyString)))
  | a :: b :: c :: r =>
      let x := Byte.to_N a in
      let y := Byte.to_N b in
      let z := Byte.to_N c in
      String (b64_digit (x / 4))
        (String (b64_digit ((x mod 4) * 16 + y / 16))
           (String (b64_digit ((y mod 16) * 4 + z / 64))
              (String (b64_digit (z mod 64)) (to_base64 r))))
  end.

End Buffer.

(** [encodeURIComponent]: the unreserved characters
    [A-Za-z0-9 - _ . ! ~ * ' ( )] stay, every other character code becomes
    [%XX] with upper-case digits (the string holds the UTF-8 code units). *)
Module URI.

Definition unreserved (c : ascii) : bool :=
  (Str.is_alnum c ||
   existsb (Nat.eqb (Str.code c)) [45; 95; 46; 33; 126; 42; 39; 40; 41]%nat)%bool.

Definition HEX_digit (n : N) : ascii :=
  ascii_of_N (if (n <? 10)%N then 48 + n else 55 + n)%N.

Fixpoint encodeURIComponent (s : string) : string :=
  match s with
  | EmptyString => EmptyString
  | String c r =>
      if unreserved c then String c (encodeURIComponent r)
      else
        let n := N_of_ascii c in
        String "%" (String (HEX_digit (n / 16))
                      (String (HEX_digit (n mod 16)) (encodeURIComponent r)))
  end.

End URI.

(* ===================================================================== *)
(** ** Errors ([errors.ts], [database-provider.ts]) *)
(* ===================================================================== *)

(** [DatabaseTypeSchema]. *)
Inductive DatabaseType := postgres | oracle | sqlserver | mysql.

(** The values the code throws.  [GatekeeperError] fixes the [code] of its
    subclasses: [ValidationError] is [VALIDATION_ERROR] and never retryable,
    [DatabaseError] is [DATABASE_ERROR].  [DatabaseProviderError] carries its
    own code; [ProviderInitializationError] is the provider error with code
    [PROVIDER_INIT_ERROR].  [JsError] is any other [Error] (the driver's and
    the database's), [Thrown] a thrown value that is not an [Error]. *)
Inductive exn :=
| ValidationError (message : string) (field : option string)
| DatabaseError (message : string) (retryable : bool)
| DatabaseProviderError (message code : string) (retryable : bool)
    (provider : option DatabaseType)
| JsError (message : string)
| Thrown (value : string).

(** [error instanceof Error]. *)
Definition instanceof_Error (e : exn) : bool :=
  match e with Thrown _ => false | _ => true end.

(** [error instanceof ValidationError]. *)
Definition instanceof_ValidationError (e : exn) : bool :=
  match e with ValidationError _ _ => true | _ => false end.

(** [error.message]. *)
Definition message_of (e : exn) : string :=
  match e with
  | ValidationError m _ | DatabaseError m _ | DatabaseProviderError m _ _ _
  | JsError m => m
  | Thrown _ => ""
  end.

Definition DatabaseType_name (t : DatabaseType) : string :=
  match t with
  | postgres => "postgres"
  | oracle => "oracle"
  | sqlserver => "sqlserver"
  | mysql => "mysql"
  end.

(** [new ProviderInitializationError(provider, message)]. *)
Definition ProviderInitializationError (provider : DatabaseType) (message : string) : exn :=
  DatabaseProviderError
    ("Failed to initialize " ++ DatabaseType_name provider ++ " provider: " ++ message)
    "PROVIDER_INIT_ERROR" true (Some provider).

(* ===================================================================== *)
(** ** A state and exception monad for the effectful code *)
(* ===================================================================== *)

Inductive outcome (A : Type) :=
| Ok (a : A)
| Throw (e : exn).
Arguments Ok {A} a.
Arguments Throw {A} e.

(** A computation over a state [St] that returns or throws. *)
Definition M (St A : Type) : Type := St -> outcome A * St.

Definition ret {St A} (a : A) : M St A := fun s => (Ok a, s).
Definition throw {St A} (e : exn) : M St A := fun s => (Throw e, s).

Definition bind {St A B} (m : M St A) (k : A -> M St B) : M St B :=
  fun s =>
    match m s with
    | (Ok a, s1) => k a s1
    | (Throw e, s1) => (Throw e, s1)
    end.

Definition get {St} : M St St := fun s => (Ok s, s).
Definition gets {St A} (f : St -> A) : M St A := fun s => (Ok (f s), s).
Definition modify {St} (f : St -> St) : M St unit := fun s => (Ok tt, f s).

(** [try { m } catch (e) { h e }]. *)
Definition try_catch {St A} (m : M St A) (h : exn -> M St A) : M St A :=
  fun s =>
    match m s with
    | (Ok a, s1) => (Ok a, s1)
    | (Throw e, s1) => h e s1
    end.

(** [try { m } finally { f }]: [f] runs on both exits; when [f] throws, its
    error replaces the result. *)
Definition try_finally {St A} (m : M St A) (f : M St unit) : M St A :=
  fun s =>
    match m s with
    | (r, s1) =>
        match f s1 with
        | (Ok _, s2) => (r, s2)
        | (Throw e, s2) => (Throw e, s2)
        end
    end.

Declare Scope monad_scope.
Delimit Scope monad_scope with monad.
Notation "x <- m ;; k" := (bind m (fun x => k))
  (at level 61, m at next level, right associativity) : monad_scope.
Notation "m ;; k" := (bind m (fun _ => k))
  (at level 61, right associativity) : monad_scope.

(* ===================================================================== *)
(** ** The target database ([bootstrap_roles.sql]) *)
(* ===================================================================== *)

(** The catalogs the helper routines read and write, the statements they
    [EXECUTE], and the routines themselves.  A routine returns
    [inl SQLERRM] when it raises and [inr v] when it returns [v].  A statement
    that raises leaves the catalogs as they were; only a backend that
    [pg_terminate_backend] has already signalled stays terminated. *)
Module Pg.

Record pg_role := {
  rolname : string;
  rolcanlogin : bool;
  rolpassword : option string;
  rolvaliduntil : option Z;
  rolconnlimit : Z;
  rolmemberof : list string;
  rolsearch_path : option string
}.

(** A row of [pg_stat_activity]. *)
Record activity := { pid : Z; usename : string; state : string }.

(** What a privilege can be held on: the five classes [gk_drop_user]
    revokes, and anything else. *)
Inductive acl_object :=
| ALL_TABLES_IN_SCHEMA_public
| ALL_SEQUENCES_IN_SCHEMA_public
| ALL_FUNCTIONS_IN_SCHEMA_public
| SCHEMA_public
| DATABASE_app
| OTHER_OBJECT (name : string).

Definition acl_object_eqb (a b : acl_object) : bool :=
  match a, b with
  | ALL_TABLES_IN_SCHEMA_public, ALL_TABLES_IN_SCHEMA_public
  | ALL_SEQUENCES_IN_SCHEMA_public, ALL_SEQUENCES_IN_SCHEMA_public
  | ALL_FUNCTIONS_IN_SCHEMA_public, ALL_FUNCTIONS_IN_SCHEMA_public
  | SCHEMA_public, SCHEMA_public
  | DATABASE_app, DATABASE_app => true
  | OTHER_OBJECT x, OTHER_OBJECT y => String.eqb x y
  | _, _ => false
  end.

(** A row of the table [gatekeeper_audit]. *)
Record audit_row := {
  audit_id : Z;
  event_type : string;
  session_id : option string;
  audit_username : option string;
  correlation_id : option string;
  event_data : option string;
  created_at : Z;
  prev_hash : option string;
  event_hash : option string
}.

Record database := {
  pg_roles : list pg_role;
  pg_stat_activity : list activity;
  pg_backend_pid : Z;
  (** direct grants: (grantee, object) *)
  acl : list (string * acl_object);
  (** roles that own objects *)
  owners : list string;
  (** [proname] of [pg_proc] *)
  pg_proc : list string;
  (** number of rows of [sample_data] *)
  sample_data : nat;
  gatekeeper_audit : list audit_row;
  server_version : string;
  (** [now()]: the start of the current transaction *)
  db_now : Z
}.

Definition with_roles (f : list pg_role -> list pg_role) (db : database) : database :=
  {| pg_roles := f (pg_roles db);
     pg_stat_activity := pg_stat_activity db;
     pg_backend_pid := pg_backend_pid db;
     acl := acl db; owners := owners db; pg_proc := pg_proc db;
     sample_data := sample_data db; gatekeeper_audit := gatekeeper_audit db;
     server_version := server_version db; db_now := db_now db |}.

Definition with_activity (f : list activity -> list activity) (db : database) : database :=
  {| pg_roles := pg_roles db;
     pg_stat_activity := f (pg_stat_activity db);
     pg_backend_pid := pg_backend_pid db;
     acl := acl db; owners := owners db; pg_proc := pg_proc db;
     sample_data := sample_data db; gatekeeper_audit := gatekeeper_audit db;
     server_version := server_version db; db_now := db_now db |}.

Definition with_acl (f : list (string * acl_object) -> list (string * acl_object))
  (db : database) : database :=
  {| pg_roles := pg_roles db;
     pg_stat_activity := pg_stat_activity db;
     pg_backend_pid := pg_backend_pid db;
     acl := f (acl db); owners := owners db; pg_proc := pg_proc db;
     sample_data := sample_data db; gatekeeper_audit := gatekeeper_audit db;
     server_version := server_version db; db_now := db_now db |}.

(** *** Values and result rows, as the driver hands them over *)

Inductive sqlval :=
| NULL
| BOOLEAN (b : bool)
| INTEGER (z : Z)
| TEXT (s : string)
| TIMESTAMPTZ (t : Z).

Definition row := list (string * sqlval).

(** [row.<name>]; a missing column reads as [NULL]. *)
Fixpoint col (name : string) (r : row) : sqlval :=
  match r with
  | [] => NULL
  | (k, v) :: rest => if String.eqb k name then v else col name rest
  end.

Definition opt_text (o : option string) : sqlval :=
  match o with Some s => TEXT s | None => NULL end.
Definition opt_timestamptz (o : option Z) : sqlval :=
  match o with Some t => TIMESTAMPTZ t | None => NULL end.

(** *** Role statements *)

(** [EXISTS(SELECT 1 FROM pg_roles WHERE rolname = name)]. *)
Definition role_exists (name : string) (db : database) : bool :=
  existsb (fun r => String.eqb (rolname r) name) (pg_roles db).

Definition quoted (name : string) : string := Str.dquote ++ name ++ Str.dquote.

(** An identifier as the server reads it in a statement: its first 63
    bytes ([NAMEDATALEN - 1]); a longer one is cut there, with a notice.
    [%I] of [format] quotes the whole text; the cut is made when the
    statement built from it is parsed.  (The names that reach a statement
    have passed [^gk_[a-zA-Z0-9_]+$] or are names of the catalog, so a byte
    is a character.) *)
Definition identifier (name : string) : string := substring 0 63 name.

(** No catalog has a role whose name is longer than an identifier. *)
Definition names_fit (db : database) : bool :=
  forallb (fun r => Nat.leb (String.length (rolname r)) 63) (pg_roles db).

(** [CREATE ROLE %I WITH LOGIN PASSWORD %L VALID UNTIL %L CONNECTION LIMIT %s]. *)
Definition CREATE_ROLE (name password : string) (valid_until connection_limit : Z)
  (db : database) : string + database :=
  let name := identifier name in
  if role_exists name db then
    inl ("role " ++ quoted name ++ " already exists")
  else if connection_limit <? -1 then
    inl ("invalid connection limit: " ++ Str.of_Z connection_limit)
  else
    inr (with_roles
           (fun rs => (rs ++ [ {| rolname := name; rolcanlogin := true;
                                  rolpassword := Some password;
                                  rolvaliduntil := Some valid_until;
                                  rolconnlimit := connection_limit;
                                  rolmemberof := [];
                                  rolsearch_path := None |} ])%list)
           db).

Definition update_role (name : string) (f : pg_role -> pg_role) (db : database) : database :=
  with_roles (map (fun r => if String.eqb (rolname r) name then f r else r)) db.

(** [GRANT %I TO %I]. *)
Definition GRANT_ROLE (role_name member : string) (db : database) : database :=
  update_role (identifier member)
    (fun r => {| rolname := rolname r; rolcanlogin := rolcanlogin r;
                 rolpassword := rolpassword r; rolvaliduntil := rolvaliduntil r;
                 rolconnlimit := rolconnlimit r;
                 rolmemberof := identifier role_name :: rolmemberof r;
                 rolsearch_path := rolsearch_path r |})
    db.

(** [ALTER ROLE %I SET search_path TO public]. *)
Definition ALTER_ROLE_SET_search_path (name : string) (db : database) : database :=
  update_role (identifier name)
    (fun r => {| rolname := rolname r; rolcanlogin := rolcanlogin r;
                 rolpassword := rolpassword r; rolvaliduntil := rolvaliduntil r;
                 rolconnlimit := rolconnlimit r;
                 rolmemberof := rolmemberof r;
                 rolsearch_path := Some "public" |})
    db.

(** [REVOKE ALL PRIVILEGES ON <object> FROM %I].  [gk_drop_user] reaches
    this statement and [DROP ROLE] with a name that a role of the catalog
    bears, and so with an identifier that is not cut. *)
Definition REVOKE_ALL_PRIVILEGES (obj : acl_object) (grantee : string) (db : database)
  : database :=
  with_acl
    (filter (fun e => negb (String.eqb (fst e) grantee && acl_object_eqb (snd e) obj)))
    db.

(** Whether something still depends on the role: a privilege it holds or
    an object it owns. *)
Definition has_dependents (name : string) (db : database) : bool :=
  (existsb (fun e => String.eqb (fst e) name) (acl db)
   || existsb (String.eqb name) (owners db))%bool.

(** [DROP ROLE %I]. *)
Definition DROP_ROLE (name : string) (db : database) : string + database :=
  if negb (role_exists name db) then
    inl ("role " ++ quoted name ++ " does not exist")
  else if has_dependents name db then
    inl ("role " ++ quoted name
           ++ " cannot be dropped because some objects depend on it")
  else
    inr (with_roles
           (fun rs =>
              map (fun r => {| rolname := rolname r; rolcanlogin := rolcanlogin r;
                               rolpassword := rolpassword r;
                               rolvaliduntil := rolvaliduntil r;
                               rolconnlimit := rolconnlimit r;
                               rolmemberof :=
                                 filter (fun m => negb (String.eqb m name)) (rolmemberof r);
                               rolsearch_path := rolsearch_path r |})
                (filter (fun r => negb (String.eqb (rolname r) name)) rs))
           db).

(** [PERFORM pg_terminate_backend(pid) FROM pg_stat_activity WHERE p]. *)
Definition pg_terminate_backend (p : activity -> bool) (db : database) : database :=
  with_activity (filter (fun a => negb (p a))) db.

(** [SELECT count( * ) FROM pg_stat_activity WHERE p]. *)
Definition count_activity (p : activity -> bool) (db : database) : Z :=
  Z.of_nat (List.length (filter p (pg_stat_activity db))).

End Pg.

(** *** The SECURITY DEFINER helper routines *)
Module Bootstrap.
Import Pg.

(** [gk_create_ephemeral_user(username, password, valid_until, role_name,
    connection_limit)].  The first two parameters may be SQL [NULL]; the
    routine tests them.  The others are not tested for [NULL] and the
    provider always binds a value; [connection_limit] is declared
    [INTEGER], and the routine only runs on a number of that type
    ([Sql.execute] refuses any other). *)
Definition gk_create_ephemeral_user
  (username password : option string) (valid_until : Z) (role_name : string)
  (connection_limit : Z) (db : database) : (string + unit) * database :=
  match username with
  | None | Some EmptyString => (inl "Username cannot be empty", db)
  | Some u =>
      match password with
      | None | Some EmptyString => (inl "Password cannot be empty", db)
      | Some p =>
          if negb (re_gk_word u) then
            (inl "Username must follow pattern: gk_[alphanumeric_underscore]", db)
          else if valid_until <=? db_now db then
            (inl "Valid until timestamp must be in the future", db)
          else if negb (role_exists role_name db) then
            (inl ("Role " ++ role_name ++ " does not exist"), db)
          else
            match CREATE_ROLE u p valid_until connection_limit db with
            | inl sqlerrm => (inl sqlerrm, db)
            | inr db1 =>
                (inr tt, ALTER_ROLE_SET_search_path u (GRANT_ROLE role_name u db1))
            end
      end
  end.

(** The block of five [REVOKE]s of [gk_drop_user]. *)
Definition revoke_all (username : string) (db : database) : database :=
  REVOKE_ALL_PRIVILEGES DATABASE_app username
    (REVOKE_ALL_PRIVILEGES SCHEMA_public username
       (REVOKE_ALL_PRIVILEGES ALL_FUNCTIONS_IN_SCHEMA_public username
          (REVOKE_ALL_PRIVILEGES ALL_SEQUENCES_IN_SCHEMA_public username
             (REVOKE_ALL_PRIVILEGES ALL_TABLES_IN_SCHEMA_public username db)))).

(** [usename = username AND state = 'active' AND pid != pg_backend_pid()]. *)
Definition active_other (username : string) (db : database) (a : activity) : bool :=
  (String.eqb (usename a) username && String.eqb (state a) "active"
   && negb (pid a =? pg_backend_pid db))%bool.

(** [usename = username AND pid != pg_backend_pid()]. *)
Definition any_other (username : string) (db : database) (a : activity) : bool :=
  (String.eqb (usename a) username && negb (pid a =? pg_backend_pid db))%bool.

(** [gk_drop_user(username)]. *)
Definition gk_drop_user (username : option string) (db : database)
  : (string + bool) * database :=
  match username with
  | None | Some EmptyString => (inl "Username cannot be empty", db)
  | Some u =>
      if negb (re_gk_word u) then
        (inl "Can only drop gatekeeper users (must start with gk_)", db)
      else if negb (role_exists u db) then
        (inr false, db)
      else
        let active_connections := count_activity (active_other u db) db in
        let db1 :=
          if active_connections >? 0
          then pg_terminate_backend (any_other u db) db
          else db in
        let db2 := revoke_all u db1 in
        match DROP_ROLE u db2 with
        | inl sqlerrm => (inl sqlerrm, db1)
        | inr db3 => (inr true, db3)
        end
  end.

(** [ORDER BY rolvaliduntil NULLS LAST]. *)
Definition valid_until_le (a b : option Z) : bool :=
  match a, b with
  | Some x, Some y => x <=? y
  | Some _, None => true
  | None, Some _ => false
  | None, None => true
  end.

Fixpoint insert_role (r : pg_role) (l : list pg_role) : list pg_role :=
  match l with
  | [] => [r]
  | x :: rest =>
      if valid_until_le (rolvaliduntil r) (rolvaliduntil x)
      then r :: x :: rest
      else x :: insert_role r rest
  end.

Definition order_by_valid_until (l : list pg_role) : list pg_role :=
  fold_right insert_role [] l.

(** [gk_list_ephemeral_users()]. *)
Definition gk_list_ephemeral_users (db : database) : list row :=
  map
    (fun r =>
       [ ("username", TEXT (rolname r));
         ("valid_until", opt_timestamptz (rolvaliduntil r));
         ("is_expired",
           BOOLEAN match rolvaliduntil r with
                   | Some t => t <=? db_now db
                   | None => false
                   end);
         ("connection_limit", INTEGER (rolconnlimit r));
         ("active_connections",
           INTEGER (count_activity
                      (fun a => (String.eqb (state a) "active"
                                 && String.eqb (usename a) (rolname r))%bool)
                      db)) ])
    (order_by_valid_until
       (filter (fun r => re_gk_alnum (rolname r)) (pg_roles db))).

(** The [WHERE] clause of the loop of [gk_cleanup_expired_users]. *)
Definition cleanup_candidate (older_than_minutes : Z) (db : database) (r : pg_role)
  : bool :=
  (re_gk_alnum (rolname r)
   && match rolvaliduntil r with
      | Some t => t <=? db_now db - older_than_minutes * 60000
      | None => true
      end)%bool.

(** The body of the loop, for the names the query selected. *)
Fixpoint cleanup_loop (names : list string) (db : database) : list row * database :=
  match names with
  | [] => ([], db)
  | name :: rest =>
      let '(drop_success, error_msg, db1) :=
        match gk_drop_user (Some name) db with
        | (inr b, db1) => (b, None, db1)
        | (inl sqlerrm, db1) => (false, Some sqlerrm, db1)
        end in
      let '(rows, db2) := cleanup_loop rest db1 in
      ([ ("username", TEXT name);
         ("was_expired", BOOLEAN true);
         ("dropped", BOOLEAN drop_success);
         ("error_message", opt_text error_msg) ] :: rows, db2)
  end.

(** [gk_cleanup_expired_users(older_than_minutes)].  The parameter is
    declared [INTEGER]: the routine only runs on a number of that type
    ([Sql.execute] refuses any other). *)
Definition gk_cleanup_expired_users (older_than_minutes : Z) (db : database)
  : list row * database :=
  cleanup_loop
    (map rolname (filter (cleanup_candidate older_than_minutes db) (pg_roles db)))
    db.

Definition helper_functions : list string :=
  [ "gk_create_ephemeral_user"; "gk_drop_user"; "gk_list_ephemeral_users";
    "gk_cleanup_expired_users" ].

Definition check_row (name : string) (ok : bool) (details : string) : row :=
  [ ("check_name", TEXT name);
    ("status", TEXT (if ok then "OK" else "FAILED"));
    ("details", TEXT details) ].

(** [gk_validate_setup()]. *)
Definition gk_validate_setup (db : database) : list row :=
  let admin_exists := role_exists "gatekeeper_admin" db in
  let app_read_exists := role_exists "app_read" db in
  let functions_exist :=
    List.length
      (filter (fun p => existsb (String.eqb p) helper_functions) (pg_proc db)) in
  let sample_count := sample_data db in
  [ check_row "gatekeeper_admin_role" admin_exists
      (if admin_exists then "Admin role exists" else "Admin role missing");
    check_row "app_read_role" app_read_exists
      (if app_read_exists then "App read role exists" else "App read role missing");
    check_row "helper_functions" (Nat.eqb functions_exist 4)
      (Str.of_nat functions_exist ++ "/4 helper functions exist");
    check_row "sample_data" (Nat.ltb 0 sample_count)
      (Str.of_nat sample_count ++ " sample records available") ].

End Bootstrap.

(** *** Statements the provider sends, and a session that runs them *)
Module Sql.
Import Pg.

Inductive statement :=
| SELECT_1
| BEGIN
| COMMIT
| ROLLBACK
| SELECT_gk_create_ephemeral_user
    (username password : string) (valid_until : Z) (role : string)
    (connection_limit : Z)
| SELECT_gk_drop_user (username : string)
| SELECT_gk_list_ephemeral_users
| SELECT_gk_cleanup_expired_users (older_than_minutes : Z)
| SELECT_gk_validate_setup
| SELECT_version.

(** The server as a session sees it: the catalogs, and the catalogs as
    they were at [BEGIN] while a transaction is open. *)
Record session := { server : database; txn : option database }.

Definition rows_of {A} (f : A -> list row) (r : (string + A) * database)
  (t : option database) : (string + list row) * session :=
  match r with
  | (inl e, db) => (inl e, {| server := db; txn := t |})
  | (inr v, db) => (inr (f v), {| server := db; txn := t |})
  end.

(** The values of the type [INTEGER]. *)
Definition int4 (z : Z) : bool := ((-2147483648 <=? z) && (z <=? 2147483647))%bool.

(** What the server answers to a parameter of a routine declared [INTEGER]
    that is bound to a number outside that type. *)
Definition out_of_range (z : Z) : string :=
  "value " ++ Str.dquote ++ Str.of_Z z ++ Str.dquote
    ++ " is out of range for type integer".

(** Running one statement.  [ROLLBACK] puts the catalogs back as they were
    at [BEGIN]; terminated backends stay terminated.  [connection_limit] of
    [gk_create_ephemeral_user] and [older_than_minutes] of
    [gk_cleanup_expired_users] are declared [INTEGER]: bound to a number
    outside that type, the statement raises before the routine runs. *)
Definition execute (q : statement) (s : session) : (string + list row) * session :=
  let db := server s in
  match q with
  | SELECT_1 => (inr [[("?column?", INTEGER 1)]], s)
  | BEGIN =>
      (inr [], {| server := db;
                  txn := match txn s with Some t => Some t | None => Some db end |})
  | COMMIT => (inr [], {| server := db; txn := None |})
  | ROLLBACK =>
      match txn s with
      | Some t =>
          (inr [], {| server := with_activity (fun _ => pg_stat_activity db) t;
                      txn := None |})
      | None => (inr [], s)
      end
  | SELECT_gk_create_ephemeral_user u p v r c =>
      if int4 c then
        rows_of (fun _ => [[("gk_create_ephemeral_user", NULL)]])
          (Bootstrap.gk_create_ephemeral_user (Some u) (Some p) v r c db) (txn s)
      else (inl (out_of_range c), s)
  | SELECT_gk_drop_user u =>
      rows_of (fun b : bool => [[("gk_drop_user", BOOLEAN b)]])
        (Bootstrap.gk_drop_user (Some u) db) (txn s)
  | SELECT_gk_list_ephemeral_users =>
      (inr (Bootstrap.gk_list_ephemeral_users db), s)
  | SELECT_gk_cleanup_expired_users m =>
      if int4 m then
        let '(rows, db1) := Bootstrap.gk_cleanup_expired_users m db in
        (inr rows, {| server := db1; txn := txn s |})
      else (inl (out_of_range m), s)
  | SELECT_gk_validate_setup => (inr (Bootstrap.gk_validate_setup db), s)
  | SELECT_version => (inr [[("version", TEXT (server_version db))]], s)
  end.

End Sql.

(* ===================================================================== *)
(** ** JavaScript values *)
(* ===================================================================== *)

(** A JavaScript value, as a job payload of type [unknown] can be.  A number
    that is not an integer is kept by its text: the schemas only ask whether
    a number is an integer and, if so, which. *)
#[warnings="-register-all"]
Inductive jsval :=
| JUndefined
| JNull
| JBool (b : bool)
| JNum (n : Z)
| JNonInt (text : string)
| JStr (s : string)
| JArr (items : list jsval)
| JObj (fields : list (string * jsval)).

(** [o.<name>]: [undefined] when the property is missing. *)
Fixpoint prop (name : string) (fields : list (string * jsval)) : jsval :=
  match fields with
  | [] => JUndefined
  | (k, v) :: rest => if String.eqb k name then v else prop name rest
  end.

Module JS.

(** Truthiness. *)
Definition truthy (v : jsval) : bool :=
  match v with
  | JUndefined | JNull => false
  | JBool b => b
  | JNum n => negb (n =? 0)
  | JNonInt text => negb (String.eqb text "NaN")
  | JStr s => negb (String.eqb s "")
  | JArr _ | JObj _ => true
  end.

(** [a || b]. *)
Definition or (a b : jsval) : jsval := if truthy a then a else b.

(** [v === '<s>']. *)
Definition strict_eq (v : jsval) (s : string) : bool :=
  match v with
  | JStr x => String.eqb x s
  | _ => false
  end.

(** [v?.<name>]. *)
Definition optional_prop (v : jsval) (name : string) : jsval :=
  match v with
  | JObj fields => prop name fields
  | _ => JUndefined
  end.

(** [String(v)], as [JSON.parse] applies it to an argument that is not a
    string. *)
Fixpoint ToString (v : jsval) : string :=
  match v with
  | JUndefined => "undefined"
  | JNull => "null"
  | JBool true => "true"
  | JBool false => "false"
  | JNum n => Str.of_Z n
  | JNonInt text => text
  | JStr s => s
  | JArr items =>
      (fix join (l : list jsval) : string :=
         match l with
         | [] => ""
         | [x] => match x with JUndefined | JNull => "" | _ => ToString x end
         | x :: r =>
             match x with JUndefined | JNull => "" | _ => ToString x end ++ "," ++ join r
         end) items
  | JObj _ => "[object Object]"
  end.

(** [{ ...base, ...over }], as [prop] reads it: a key of [over] hides the
    same key of [base]. *)
Definition spread (base over : list (string * jsval)) : list (string * jsval) :=
  (over ++ base)%list.

(** [v.<name>], for a name that no primitive value and no array has on its
    prototype: reading a property of [null] or [undefined] throws a
    [TypeError]. *)
Definition get (v : jsval) (name : string) : exn + jsval :=
  match v with
  | JUndefined =>
      inl (JsError ("Cannot read properties of undefined (reading '" ++ name ++ "')"))
  | JNull =>
      inl (JsError ("Cannot read properties of null (reading '" ++ name ++ "')"))
  | JObj fields => inr (prop name fields)
  | _ => inr JUndefined
  end.

End JS.

(* ===================================================================== *)
(** ** The provider interface ([database-provider.ts]) *)
(* ===================================================================== *)

Inductive SslMode := disable | require | prefer.

Definition SslMode_name (m : SslMode) : string :=
  match m with
  | disable => "disable"
  | require => "require"
  | prefer => "prefer"
  end.

(** [DatabaseConnectionConfig].  [sslMode] can be missing at run time:
    [generateDsn] and [getSslConfig] default it.  [options] is the bag the
    provider passes through to its driver, [{}] when it is missing. *)
Module DatabaseConnectionConfig.
Record t := {
  type : DatabaseType;
  host : string;
  port : Z;
  database : string;
  sslMode : option SslMode;
  options : list (string * jsval)
}.
End DatabaseConnectionConfig.

Module DatabaseCredentials.
Record t := { username : string; password : string }.
End DatabaseCredentials.

Module CreateEphemeralUserRequest.
Record t := {
  username : string;
  password : string;
  role : string;
  ttlMinutes : Z;
  connectionLimit : Z
}.
End CreateEphemeralUserRequest.

Module CreateEphemeralUserResult.
Record t := {
  username : string;
  dsn : string;
  expiresAt : Z;
  connectionLimit : Z;
  (** [providerMetadata.postgresVersion] *)
  postgresVersion : string
}.
End CreateEphemeralUserResult.

Inductive HealthStatus := healthy | degraded | unhealthy.

Module HealthCheckResult.
(** The [details] bag: [{ error }] or
    [{ database: 'connected', setupValidation, poolStats }]. *)
Inductive details_t :=
| error_details (error : string)
| connected_details (setupValidation : list (string * Pg.sqlval))
    (totalCount idleCount waitingCount : nat).

Record t := {
  status : HealthStatus;
  message : string;
  timestamp : Z;
  details : details_t
}.
End HealthCheckResult.

Module UserCleanupResult.
Record t := {
  username : string;
  wasExpired : bool;
  dropped : bool;
  errorMessage : option string
}.
End UserCleanupResult.

Module EphemeralUser.
Record t := {
  username : string;
  expiresAt : option Z;
  isExpired : bool;
  activeConnections : Z
}.
End EphemeralUser.

(** [interface DatabaseProvider], over the state [S] an implementation keeps
    (the operations the orchestrator and the claims use). *)
Class DatabaseProvider (S : Type) := {
  type : DatabaseType;
  version : string;
  initialize : DatabaseConnectionConfig.t -> DatabaseCredentials.t -> M S unit;
  healthCheck : M S HealthCheckResult.t;
  createEphemeralUser : CreateEphemeralUserRequest.t -> M S CreateEphemeralUserResult.t;
  dropUser : string -> M S bool;
  listEphemeralUsers : M S (list EphemeralUser.t);
  cleanupExpiredUsers : Z -> M S (list UserCleanupResult.t);
  generateDsn : DatabaseConnectionConfig.t -> string -> string -> string
}.

(** [close()] of [interface DatabaseProvider], which the orchestrator calls
    when it shuts down. *)
Class DatabaseProviderClose (S : Type) := {
  close : M S unit
}.

(* ===================================================================== *)
(** ** The PostgreSQL provider ([postgres-provider.ts]) *)
(* ===================================================================== *)

Module PostgresProvider.
Import Pg Sql.
Local Open Scope monad_scope.

Inductive level := info | warn | error | debug.

(** What an operation does to the outside, in order.  [Connect ok] is a
    [pool.connect()] that resolved or rejected, [Query q ok] a
    [client.query] likewise. *)
Inductive event :=
| Connect (ok : bool)
| Query (q : statement) (ok : bool)
| Release
| Log (l : level) (msg : string).

(** The driver's pool: connections open, and how many of them are idle.
    [totalCount - idleCount] are checked out. *)
Record Pool := { max : nat; totalCount : nat; idleCount : nat; waitingCount : nat }.

(** The provider object and the world around it: [this.pool],
    [this.config], [this.options.maxConnections]; the server behind the
    pool; the clock [Date.now()] reads; the faults the driver will report
    ([faults n] is the error of the [n]-th driver call, if it is to fail),
    and for a call that fails whether the server runs its statement all the
    same ([still_runs n]: the provider sets the driver's [query_timeout] to
    25 s and the server's [statement_timeout] to 30 s, so the driver can
    give up on a statement the server then completes); the events so
    far. *)
Record state := {
  pool : option Pool;
  config : option DatabaseConnectionConfig.t;
  maxConnections : nat;
  session : Sql.session;
  Date_now : Z;
  faults : nat -> option string;
  still_runs : nat -> bool;
  tick : nat;
  trace : list event
}.

Definition set_pool (p : option Pool) (s : state) : state :=
  {| pool := p; config := config s; maxConnections := maxConnections s;
     session := session s; Date_now := Date_now s; faults := faults s;
     still_runs := still_runs s; tick := tick s; trace := trace s |}.

Definition set_config (c : option DatabaseConnectionConfig.t) (s : state) : state :=
  {| pool := pool s; config := c; maxConnections := maxConnections s;
     session := session s; Date_now := Date_now s; faults := faults s;
     still_runs := still_runs s; tick := tick s; trace := trace s |}.

Definition set_session (x : Sql.session) (s : state) : state :=
  {| pool := pool s; config := config s; maxConnections := maxConnections s;
     session := x; Date_now := Date_now s; faults := faults s;
     still_runs := still_runs s; tick := tick s; trace := trace s |}.

Definition next_tick (s : state) : state :=
  {| pool := pool s; config := config s; maxConnections := maxConnections s;
     session := session s; Date_now := Date_now s; faults := faults s;
     still_runs := still_runs s; tick := S (tick s); trace := trace s |}.

Definition emit (e : event) (s : state) : state :=
  {| pool := pool s; config := config s; maxConnections := maxConnections s;
     session := session s; Date_now := Date_now s; faults := faults s;
     still_runs := still_runs s; tick := tick s; trace := (trace s ++ [e])%list |}.

(** [this.logger.<level>(..., msg)]. *)
Definition log (l : level) (msg : string) : M state unit := modify (emit (Log l msg)).

(** *** The driver *)

Inductive PoolClient := client.

(** [await this.pool.connect()]: an idle connection, else a new one while
    the pool is below its bound, else the acquisition times out. *)
Definition pool_connect : M state PoolClient :=
  fun s =>
    let s1 := next_tick s in
    match pool s with
    | None =>
        (Throw (JsError "Cannot read properties of undefined (reading 'connect')"), s)
    | Some p =>
        match faults s (tick s) with
        | Some msg => (Throw (JsError msg), emit (Connect false) s1)
        | None =>
            if Nat.ltb 0 (idleCount p) then
              (Ok client,
                emit (Connect true)
                  (set_pool (Some {| max := max p; totalCount := totalCount p;
                                     idleCount := Nat.pred (idleCount p);
                                     waitingCount := waitingCount p |}) s1))
            else if Nat.ltb (totalCount p) (max p) then
              (Ok client,
                emit (Connect true)
                  (set_pool (Some {| max := max p; totalCount := S (totalCount p);
                                     idleCount := idleCount p;
                                     waitingCount := waitingCount p |}) s1))
            else
              (Throw (JsError "timeout exceeded when trying to connect"),
                emit (Connect false) s1)
        end
    end.

(** [client.release()]. *)
Definition client_release (c : PoolClient) : M state unit :=
  fun s =>
    (Ok tt,
      emit Release
        (set_pool
           match pool s with
           | Some p => Some {| max := max p; totalCount := totalCount p;
                               idleCount := S (idleCount p);
                               waitingCount := waitingCount p |}
           | None => None
           end s)).

(** [await client.query(q)]: the rows, or the error of the driver or of
    the server.  A call the driver fails has not reached the server, or,
    when it is the driver's timeout that fails it, has: the server then
    runs the statement, before any later statement of the connection. *)
Definition client_query (c : PoolClient) (q : statement) : M state (list row) :=
  fun s =>
    let s1 := next_tick s in
    match faults s (tick s) with
    | Some msg =>
        (Throw (JsError msg),
          emit (Query q false)
            (if still_runs s (tick s)
             then set_session (snd (execute q (session s))) s1
             else s1))
    | None =>
        match execute q (session s) with
        | (inl sqlerrm, x) => (Throw (JsError sqlerrm), emit (Query q false) (set_session x s1))
        | (inr rows, x) => (Ok rows, emit (Query q true) (set_session x s1))
        end
    end.

(** *** Errors the provider raises *)

Definition provider_error (message code : string) (retryable : bool) : exn :=
  DatabaseProviderError message code retryable (Some postgres).

Definition NOT_INITIALIZED : exn :=
  provider_error "Provider not initialized" "NOT_INITIALIZED" false.

(** The [catch (error)] of [createEphemeralUser]. *)
Definition mapCreateError (request : CreateEphemeralUserRequest.t) (err : exn) : exn :=
  let message := message_of err in
  if (instanceof_Error err && Str.includes message "already exists")%bool then
    provider_error
      ("User " ++ CreateEphemeralUserRequest.username request ++ " already exists")
      "USER_EXISTS" false
  else if (instanceof_Error err && Str.includes message "Role"
           && Str.includes message "does not exist")%bool then
    provider_error
      ("Role " ++ CreateEphemeralUserRequest.role request ++ " does not exist")
      "ROLE_NOT_FOUND" false
  else
    provider_error "Failed to create ephemeral user" "USER_CREATION_FAILED" true.

(** *** Operations *)

(** [generateDsn(config, username, password)]. *)
Definition generateDsn (config : DatabaseConnectionConfig.t) (username password : string)
  : string :=
  let sslMode :=
    match DatabaseConnectionConfig.sslMode config with
    | Some m => SslMode_name m
    | None => "prefer"
    end in
  "postgresql://" ++ URI.encodeURIComponent username ++ ":"
    ++ URI.encodeURIComponent password ++ "@"
    ++ DatabaseConnectionConfig.host config ++ ":"
    ++ Str.of_Z (DatabaseConnectionConfig.port config) ++ "/"
    ++ DatabaseConnectionConfig.database config ++ "?sslmode=" ++ sslMode.

(** [result.rows[0]?.<name>]. *)
Definition first_col (name : string) (rows : list row) : sqlval :=
  match rows with
  | r :: _ => col name r
  | [] => NULL
  end.

(** [getPostgresVersion(client)]. *)
Definition getPostgresVersion (c : PoolClient) : M state string :=
  try_catch
    (rows <- client_query c SELECT_version ;;
     ret match first_col "version" rows with
         | TEXT (String a r) => String a r
         | _ => "unknown"
         end)
    (fun _ => ret "unknown").

(** The body of the outer [try] of [createEphemeralUser]: the transaction
    around the helper routine. *)
Definition createEphemeralUser_try (cfg : DatabaseConnectionConfig.t)
  (request : CreateEphemeralUserRequest.t) (c : PoolClient)
  : M state CreateEphemeralUserResult.t :=
  now <- gets Date_now ;;
  let expiresAt := now + CreateEphemeralUserRequest.ttlMinutes request * 60 * 1000 in
  log info "Creating PostgreSQL ephemeral user" ;;
  client_query c BEGIN ;;
  try_catch
    (client_query c
       (SELECT_gk_create_ephemeral_user
          (CreateEphemeralUserRequest.username request)
          (CreateEphemeralUserRequest.password request)
          expiresAt
          (CreateEphemeralUserRequest.role request)
          (CreateEphemeralUserRequest.connectionLimit request)) ;;
     client_query c COMMIT ;;
     let dsn := generateDsn cfg
                  (CreateEphemeralUserRequest.username request)
                  (CreateEphemeralUserRequest.password request) in
     log info "PostgreSQL ephemeral user created successfully" ;;
     postgresVersion <- getPostgresVersion c ;;
     ret {| CreateEphemeralUserResult.username :=
              CreateEphemeralUserRequest.username request;
            CreateEphemeralUserResult.dsn := dsn;
            CreateEphemeralUserResult.expiresAt := expiresAt;
            CreateEphemeralUserResult.connectionLimit :=
              CreateEphemeralUserRequest.connectionLimit request;
            CreateEphemeralUserResult.postgresVersion := postgresVersion |})
    (fun dbError => client_query c ROLLBACK ;; throw dbError).

(** [createEphemeralUser(request)]. *)
Definition createEphemeralUser (request : CreateEphemeralUserRequest.t)
  : M state CreateEphemeralUserResult.t :=
  this <- get ;;
  match pool this, config this with
  | Some _, Some cfg =>
      c <- pool_connect ;;
      try_finally
        (try_catch
           (createEphemeralUser_try cfg request c)
           (fun err =>
              log error "Failed to create PostgreSQL ephemeral user" ;;
              throw (mapCreateError request err)))
        (client_release c)
  | _, _ => throw NOT_INITIALIZED
  end.

(** [dropUser(username)]. *)
Definition dropUser (username : string) : M state bool :=
  this <- get ;;
  match pool this with
  | None => throw NOT_INITIALIZED
  | Some _ =>
      c <- pool_connect ;;
      try_finally
        (try_catch
           (log info "Dropping PostgreSQL user" ;;
            rows <- client_query c (SELECT_gk_drop_user username) ;;
            let success :=
              match first_col "gk_drop_user" rows with
              | BOOLEAN true => true
              | _ => false
              end in
            (if success
             then log info "PostgreSQL user dropped successfully"
             else log warn "PostgreSQL user was not found or already dropped") ;;
            ret success)
           (fun _ =>
              log error "Failed to drop PostgreSQL user" ;;
              throw (provider_error "Failed to drop user" "USER_DROP_FAILED" true)))
        (client_release c)
  end.

(** JavaScript truthiness of a column value. *)
Definition truthy (v : sqlval) : bool :=
  match v with
  | NULL => false
  | BOOLEAN b => b
  | INTEGER z => negb (z =? 0)
  | TEXT s => negb (String.eqb s "")
  | TIMESTAMPTZ _ => true
  end.

(** A text column read as a string. *)
Definition text_of (v : sqlval) : string :=
  match v with
  | TEXT s => s
  | NULL => "null"
  | BOOLEAN true => "true"
  | BOOLEAN false => "false"
  | INTEGER z | TIMESTAMPTZ z => Str.of_Z z
  end.

(** [listEphemeralUsers()].  The driver hands a BIGINT over as decimal
    text, which [parseInt(.., 10) || 0] reads back. *)
Definition listEphemeralUsers : M state (list EphemeralUser.t) :=
  this <- get ;;
  match pool this with
  | None => throw NOT_INITIALIZED
  | Some _ =>
      c <- pool_connect ;;
      try_finally
        (try_catch
           (rows <- client_query c SELECT_gk_list_ephemeral_users ;;
            ret (map
                   (fun r =>
                      {| EphemeralUser.username := text_of (col "username" r);
                         EphemeralUser.expiresAt :=
                           match col "valid_until" r with
                           | TIMESTAMPTZ t => Some t
                           | _ => None
                           end;
                         EphemeralUser.isExpired := truthy (col "is_expired" r);
                         EphemeralUser.activeConnections :=
                           match col "active_connections" r with
                           | INTEGER n => n
                           | _ => 0
                           end |})
                   rows))
           (fun _ =>
              log error "Failed to list PostgreSQL ephemeral users" ;;
              throw (provider_error "Failed to list users" "USER_LIST_FAILED" true)))
        (client_release c)
  end.

(** One row of [gk_cleanup_expired_users] as a [UserCleanupResult]. *)
Definition cleanup_result_of (r : row) : UserCleanupResult.t :=
  {| UserCleanupResult.username := text_of (col "username" r);
     UserCleanupResult.wasExpired := truthy (col "was_expired" r);
     UserCleanupResult.dropped := truthy (col "dropped" r);
     UserCleanupResult.errorMessage :=
       match col "error_message" r with
       | TEXT (String a s) => Some (String a s)
       | _ => None
       end |}.

(** [cleanupExpiredUsers(olderThanMinutes)]. *)
Definition cleanupExpiredUsers (olderThanMinutes : Z) : M state (list UserCleanupResult.t) :=
  this <- get ;;
  match pool this with
  | None => throw NOT_INITIALIZED
  | Some _ =>
      c <- pool_connect ;;
      try_finally
        (try_catch
           (log info "Starting PostgreSQL cleanup of expired users" ;;
            rows <- client_query c (SELECT_gk_cleanup_expired_users olderThanMinutes) ;;
            let cleanupResults := map cleanup_result_of rows in
            log info "PostgreSQL cleanup completed" ;;
            ret cleanupResults)
           (fun _ =>
              log error "PostgreSQL cleanup failed" ;;
              throw (provider_error "Failed to cleanup expired users" "CLEANUP_FAILED" true)))
        (client_release c)
  end.

(** [acc[row.check_name] = row.status]. *)
Fixpoint obj_set (k : string) (v : sqlval) (o : list (string * sqlval))
  : list (string * sqlval) :=
  match o with
  | [] => [(k, v)]
  | (k', v') :: rest =>
      if String.eqb k' k then (k, v) :: rest else (k', v') :: obj_set k v rest
  end.

Definition is_OK (v : sqlval) : bool :=
  match v with TEXT s => String.eqb s "OK" | _ => false end.

Definition unhealthy_result (message : string) (timestamp : Z) (err : string)
  : HealthCheckResult.t :=
  {| HealthCheckResult.status := unhealthy;
     HealthCheckResult.message := message;
     HealthCheckResult.timestamp := timestamp;
     HealthCheckResult.details := HealthCheckResult.error_details err |}.

(** [healthCheck()]. *)
Definition healthCheck : M state HealthCheckResult.t :=
  timestamp <- gets Date_now ;;
  this <- get ;;
  match pool this with
  | None => ret (unhealthy_result "Provider not initialized" timestamp "Pool not created")
  | Some _ =>
      try_catch
        (c <- pool_connect ;;
         try_finally
           (client_query c SELECT_1 ;;
            validation <- client_query c SELECT_gk_validate_setup ;;
            let checks :=
              fold_left
                (fun acc r => obj_set (text_of (col "check_name" r)) (col "status" r) acc)
                validation [] in
            let allOk := forallb (fun kv => is_OK (snd kv)) checks in
            p <- gets pool ;;
            ret {| HealthCheckResult.status := if allOk then healthy else degraded;
                   HealthCheckResult.message :=
                     if allOk then "All checks passed"
                     else "Some validation checks failed";
                   HealthCheckResult.timestamp := timestamp;
                   HealthCheckResult.details :=
                     match p with
                     | Some p =>
                         HealthCheckResult.connected_details checks
                           (totalCount p) (idleCount p) (waitingCount p)
                     | None => HealthCheckResult.connected_details checks 0 0 0
                     end |})
           (client_release c))
        (fun err =>
           log error "PostgreSQL health check failed" ;;
           ret (unhealthy_result "Health check failed" timestamp
                  (if instanceof_Error err then message_of err else "Unknown error")))
  end.

(** [new Pool(options)]: a pool without connections.  The driver takes
    [options.max || options.poolSize || 10] as its bound, a number; a bound
    below zero admits no connection.  Of the options the model has the
    bound only: the server behind the pool is the one of the state. *)
Definition new_Pool (options : list (string * jsval)) : Pool :=
  {| max := match JS.or (prop "max" options)
                    (JS.or (prop "poolSize" options) (JNum 10)) with
            | JNum n => Z.to_nat n
            | _ => 10
            end;
     totalCount := 0; idleCount := 0; waitingCount := 0 |}.

(** [initialize(config, credentials)].  The pool is made with
    [max: this.options.maxConnections] and, after it, the spread of
    [config.options], whose keys take precedence. *)
Definition initialize (cfg : DatabaseConnectionConfig.t) (credentials : DatabaseCredentials.t)
  : M state unit :=
  try_catch
    (modify (set_config (Some cfg)) ;;
     match DatabaseConnectionConfig.type cfg with
     | postgres =>
         n <- gets maxConnections ;;
         modify (set_pool
                   (Some (new_Pool
                            (JS.spread [("max", JNum (Z.of_nat n))]
                               (DatabaseConnectionConfig.options cfg))))) ;;
         c <- pool_connect ;;
         try_finally
           (client_query c SELECT_1 ;;
            log info "PostgreSQL provider initialized successfully")
           (client_release c)
     | t =>
         throw (ProviderInitializationError postgres
                  ("Invalid database type: " ++ DatabaseType_name t))
     end)
    (fun err =>
       log error "Failed to initialize PostgreSQL provider" ;;
       if instanceof_Error err
       then throw (ProviderInitializationError postgres (message_of err))
       else throw (ProviderInitializationError postgres "Unknown initialization error")).

#[global] Instance provider : DatabaseProvider state := {
  type := postgres;
  version := "1.0.0";
  initialize := initialize;
  healthCheck := healthCheck;
  createEphemeralUser := createEphemeralUser;
  dropUser := dropUser;
  listEphemeralUsers := listEphemeralUsers;
  cleanupExpiredUsers := cleanupExpiredUsers;
  generateDsn := generateDsn
}.

(** [close()]: the pool is ended and forgotten; the stored configuration
    stays. *)
Definition close : M state unit :=
  this <- get ;;
  match pool this with
  | Some _ =>
      log info "Closing PostgreSQL provider" ;;
      modify (set_pool None)
  | None => ret tt
  end.

#[global] Instance provider_close : DatabaseProviderClose state := {
  close := close
}.

End PostgresProvider.

(* ===================================================================== *)
(** ** Job contracts ([types.ts], [jobs.ts], [validation.ts]) *)
(* ===================================================================== *)

(** Library routines the code calls and the repository does not define:
    the patterns behind zod's [.uuid()] and [.email()], [JSON.stringify],
    and the SHA-256 digest in hexadecimal of [crypto.createHash]. *)
Class Platform := {
  zod_uuid : string -> bool;
  zod_email : string -> bool;
  JSON_stringify : jsval -> string;
  sha256_hex : string -> string
}.

Inductive Role := app_read | app_write | app_admin.

Definition Role_name (r : Role) : string :=
  match r with
  | app_read => "app_read"
  | app_write => "app_write"
  | app_admin => "app_admin"
  end.

Module DatabaseTarget.
Record t := { host : string; port : Z; database : string; sslMode : SslMode }.
End DatabaseTarget.

Module Requester.
Record t := { userId : string; email : option string }.
End Requester.

Module CreateSessionJob.
Record t := {
  id : string;
  correlationId : string;
  target : DatabaseTarget.t;
  role : Role;
  ttlMinutes : Z;
  requester : Requester.t;
  reason : option string
}.
End CreateSessionJob.

Module RevokeSessionJob.
Record t := { id : string; correlationId : string; sessionId : string }.
End RevokeSessionJob.

Module CleanupJob.
Record t := { id : string; correlationId : string; olderThanMinutes : Z }.
End CleanupJob.

(** [AgentJob], the union discriminated by [type]. *)
Inductive AgentJob :=
| create_session_job (job : CreateSessionJob.t)
| revoke_session_job (job : RevokeSessionJob.t)
| cleanup_job (job : CleanupJob.t).

(** The schemas.  A decoder returns the first issue zod reports (the only one
    [validate] reads) or the decoded value.  An issue is a path and a
    message; where a schema gives no message of its own the library's
    default stands. *)
Module Zod.

Record issue := { path : list string; message : string }.

Definition decoder (A : Type) : Type := jsval -> issue + A.

Definition fail {A} (msg : string) : issue + A := inl {| path := []; message := msg |}.

(** Run a decoder on a property and put the property's name in front of
    the path of its issue. *)
Definition at_key {A} (key : string) (d : decoder A) (fields : list (string * jsval))
  : issue + A :=
  match d (prop key fields) with
  | inl i => inl {| path := key :: path i; message := message i |}
  | inr a => inr a
  end.

Definition typeName (v : jsval) : string :=
  match v with
  | JUndefined => "undefined"
  | JNull => "null"
  | JBool _ => "boolean"
  | JNum _ | JNonInt _ => "number"
  | JStr _ => "string"
  | JArr _ => "array"
  | JObj _ => "object"
  end.

Definition invalid_type {A} (expected : string) (v : jsval) : issue + A :=
  match v with
  | JUndefined => fail "Required"
  | _ => fail ("Expected " ++ expected ++ ", received " ++ typeName v)
  end.

(** [z.string()] followed by one check. *)
Definition string_check (ok : string -> bool) (msg : string) : decoder string :=
  fun v =>
    match v with
    | JStr s => if ok s then inr s else fail msg
    | _ => invalid_type "string" v
    end.

(** [z.string().min(n, msg)]. *)
Definition string_min (n : nat) (msg : string) : decoder string :=
  string_check (fun s => Nat.leb n (String.length s)) msg.

(** [z.string().max(n, msg)]. *)
Definition string_max (n : nat) (msg : string) : decoder string :=
  string_check (fun s => Nat.leb (String.length s) n) msg.

(** [z.number().int().min(lo, msg_lo).max(hi, msg_hi)]. *)
Definition int_range (lo : Z) (msg_lo : string) (hi : Z) (msg_hi : string) : decoder Z :=
  fun v =>
    match v with
    | JNum n =>
        if n <? lo then fail msg_lo
        else if hi <? n then fail msg_hi
        else inr n
    | JNonInt _ => fail "Expected integer, received float"
    | _ => invalid_type "number" v
    end.

(** [z.number().int().min(lo, msg_lo)]. *)
Definition int_min (lo : Z) (msg_lo : string) : decoder Z :=
  fun v =>
    match v with
    | JNum n => if n <? lo then fail msg_lo else inr n
    | JNonInt _ => fail "Expected integer, received float"
    | _ => invalid_type "number" v
    end.

(** [schema.optional()]. *)
Definition optional {A} (d : decoder A) : decoder (option A) :=
  fun v =>
    match v with
    | JUndefined => inr None
    | _ => match d v with inl i => inl i | inr a => inr (Some a) end
    end.

(** [schema.optional().default(dflt)]. *)
Definition optional_default {A} (d : decoder A) (dflt : A) : decoder A :=
  fun v =>
    match v with
    | JUndefined => inr dflt
    | _ => d v
    end.

(** [z.enum([...])], from the table of its values. *)
Definition enum {A} (expected : string) (table : list (string * A)) : decoder A :=
  fun v =>
    match v with
    | JStr s =>
        match find (fun kv => String.eqb (fst kv) s) table with
        | Some kv => inr (snd kv)
        | None =>
            fail ("Invalid enum value. Expected " ++ expected ++ ", received '" ++ s ++ "'")
        end
    | _ => invalid_type expected v
    end.

(** [z.object({...})]: the input must be an object. *)
Definition object {A} (body : list (string * jsval) -> issue + A) : decoder A :=
  fun v =>
    match v with
    | JObj fields => body fields
    | _ => invalid_type "object" v
    end.

Definition andThen {A B} (r : issue + A) (k : A -> issue + B) : issue + B :=
  match r with
  | inl i => inl i
  | inr a => k a
  end.

Declare Scope zod_scope.
Notation "x <~ r ;; k" := (andThen r (fun x => k))
  (at level 61, r at next level, right associativity) : zod_scope.
Local Open Scope zod_scope.

Section Schemas.
Context {platform : Platform}.

(** [DatabaseTargetSchema]. *)
Definition DatabaseTargetSchema : decoder DatabaseTarget.t :=
  object (fun o =>
    host <~ at_key "host" (string_min 1 "Host is required") o ;;
    port <~ at_key "port"
              (int_range 1 "Number must be greater than or equal to 1"
                 65535 "Port must be between 1 and 65535") o ;;
    database <~ at_key "database" (string_min 1 "Database name is required") o ;;
    sslMode <~ at_key "sslMode"
                 (optional_default
                    (enum "'disable' | 'require' | 'prefer'"
                       [("disable", disable); ("require", require); ("prefer", prefer)])
                    prefer) o ;;
    inr {| DatabaseTarget.host := host; DatabaseTarget.port := port;
           DatabaseTarget.database := database; DatabaseTarget.sslMode := sslMode |}).

(** [RequesterSchema]. *)
Definition RequesterSchema : decoder Requester.t :=
  object (fun o =>
    userId <~ at_key "userId" (string_min 1 "User ID is required") o ;;
    email <~ at_key "email" (optional (string_check zod_email "Invalid email")) o ;;
    inr {| Requester.userId := userId; Requester.email := email |}).

(** [RoleSchema]. *)
Definition RoleSchema : decoder Role :=
  enum "'app_read' | 'app_write' | 'app_admin'"
    [("app_read", app_read); ("app_write", app_write); ("app_admin", app_admin)].

(** The two fields of [BaseJobSchema]. *)
Definition BaseJob_id : decoder string := string_min 1 "Job ID is required".
Definition BaseJob_correlationId : decoder string :=
  string_check zod_uuid "Correlation ID must be a valid UUID".

(** [CreateSessionJobSchema]. *)
Definition CreateSessionJobSchema : decoder CreateSessionJob.t :=
  object (fun o =>
    id <~ at_key "id" BaseJob_id o ;;
    correlationId <~ at_key "correlationId" BaseJob_correlationId o ;;
    target <~ at_key "target" DatabaseTargetSchema o ;;
    role <~ at_key "role" RoleSchema o ;;
    ttlMinutes <~ at_key "ttlMinutes"
                    (int_range 1 "TTL must be at least 1 minute"
                       1440 "TTL cannot exceed 24 hours (1440 minutes)") o ;;
    requester <~ at_key "requester" RequesterSchema o ;;
    reason <~ at_key "reason"
                (optional (string_max 256 "Reason cannot exceed 256 characters")) o ;;
    inr {| CreateSessionJob.id := id;
           CreateSessionJob.correlationId := correlationId;
           CreateSessionJob.target := target;
           CreateSessionJob.role := role;
           CreateSessionJob.ttlMinutes := ttlMinutes;
           CreateSessionJob.requester := requester;
           CreateSessionJob.reason := reason |}).

(** [RevokeSessionJobSchema]. *)
Definition RevokeSessionJobSchema : decoder RevokeSessionJob.t :=
  object (fun o =>
    id <~ at_key "id" BaseJob_id o ;;
    correlationId <~ at_key "correlationId" BaseJob_correlationId o ;;
    sessionId <~ at_key "sessionId" (string_min 1 "Session ID is required") o ;;
    inr {| RevokeSessionJob.id := id;
           RevokeSessionJob.correlationId := correlationId;
           RevokeSessionJob.sessionId := sessionId |}).

(** [CleanupJobSchema]. *)
Definition CleanupJobSchema : decoder CleanupJob.t :=
  object (fun o =>
    id <~ at_key "id" BaseJob_id o ;;
    correlationId <~ at_key "correlationId" BaseJob_correlationId o ;;
    olderThanMinutes <~ at_key "olderThanMinutes"
                          (optional_default
                             (int_min 0 "Cleanup threshold must be non-negative") 5) o ;;
    inr {| CleanupJob.id := id;
           CleanupJob.correlationId := correlationId;
           CleanupJob.olderThanMinutes := olderThanMinutes |}).

(** [AgentJobSchema = z.discriminatedUnion('type', [...])]. *)
Definition AgentJobSchema : decoder AgentJob :=
  fun v =>
    match v with
    | JObj o =>
        let invalid_discriminator :=
          inl {| path := ["type"];
                 message := "Invalid discriminator value. Expected 'create_session' | 'revoke_session' | 'cleanup'" |} in
        match prop "type" o with
        | JStr type =>
            if String.eqb type "create_session" then
              j <~ CreateSessionJobSchema v ;; inr (create_session_job j)
            else if String.eqb type "revoke_session" then
              j <~ RevokeSessionJobSchema v ;; inr (revoke_session_job j)
            else if String.eqb type "cleanup" then
              j <~ CleanupJobSchema v ;; inr (cleanup_job j)
            else invalid_discriminator
        | _ => invalid_discriminator
        end
    | _ => invalid_type "object" v
    end.

(** [path.join('.')]. *)
Fixpoint join_path (p : list string) : string :=
  match p with
  | [] => ""
  | [k] => k
  | k :: rest => k ++ "." ++ join_path rest
  end.

(** [validate(schema, data, context)]: the decoded value or the
    [ValidationError] built from the first issue. *)
Definition validate {A} (schema : decoder A) (data : jsval) (context : string)
  : exn + A :=
  match schema data with
  | inr a => inr a
  | inl firstIssue =>
      let m := if String.eqb (message firstIssue) "" then "Validation failed"
               else message firstIssue in
      inl (ValidationError (context ++ ": " ++ m) (Some (join_path (path firstIssue))))
  end.

(** [validateAgentJob(data)]. *)
Definition validateAgentJob (data : jsval) : exn + AgentJob :=
  validate AgentJobSchema data "Invalid agent job".

(** [validateTTL(ttlMinutes, maxTTL)] on an integer. *)
Definition validateTTL (ttlMinutes maxTTL : Z) : exn + Z :=
  if ttlMinutes <? 1 then
    inl (ValidationError "TTL must be at least 1 minute" (Some "ttlMinutes"))
  else if maxTTL <? ttlMinutes then
    inl (ValidationError
           ("TTL cannot exceed " ++ Str.of_Z maxTTL ++ " minutes ("
              ++ Str.of_Z (maxTTL / 60) ++ " hours)")
           (Some "ttlMinutes"))
  else inr ttlMinutes.

(** [validateEphemeralUsername(username)], as a test. *)
Definition validEphemeralUsername (username : string) : bool :=
  (re_gk_alnum username
   && Nat.leb 4 (String.length username)
   && Nat.leb (String.length username) 63)%bool.

(** [z.string()] with several checks.  Zod runs every check and raises an
    issue for each one that fails, in the order the checks were added;
    [validate] reads the first. *)
Definition string_checks (checks : list ((string -> bool) * string)) : decoder string :=
  fun v =>
    match v with
    | JStr s =>
        match find (fun c => negb (fst c s)) checks with
        | Some c => fail (snd c)
        | None => inr s
        end
    | _ => invalid_type "string" v
    end.

Definition min_length (n : nat) (s : string) : bool := Nat.leb n (String.length s).
Definition max_length (n : nat) (s : string) : bool := Nat.leb (String.length s) n.

(** [validateSessionId(sessionId)]. *)
Definition validateSessionId (sessionId : string) : exn + string :=
  validate
    (string_checks
       [ (re_ses_alnum,
           "Session ID must start with " ++ Str.dquote ++ "ses_" ++ Str.dquote
             ++ " followed by alphanumeric characters");
         (min_length 8, "Session ID too short");
         (max_length 64, "Session ID too long") ])
    (JStr sessionId) "Invalid session ID".

(** [validateEphemeralUsername(username)]. *)
Definition validateEphemeralUsername (username : string) : exn + string :=
  validate
    (string_checks
       [ (re_gk_alnum,
           "Ephemeral username must start with " ++ Str.dquote ++ "gk_" ++ Str.dquote
             ++ " followed by alphanumeric characters");
         (min_length 4, "Username too short");
         (max_length 63, "Username too long") ])
    (JStr username) "Invalid ephemeral username".

End Schemas.

End Zod.

(* ===================================================================== *)
(** ** The agent orchestrator ([agent.ts]) *)
(* ===================================================================== *)

Module JobError.
Record t := { code : string; message : string; retryable : bool }.
End JobError.

Inductive RevokeStatus := revoked | revoke_failed | not_found.
Inductive CleanupStatus := completed | cleanup_failed.

(** What [processJob] returns: a [CreateSessionResult] with status [ready],
    a [RevokeSessionResult], a [CleanupResult], or the bare
    [{ status: 'failed', error }] of its own [catch]. *)
Inductive JobResult :=
| CreateSessionReady (sessionId dsn : string) (expiresAt : Z) (username : string)
| RevokeSessionResult (status : RevokeStatus) (error : option JobError.t)
| CleanupResult (status : CleanupStatus) (cleanedCount : nat) (error : option JobError.t)
| Failed (error : JobError.t).

Module AgentConfig.
(** [config.database.connection], [config.database.credentials] and
    [config.sessionMaxTtlMinutes]; the provider is the instance in scope. *)
Record t := {
  connection : DatabaseConnectionConfig.t;
  credentials : DatabaseCredentials.t;
  sessionMaxTtlMinutes : Z
}.
End AgentConfig.

(** What the orchestrator's [healthCheck] returns. *)
Module AgentHealth.
Inductive status_t := ok | degraded | down.

(** [{ provider: { type, version }, ...healthResult.details }], or
    [{ error }]. *)
Inductive details_t :=
| provider_details (type : DatabaseType) (version : string)
    (details : HealthCheckResult.details_t)
| error_details (error : string).

Record t := { status : status_t; details : details_t }.
End AgentHealth.

Module Agent.
Local Open Scope monad_scope.

Inductive level := info | warn | error.

(** The argument of [auditEvent]. *)
Record audit_event := {
  eventType : string;
  sessionId : option string;
  username : option string;
  correlationId : option string;
  eventData : jsval
}.

(** The [audit] object [auditEvent] hands to the logger. *)
Record audit_entry := {
  logged_eventType : string;
  logged_sessionId : option string;
  logged_username : option string;
  logged_correlationId : option string;
  eventHash : string
}.

(** A call of the provider. *)
Inductive call :=
| call_initialize
| call_createEphemeralUser (request : CreateEphemeralUserRequest.t)
| call_dropUser (username : string)
| call_cleanupExpiredUsers (olderThanMinutes : Z).

(** What the orchestrator does, in order: it calls the provider, the call
    settles ([Settled true] when it resolved), it writes a log line, it
    logs an audit event. *)
Inductive event :=
| Call (c : call)
| Settled (ok : bool)
| Log (l : level) (msg : string)
| Audit (a : audit_entry).

Section WithProvider.
Context {platform : Platform} {S : Type} {provider : DatabaseProvider S}.
Variable config : AgentConfig.t.

(** The agent object and what surrounds it: the provider's state,
    [this.initialized], the bytes [crypto.randomBytes] will hand out and
    how many it has handed out, and the events so far. *)
Record state := {
  provider_state : S;
  initialized : bool;
  entropy : nat -> byte;
  drawn : nat;
  events : list event
}.

Definition emit (e : event) (s : state) : state :=
  {| provider_state := provider_state s; initialized := initialized s;
     entropy := entropy s; drawn := drawn s;
     events := (events s ++ [e])%list |}.

Definition set_initialized (b : bool) (s : state) : state :=
  {| provider_state := provider_state s; initialized := b;
     entropy := entropy s; drawn := drawn s; events := events s |}.

Definition log (l : level) (msg : string) : M state unit := modify (emit (Log l msg)).

(** [await this.provider.<operation>(...)]. *)
Definition invoke {A} (c : call) (op : M S A) : M state A :=
  fun s =>
    let s1 := emit (Call c) s in
    match op (provider_state s1) with
    | (r, p) =>
        (r, emit (Settled match r with Ok _ => true | Throw _ => false end)
              {| provider_state := p; initialized := initialized s1;
                 entropy := entropy s1; drawn := drawn s1; events := events s1 |})
    end.

(** [crypto.randomBytes(n)]. *)
Definition randomBytes (n : nat) : M state (list byte) :=
  fun s =>
    (Ok (map (entropy s) (seq (drawn s) n)),
      {| provider_state := provider_state s; initialized := initialized s;
         entropy := entropy s; drawn := (drawn s + n)%nat; events := events s |}).

(** [generateId()]. *)
Definition generateId : M state string :=
  bytes <- randomBytes 6 ;;
  ret (Buffer.to_hex bytes).

(** [generatePassword()]. *)
Definition generatePassword : M state string :=
  a <- randomBytes 16 ;;
  b <- randomBytes 4 ;;
  ret (Buffer.to_base64 a ++ Buffer.to_hex b).

(** [initialize()]. *)
Definition initialize : M state unit :=
  init <- gets initialized ;;
  if init then ret tt
  else
    try_catch
      (invoke call_initialize
         (initialize (AgentConfig.connection config) (AgentConfig.credentials config)) ;;
       modify (set_initialized true) ;;
       log info "Agent provider initialized successfully")
      (fun err =>
         log error "Failed to initialize agent provider" ;;
         throw err).

(** [findUsernameForSession(sessionId)]. *)
Definition findUsernameForSession (sessionId : string) : M state (option string) :=
  try_catch
    (log warn "Session username lookup not implemented for provider pattern" ;;
     ret None)
    (fun _ =>
       log error "Failed to find username for session" ;;
       ret None).

(** [auditEvent(event)]: the hash is computed and the event goes to the
    logger. *)
Definition auditEvent (ev : audit_event) : M state unit :=
  try_catch
    (let eventHash :=
       sha256_hex
         (JSON_stringify
            (JObj [("type", JStr (eventType ev)); ("data", eventData ev)])) in
     modify (emit (Audit {| logged_eventType := eventType ev;
                            logged_sessionId := sessionId ev;
                            logged_username := username ev;
                            logged_correlationId := correlationId ev;
                            eventHash := eventHash |})))
    (fun _ => log warn "Failed to log audit event").

(** [{ type: this.provider.type, version: this.provider.version }]. *)
Definition provider_info : jsval :=
  JObj [("type", JStr (DatabaseType_name type)); ("version", JStr version)].

Definition opt_str (o : option string) : jsval :=
  match o with Some s => JStr s | None => JUndefined end.

(** The [eventData] of [session.created]. *)
Definition created_eventData (job : CreateSessionJob.t) : jsval :=
  let target := CreateSessionJob.target job in
  let requester := CreateSessionJob.requester job in
  JObj [ ("jobId", JStr (CreateSessionJob.id job));
         ("role", JStr (Role_name (CreateSessionJob.role job)));
         ("ttlMinutes", JNum (CreateSessionJob.ttlMinutes job));
         ("requester",
           JObj [ ("userId", JStr (Requester.userId requester));
                  ("email", opt_str (Requester.email requester)) ]);
         ("reason", opt_str (CreateSessionJob.reason job));
         ("target",
           JObj [ ("host", JStr (DatabaseTarget.host target));
                  ("port", JNum (DatabaseTarget.port target));
                  ("database", JStr (DatabaseTarget.database target)) ]);
         ("provider", provider_info) ].

(** [createSession(job, logger)]. *)
Definition createSession (job : CreateSessionJob.t) : M state JobResult :=
  let ttlMinutes := CreateSessionJob.ttlMinutes job in
  if AgentConfig.sessionMaxTtlMinutes config <? ttlMinutes then
    throw (ValidationError
             ("TTL " ++ Str.of_Z ttlMinutes ++ " exceeds maximum allowed "
                ++ Str.of_Z (AgentConfig.sessionMaxTtlMinutes config) ++ " minutes")
             None)
  else
    try_catch
      (id1 <- generateId ;;
       let sessionId := "ses_" ++ id1 in
       id2 <- generateId ;;
       let username := "gk_" ++ id2 in
       password <- generatePassword ;;
       log info "Creating ephemeral session via provider" ;;
       let request :=
         {| CreateEphemeralUserRequest.username := username;
            CreateEphemeralUserRequest.password := password;
            CreateEphemeralUserRequest.role := Role_name (CreateSessionJob.role job);
            CreateEphemeralUserRequest.ttlMinutes := ttlMinutes;
            CreateEphemeralUserRequest.connectionLimit := 2 |} in
       result <- invoke (call_createEphemeralUser request) (createEphemeralUser request) ;;
       auditEvent {| eventType := "session.created";
                     sessionId := Some sessionId;
                     username := Some username;
                     correlationId := Some (CreateSessionJob.correlationId job);
                     eventData := created_eventData job |} ;;
       log info "Session created successfully via provider" ;;
       ret (CreateSessionReady sessionId
              (CreateEphemeralUserResult.dsn result)
              (CreateEphemeralUserResult.expiresAt result)
              username))
      (fun err =>
         log error "Failed to create session via provider" ;;
         if instanceof_ValidationError err then throw err
         else throw (DatabaseError "Failed to create ephemeral session" true)).

(** [revokeSession(job, logger)]. *)
Definition revokeSession (job : RevokeSessionJob.t) : M state JobResult :=
  let sessionId := RevokeSessionJob.sessionId job in
  try_catch
    (log info "Revoking session via provider" ;;
     found <- findUsernameForSession sessionId ;;
     match found with
     | None =>
         log warn "Session not found for revocation" ;;
         ret (RevokeSessionResult not_found None)
     | Some username =>
         success <- invoke (call_dropUser username) (dropUser username) ;;
         if success : bool then
           auditEvent
             {| eventType := "session.revoked";
                Agent.sessionId := Some sessionId;
                Agent.username := Some username;
                correlationId := Some (RevokeSessionJob.correlationId job);
                eventData :=
                  JObj [ ("jobId", JStr (RevokeSessionJob.id job));
                         ("revokedBy", JStr "agent");
                         ("provider", provider_info) ] |} ;;
           log info "Session revoked successfully via provider" ;;
           ret (RevokeSessionResult revoked None)
         else
           log warn "User was already removed or not found" ;;
           ret (RevokeSessionResult not_found None)
     end)
    (fun _ =>
       log error "Failed to revoke session via provider" ;;
       ret (RevokeSessionResult revoke_failed
              (Some {| JobError.code := "REVOCATION_ERROR";
                       JobError.message := "Failed to revoke session";
                       JobError.retryable := true |}))).

(** [cleanup(job, logger)]. *)
Definition cleanup (job : CleanupJob.t) : M state JobResult :=
  let olderThanMinutes := CleanupJob.olderThanMinutes job in
  try_catch
    (log info "Starting cleanup of expired sessions via provider" ;;
     cleanupResults <- invoke (call_cleanupExpiredUsers olderThanMinutes)
                         (cleanupExpiredUsers olderThanMinutes) ;;
     let successfulCleanups := filter UserCleanupResult.dropped cleanupResults in
     (if Nat.ltb 0 (List.length successfulCleanups) then
        auditEvent
          {| eventType := "sessions.cleaned";
             sessionId := None;
             username := None;
             correlationId := Some (CleanupJob.correlationId job);
             eventData :=
               JObj [ ("jobId", JStr (CleanupJob.id job));
                      ("olderThanMinutes", JNum olderThanMinutes);
                      ("cleanedCount",
                        JNum (Z.of_nat (List.length successfulCleanups)));
                      ("cleanedUsers",
                        JArr (map (fun r => JStr (UserCleanupResult.username r))
                                successfulCleanups));
                      ("provider", provider_info) ] |}
      else ret tt) ;;
     log info "Cleanup completed via provider" ;;
     ret (CleanupResult completed (List.length successfulCleanups) None))
    (fun _ =>
       log error "Cleanup failed via provider" ;;
       ret (CleanupResult cleanup_failed 0
              (Some {| JobError.code := "CLEANUP_ERROR";
                       JobError.message := "Failed to cleanup expired sessions";
                       JobError.retryable := true |}))).

(** [validateAgentJob(jobData)], thrown or returned. *)
Definition validateAgentJob (jobData : jsval) : M state AgentJob :=
  match Zod.validateAgentJob jobData with
  | inl err => throw err
  | inr job => ret job
  end.

(** [if (!this.initialized) { await this.initialize() }]. *)
Definition ensureInitialized : M state unit :=
  init <- gets initialized ;;
  if init then ret tt else initialize.

(** [processJob(jobData, correlationId)].  The correlation id only names
    the child logger. *)
Definition processJob (jobData : jsval) (correlationId : option string)
  : M state JobResult :=
  ensureInitialized ;;
  try_catch
    (job <- validateAgentJob jobData ;;
     log info "Processing agent job" ;;
     match job with
     | create_session_job j => createSession j
     | revoke_session_job j => revokeSession j
     | cleanup_job j => cleanup j
     end)
    (fun err =>
       log error "Job processing failed" ;;
       match err with
       | ValidationError message _ =>
           ret (Failed {| JobError.code := "VALIDATION_ERROR";
                          JobError.message := message;
                          JobError.retryable := false |})
       | _ =>
           ret (Failed {| JobError.code := "INTERNAL_ERROR";
                          JobError.message := "Internal server error";
                          JobError.retryable := true |})
       end).

(** A call of the provider that is not recorded among the events. *)
Definition probe {A} (op : M S A) : M state A :=
  fun s =>
    match op (provider_state s) with
    | (r, p) =>
        (r, {| provider_state := p; initialized := initialized s;
               entropy := entropy s; drawn := drawn s; events := events s |})
    end.

(** [healthCheck()]. *)
Definition healthCheck : M state AgentHealth.t :=
  try_catch
    (ensureInitialized ;;
     healthResult <- probe healthCheck ;;
     ret {| AgentHealth.status :=
              match HealthCheckResult.status healthResult with
              | healthy => AgentHealth.ok
              | degraded => AgentHealth.degraded
              | unhealthy => AgentHealth.down
              end;
            AgentHealth.details :=
              AgentHealth.provider_details type version
                (HealthCheckResult.details healthResult) |})
    (fun err =>
       log error "Health check failed" ;;
       ret {| AgentHealth.status := AgentHealth.down;
              AgentHealth.details :=
                AgentHealth.error_details
                  (if instanceof_Error err then message_of err
                   else "Unknown error") |}).

Context {provider_close : DatabaseProviderClose S}.

(** [shutdown()]. *)
Definition shutdown : M state unit :=
  log info "Shutting down agent..." ;;
  init <- gets initialized ;;
  (if init then probe close else ret tt) ;;
  modify (set_initialized false) ;;
  log info "Agent shutdown complete".

End WithProvider.

Arguments state : clear implicits.

End Agent.

(* ===================================================================== *)
(** ** The Lambda handler ([lambda/handler.ts]) *)
(* ===================================================================== *)

(** [JSON.parse]: the value, or the message of the [SyntaxError] it
    throws. *)
Class Runtime := {
  JSON_parse : string -> string + jsval
}.

Module Lambda.
Local Open Scope monad_scope.

(** The value [JSON.stringify] renders as the body of a response. *)
Inductive body :=
| error_body (error : string)
| error_body_with_correlationId (error : string) (correlationId : jsval)
| not_found_body (error : string) (availableEndpoints : list string)
| health_body (health : AgentHealth.t)
| result_body (result : JobResult).

Record LambdaResponse := {
  statusCode : Z;
  headers : list (string * jsval);
  response_body : body
}.

(** What [handler] returns: a response, or the result of the job for a
    direct invocation. *)
Inductive result :=
| Response (r : LambdaResponse)
| Direct (r : JobResult).

(** The second argument of [handler], as far as the handler reads it:
    [undefined], [null], or a value with the properties [requestId] and
    [functionName] and with [remainingTimeInMillis], which is no function
    ([None]), or a function whose call throws or returns. *)
Inductive Context :=
| context_undefined
| context_null
| context_value (requestId functionName : jsval)
    (remainingTimeInMillis : option (exn + jsval)).

Section WithAgent.
Context {platform : Platform} {runtime : Runtime}
        {S : Type} {provider : DatabaseProvider S}.
Variable config : AgentConfig.t.

(** The module's [agentInstance], [null] until the first invocation; what a
    new agent finds in this container (its provider, not yet initialised,
    and the random source); and the lines the handler's own logger has
    written. *)
Record state := {
  agentInstance : option (Agent.state S);
  container : Agent.state S;
  lines : list (Agent.level * string)
}.

Definition log (l : Agent.level) (msg : string) : M state unit :=
  modify (fun s => {| agentInstance := agentInstance s;
                      container := container s;
                      lines := (lines s ++ [(l, msg)])%list |}).

(** [initializeAgent()]: [new GatekeeperAgent(config)] on the configuration
    read from the environment.  The constructor registers the providers,
    makes the provider of the configured type, which is always PostgreSQL
    and which the registry then has, and writes a log line after each of
    the two; the agent starts out not initialised. *)
Definition initializeAgent (s : state) : Agent.state S :=
  Agent.emit (Agent.Log Agent.info "Gatekeeper Agent initialized")
    (Agent.emit (Agent.Log Agent.info "Database providers registered")
       (Agent.set_initialized false (container s))).

(** The agent [getAgent()] returns. *)
Definition agent (s : state) : Agent.state S :=
  match agentInstance s with
  | Some a => a
  | None => initializeAgent s
  end.

Definition set_agent (a : Agent.state S) (s : state) : state :=
  {| agentInstance := Some a; container := container s; lines := lines s |}.

(** [getAgent()]. *)
Definition getAgent : M state (Agent.state S) :=
  fun s => (Ok (agent s), set_agent (agent s) s).

(** [await agent.<method>(...)], for the [agent] that [getAgent()] has
    returned, which is the instance the module keeps. *)
Definition on_agent {A} (m : M (Agent.state S) A) : M state A :=
  fun s =>
    match m (agent s) with
    | (r, a) => (r, set_agent a s)
    end.

(** A value, or the error thrown instead of it. *)
Definition lift {A} (r : exn + A) : M state A :=
  match r with
  | inl e => throw e
  | inr a => ret a
  end.

(** [context.requestId] and [context.functionName]. *)
Definition context_requestId (context : Context) : exn + jsval :=
  match context with
  | context_undefined => JS.get JUndefined "requestId"
  | context_null => JS.get JNull "requestId"
  | context_value requestId _ _ => inr requestId
  end.

Definition context_functionName (context : Context) : exn + jsval :=
  match context with
  | context_undefined => JS.get JUndefined "functionName"
  | context_null => JS.get JNull "functionName"
  | context_value _ functionName _ => inr functionName
  end.

(** [context.remainingTimeInMillis()]. *)
Definition context_remainingTimeInMillis (context : Context) : exn + jsval :=
  match context with
  | context_undefined => JS.get JUndefined "remainingTimeInMillis"
  | context_null => JS.get JNull "remainingTimeInMillis"
  | context_value _ _ None => inl (JsError "context.remainingTimeInMillis is not a function")
  | context_value _ _ (Some r) => r
  end.

Definition as_string (v : jsval) : option string :=
  match v with
  | JStr s => Some s
  | _ => None
  end.

Definition json_headers : list (string * jsval) :=
  [("Content-Type", JStr "application/json")].

Definition internal_server_error (correlationId : jsval) : LambdaResponse :=
  {| statusCode := 500;
     headers := json_headers;
     response_body := error_body_with_correlationId "Internal server error" correlationId |}.

Definition invalid_json : LambdaResponse :=
  {| statusCode := 400;
     headers := json_headers;
     response_body := error_body "Invalid JSON in request body" |}.

(** The [catch] of [handleHttpRequest], on the [SyntaxError] of
    [JSON.parse].  None of the errors the agent throws is a
    [SyntaxError]. *)
Definition http_catch_SyntaxError (message : string) (correlationId : jsval)
  : M state LambdaResponse :=
  log Agent.error "HTTP request failed" ;;
  if Str.includes message "JSON" then ret invalid_json
  else ret (internal_server_error correlationId).

(** [handleHttpRequest(event, agent, logger, correlationId)].  It is called
    with an event that has a truthy [httpMethod], which is neither [null]
    nor [undefined]: [event.<name>] is [event?.<name>]. *)
Definition handleHttpRequest (event : jsval) (correlationId : jsval)
  : M state LambdaResponse :=
  let method := JS.optional_prop event "httpMethod" in
  let path := JS.or (JS.optional_prop event "path") (JStr "/") in
  log Agent.info "Processing HTTP request" ;;
  try_catch
    (if (JS.strict_eq method "GET" && JS.strict_eq path "/health")%bool then
       health <- on_agent (Agent.healthCheck config) ;;
       ret {| statusCode :=
                match AgentHealth.status health with
                | AgentHealth.ok => 200
                | _ => 503
                end;
              headers := json_headers;
              response_body := health_body health |}
     else if (JS.strict_eq method "POST" && JS.strict_eq path "/jobs")%bool then
       if negb (JS.truthy (JS.optional_prop event "body")) then
         ret {| statusCode := 400;
                headers := json_headers;
                response_body := error_body "Request body required" |}
       else
         match JSON_parse (JS.ToString (JS.optional_prop event "body")) with
         | inl message => http_catch_SyntaxError message correlationId
         | inr jobData =>
             result <- on_agent (Agent.processJob config jobData (as_string correlationId)) ;;
             ret {| statusCode := 200;
                    headers := (json_headers ++ [("X-Correlation-ID", correlationId)])%list;
                    response_body := result_body result |}
         end
     else
       ret {| statusCode := 404;
              headers := json_headers;
              response_body :=
                not_found_body "Not found" ["GET /health"; "POST /jobs"] |})
    (fun _ =>
       log Agent.error "HTTP request failed" ;;
       ret (internal_server_error correlationId)).

(** [event.correlationId || event.requestContext?.requestId ||
    context.requestId]: the first read throws on an event that is [null] or
    [undefined]; the context is read only when the event gives no id. *)
Definition correlationId_of (event : jsval) (context : Context) : exn + jsval :=
  match JS.get event "correlationId" with
  | inl e => inl e
  | inr id =>
      if JS.truthy id then inr id
      else
        let requestId :=
          JS.optional_prop (JS.optional_prop event "requestContext") "requestId" in
        if JS.truthy requestId then inr requestId
        else context_requestId context
  end.

(** The body of the [try] of [handler], on an event that is neither [null]
    nor [undefined]. *)
Definition handler_try (event : jsval) (correlationId : jsval) : M state result :=
  let processJob jobData :=
    r <- on_agent (Agent.processJob config jobData (as_string correlationId)) ;;
    ret (Direct r) in
  if JS.truthy (JS.optional_prop event "httpMethod") then
    r <- handleHttpRequest event correlationId ;;
    ret (Response r)
  else if JS.truthy (JS.optional_prop event "jobData") then
    processJob (JS.optional_prop event "jobData")
  else if JS.truthy (JS.optional_prop event "body") then
    match JS.optional_prop event "body" with
    | JStr body =>
        match JSON_parse body with
        | inl _ =>
            log Agent.error "Failed to parse job data from body" ;;
            ret (Response invalid_json)
        | inr jobData => processJob jobData
        end
    | body => processJob body
    end
  else processJob event.

(** The [catch] of [handler]. *)
Definition handler_catch (event : jsval) (correlationId : jsval) : M state result :=
  log Agent.error "Lambda handler error" ;;
  if JS.truthy (JS.optional_prop event "httpMethod") then
    ret (Response (internal_server_error correlationId))
  else
    ret (Direct (Failed {| JobError.code := "LAMBDA_ERROR";
                           JobError.message := "Lambda execution failed";
                           JobError.retryable := false |})).

(** [handler(event, context)].  Before its [try] it gets the agent, works
    out the correlation id, and makes its logger with [context.functionName]
    and the result of [context.remainingTimeInMillis()]; what these throw,
    the handler throws. *)
Definition handler (event : jsval) (context : Context) : M state result :=
  getAgent ;;
  correlationId <- lift (correlationId_of event context) ;;
  lift (context_functionName context) ;;
  lift (context_remainingTimeInMillis context) ;;
  try_catch (handler_try event correlationId)
    (fun _ => handler_catch event correlationId).

End WithAgent.

Arguments state : clear implicits.

End Lambda.

(* ===================================================================== *)
(** ** The provider registry ([provider-registry.ts], [provider-factory.ts]) *)
(* ===================================================================== *)

Definition DatabaseType_eqb (a b : DatabaseType) : bool :=
  match a, b with
  | postgres, postgres | oracle, oracle | sqlserver, sqlserver | mysql, mysql => true
  | _, _ => false
  end.

(** [new ProviderNotFoundError(type)]. *)
Definition ProviderNotFoundError (type : DatabaseType) : exn :=
  DatabaseProviderError
    ("Database provider for type '" ++ DatabaseType_name type ++ "' not found")
    "PROVIDER_NOT_FOUND" false (Some type).

(** [class DefaultDatabaseProviderRegistry], over the type of the providers
    the factories make.  The registry is [this.factories], a [Map] that
    keeps its keys in the order they were first set; an operation that
    changes it returns the new one. *)
Module DefaultDatabaseProviderRegistry.
Section Registry.
Variable Provider : Type.

Definition DatabaseProviderFactory : Type := unit -> Provider.

Definition t : Type := list (DatabaseType * DatabaseProviderFactory).

(** [Map.prototype.set]. *)
Fixpoint Map_set (type : DatabaseType) (factory : DatabaseProviderFactory) (m : t) : t :=
  match m with
  | [] => [(type, factory)]
  | (k, v) :: rest =>
      if DatabaseType_eqb k type then (type, factory) :: rest
      else (k, v) :: Map_set type factory rest
  end.

(** [Map.prototype.get]. *)
Fixpoint Map_get (type : DatabaseType) (m : t) : option DatabaseProviderFactory :=
  match m with
  | [] => None
  | (k, v) :: rest => if DatabaseType_eqb k type then Some v else Map_get type rest
  end.

Definition register (type : DatabaseType) (factory : DatabaseProviderFactory) (this : t)
  : t := Map_set type factory this.

Definition get (type : DatabaseType) (this : t) : option DatabaseProviderFactory :=
  Map_get type this.

Definition create (type : DatabaseType) (this : t) : exn + Provider :=
  match Map_get type this with
  | None => inl (ProviderNotFoundError type)
  | Some factory => inr (factory tt)
  end.

Definition getSupportedTypes (this : t) : list DatabaseType := map fst this.

Definition isSupported (type : DatabaseType) (this : t) : bool :=
  match Map_get type this with
  | Some _ => true
  | None => false
  end.

Definition clear (this : t) : t := [].

Definition size (this : t) : nat := List.length this.

End Registry.
End DefaultDatabaseProviderRegistry.

Module ProviderFactory.
Import DefaultDatabaseProviderRegistry.

(** The provider a factory makes: [new PostgresProvider(logger)] and the
    three stubs. *)
Inductive NewProvider :=
| new_PostgresProvider
| new_OracleProvider
| new_SqlServerProvider
| new_MySqlProvider.

(** [registerDatabaseProviders(logger)] on the global registry: the
    registry after it, and the [supportedTypes] it logs. *)
Definition registerDatabaseProviders (databaseProviderRegistry : t NewProvider)
  : t NewProvider * list DatabaseType :=
  let r1 := register _ postgres (fun _ => new_PostgresProvider) databaseProviderRegistry in
  let r2 := register _ oracle (fun _ => new_OracleProvider) r1 in
  let r3 := register _ sqlserver (fun _ => new_SqlServerProvider) r2 in
  let r4 := register _ mysql (fun _ => new_MySqlProvider) r3 in
  (r4, getSupportedTypes _ r4).

(** [createDatabaseProvider(type, logger)]. *)
Definition createDatabaseProvider (type : DatabaseType)
  (databaseProviderRegistry : t NewProvider) : exn + NewProvider :=
  if negb (isSupported _ type databaseProviderRegistry)
  then inl (ProviderNotFoundError type)
  else create _ type databaseProviderRegistry.

(** [getProductionReadyDatabaseTypes()]. *)
Definition getProductionReadyDatabaseTypes : list DatabaseType := [postgres].

(** [isDatabaseTypeProductionReady(type)]. *)
Definition isDatabaseTypeProductionReady (type : DatabaseType) : bool :=
  existsb (DatabaseType_eqb type) getProductionReadyDatabaseTypes.

End ProviderFactory.

(* ===================================================================== *)
(** ** Scenarios: a bootstrapped database and an agent to run jobs on *)
(* ===================================================================== *)

Module Scenario.
Import Pg.

(** [8-4-4-4-12] hexadecimal digits. *)
Fixpoint uuid_groups (groups : list nat) (s : string) : bool :=
  match groups with
  | [] => String.eqb s ""
  | n :: rest =>
      let head := substring 0 n s in
      let tail := substring n (String.length s - n) s in
      (Nat.eqb (String.length head) n && Str.all Str.is_hex head
       && match rest with
          | [] => String.eqb tail ""
          | _ => match tail with
                 | String "-" t => uuid_groups rest t
                 | _ => false
                 end
          end)%bool
  end.

(** A plain rendering of a value, properties without a value left out. *)
Fixpoint stringify (v : jsval) : string :=
  match v with
  | JUndefined | JNull => "null"
  | JBool true => "true"
  | JBool false => "false"
  | JNum n => Str.of_Z n
  | JNonInt t => t
  | JStr s => Str.dquote ++ s ++ Str.dquote
  | JArr items =>
      "[" ++ (fix go (l : list jsval) : string :=
                match l with
                | [] => ""
                | [x] => stringify x
                | x :: r => stringify x ++ "," ++ go r
                end) items ++ "]"
  | JObj fields =>
      "{" ++ (fix go (l : list (string * jsval)) (sep : string) : string :=
                match l with
                | [] => ""
                | (_, JUndefined) :: r => go r sep
                | (k, x) :: r =>
                    sep ++ Str.dquote ++ k ++ Str.dquote ++ ":" ++ stringify x ++ go r ","
                end) fields "" ++ "}"
  end.

(** Stand-ins for the library routines, to run the scenarios with. *)
#[export] Instance platform : Platform := {
  zod_uuid := uuid_groups [8; 4; 4; 4; 12]%nat;
  zod_email := fun s => Str.includes s "@";
  JSON_stringify := stringify;
  sha256_hex := fun s => "sha256:" ++ s
}.

Definition group_role (name : string) : pg_role :=
  {| rolname := name; rolcanlogin := false; rolpassword := None;
     rolvaliduntil := None; rolconnlimit := -1; rolmemberof := [];
     rolsearch_path := None |}.

Definition login_role (name : string) (valid_until : option Z) (member_of : list string)
  : pg_role :=
  {| rolname := name; rolcanlogin := true; rolpassword := Some "secret";
     rolvaliduntil := valid_until; rolconnlimit := 2; rolmemberof := member_of;
     rolsearch_path := Some "public" |}.

Definition t0 : Z := 1700000000000.

(** The database as the bootstrap script leaves it. *)
Definition bootstrapped : database :=
  {| pg_roles :=
       [ login_role "gatekeeper_admin" None ["app_analyst"; "app_admin"; "app_write"; "app_read"];
         group_role "app_read"; group_role "app_write"; group_role "app_admin";
         group_role "app_analyst" ];
     pg_stat_activity :=
       [ {| pid := 100; usename := "gatekeeper_admin"; state := "active" |} ];
     pg_backend_pid := 100;
     acl := [ ("app_read", ALL_TABLES_IN_SCHEMA_public);
              ("app_read", SCHEMA_public); ("app_read", DATABASE_app) ];
     owners := ["gatekeeper_admin"];
     pg_proc := [ "gk_create_ephemeral_user"; "gk_drop_user"; "gk_list_ephemeral_users";
                  "gk_cleanup_expired_users"; "gk_create_permanent_user";
                  "gk_update_permanent_user"; "gk_reset_user_password";
                  "gk_validate_setup" ];
     sample_data := 3;
     gatekeeper_audit :=
       [ {| audit_id := 1; event_type := "setup.completed"; session_id := None;
            audit_username := None;
            correlation_id := Some "6f1c2a34-0000-4000-8000-000000000001";
            event_data := Some "{version: 1.0.0}";
            created_at := t0 - 1000; prev_hash := None;
            event_hash := Some "sha256:setup.completed" |} ];
     server_version := "PostgreSQL 16.1";
     db_now := t0 |}.

Definition add_roles (rs : list pg_role) (db : database) : database :=
  with_roles (fun l => (l ++ rs)%list) db.

Definition connection : DatabaseConnectionConfig.t :=
  {| DatabaseConnectionConfig.type := postgres;
     DatabaseConnectionConfig.host := "db";
     DatabaseConnectionConfig.port := 5432;
     DatabaseConnectionConfig.database := "app";
     DatabaseConnectionConfig.sslMode := Some prefer;
     DatabaseConnectionConfig.options := [] |}.

Definition credentials : DatabaseCredentials.t :=
  {| DatabaseCredentials.username := "gatekeeper_admin";
     DatabaseCredentials.password := "gatekeeper_admin_password_change_in_production" |}.

(** A provider not yet initialised, in front of the database [db]. *)
Definition fresh_provider (db : database) : PostgresProvider.state :=
  {| PostgresProvider.pool := None;
     PostgresProvider.config := None;
     PostgresProvider.maxConnections := 10;
     PostgresProvider.session := {| Sql.server := db; Sql.txn := None |};
     PostgresProvider.Date_now := t0;
     PostgresProvider.faults := fun _ => None;
     PostgresProvider.still_runs := fun _ => false;
     PostgresProvider.tick := 0;
     PostgresProvider.trace := [] |}.

(** The same provider after [initialize] has run. *)
Definition ready_provider (db : database) : PostgresProvider.state :=
  snd (PostgresProvider.initialize connection credentials (fresh_provider db)).

Definition config (maxTtl : Z) : AgentConfig.t :=
  {| AgentConfig.connection := connection;
     AgentConfig.credentials := credentials;
     AgentConfig.sessionMaxTtlMinutes := maxTtl |}.

(** An initialised agent whose random source hands out the bytes
    [0, 1, 2, ...]. *)
Definition agent (db : database) : Agent.state PostgresProvider.state :=
  {| Agent.provider_state := ready_provider db;
     Agent.initialized := true;
     Agent.entropy := fun n => match Byte.of_nat (n mod 256) with
                               | Some b => b
                               | None => x00
                               end;
     Agent.drawn := 0;
     Agent.events := [] |}.

(** The job of the first end-to-end scenario, with a given TTL. *)
Definition create_fields (ttlMinutes : Z) : list (string * jsval) :=
  [ ("id", JStr "j1");
    ("correlationId", JStr "c07a0c9b-7f6d-4b8f-8b0c-1d8b9eb9f4f8");
    ("type", JStr "create_session");
    ("target", JObj [("host", JStr "db"); ("port", JNum 5432);
                     ("database", JStr "app")]);
    ("role", JStr "app_read");
    ("ttlMinutes", JNum ttlMinutes);
    ("requester", JObj [("userId", JStr "u1")]) ].

Definition create_job (ttlMinutes : Z) : jsval := JObj (create_fields ttlMinutes).

(** The same job, decoded. *)
Definition decoded_create_job (ttlMinutes : Z) : CreateSessionJob.t :=
  {| CreateSessionJob.id := "j1";
     CreateSessionJob.correlationId := "c07a0c9b-7f6d-4b8f-8b0c-1d8b9eb9f4f8";
     CreateSessionJob.target :=
       {| DatabaseTarget.host := "db"; DatabaseTarget.port := 5432;
          DatabaseTarget.database := "app"; DatabaseTarget.sslMode := prefer |};
     CreateSessionJob.role := app_read;
     CreateSessionJob.ttlMinutes := ttlMinutes;
     CreateSessionJob.requester :=
       {| Requester.userId := "u1"; Requester.email := None |};
     CreateSessionJob.reason := None |}.

Definition revoke_job (sessionId : string) : jsval :=
  JObj [ ("id", JStr "j2");
         ("correlationId", JStr "c07a0c9b-7f6d-4b8f-8b0c-1d8b9eb9f4f8");
         ("type", JStr "revoke_session");
         ("sessionId", JStr sessionId) ].

Definition cleanup_job_data (olderThanMinutes : Z) : jsval :=
  JObj [ ("id", JStr "j3");
         ("correlationId", JStr "c07a0c9b-7f6d-4b8f-8b0c-1d8b9eb9f4f8");
         ("type", JStr "cleanup");
         ("olderThanMinutes", JNum olderThanMinutes) ].

Definition decoded_revoke_job (sessionId : string) : RevokeSessionJob.t :=
  {| RevokeSessionJob.id := "j2";
     RevokeSessionJob.correlationId := "c07a0c9b-7f6d-4b8f-8b0c-1d8b9eb9f4f8";
     RevokeSessionJob.sessionId := sessionId |}.

Definition decoded_cleanup_job (olderThanMinutes : Z) : CleanupJob.t :=
  {| CleanupJob.id := "j3";
     CleanupJob.correlationId := "c07a0c9b-7f6d-4b8f-8b0c-1d8b9eb9f4f8";
     CleanupJob.olderThanMinutes := olderThanMinutes |}.

(** A database with principals to clean up: one expired an hour ago, one
    without expiry, one expired but owning a table, one still valid, and
    one with an underscore in its name. *)
Definition populated : database :=
  {| pg_roles :=
       (pg_roles bootstrapped ++
          [ login_role "gk_old" (Some (t0 - 3600000)) ["app_read"];
            login_role "gk_forever" None ["app_read"];
            login_role "gk_owner" (Some (t0 - 3600000)) ["app_write"];
            login_role "gk_live" (Some (t0 + 600000)) ["app_read"];
            login_role "gk_a_b" (Some (t0 - 3600000)) ["app_read"] ])%list;
     pg_stat_activity :=
       [ {| pid := 100; usename := "gatekeeper_admin"; state := "active" |};
         {| pid := 101; usename := "gk_old"; state := "active" |};
         {| pid := 102; usename := "gk_old"; state := "idle" |};
         {| pid := 103; usename := "gk_live"; state := "active" |} ];
     pg_backend_pid := 100;
     acl := (acl bootstrapped ++ [("gk_old", ALL_TABLES_IN_SCHEMA_public)])%list;
     owners := ["gatekeeper_admin"; "gk_owner"];
     pg_proc := pg_proc bootstrapped;
     sample_data := 3;
     gatekeeper_audit := gatekeeper_audit bootstrapped;
     server_version := "PostgreSQL 16.1";
     db_now := t0 |}.

(** A database in which the name the agent is about to generate is taken. *)
Definition collision : database :=
  add_roles [login_role "gk_060708090a0b" (Some (t0 + 600000)) ["app_read"]] bootstrapped.

(** The request the agent builds for [create_job 15] from its random
    source. *)
Definition request : CreateEphemeralUserRequest.t :=
  {| CreateEphemeralUserRequest.username := "gk_060708090a0b";
     CreateEphemeralUserRequest.password := "DA0ODxAREhMUFRYXGBkaGw==1c1d1e1f";
     CreateEphemeralUserRequest.role := "app_read";
     CreateEphemeralUserRequest.ttlMinutes := 15;
     CreateEphemeralUserRequest.connectionLimit := 2 |}.

(** [processJob] of the PostgreSQL-backed agent. *)
Definition run (maxTtl : Z) (jobData : jsval) (st : Agent.state PostgresProvider.state)
  : outcome JobResult * Agent.state PostgresProvider.state :=
  Agent.processJob (config maxTtl) jobData None st.

End Scenario.

(** *** Requests to run the handler on *)
Module Requests.
Import Scenario.

(** A stand-in for [JSON.parse]: it knows the payloads of the scenarios by
    their text and rejects every other text. *)
#[export] Instance runtime : Runtime := {
  JSON_parse := fun text =>
    if String.eqb text (stringify (create_job 15)) then inr (create_job 15)
    else if String.eqb text (stringify (create_job 9999)) then inr (create_job 9999)
    else if String.eqb text (stringify (cleanup_job_data 0)) then inr (cleanup_job_data 0)
    else inl "Unexpected token in JSON at position 0"
}.

(** An agent that has not been initialised, in front of the provider [p]. *)
Definition cold (p : PostgresProvider.state) : Agent.state PostgresProvider.state :=
  {| Agent.provider_state := p;
     Agent.initialized := false;
     Agent.entropy := Agent.entropy (agent bootstrapped);
     Agent.drawn := 0;
     Agent.events := [] |}.

(** A name of 73 bytes that passes the pattern of the helper routines. *)
Definition long_name : string :=
  "gk_aaaaaaaaaabbbbbbbbbbccccccccccddddddddddeeeeeeeeeeffffffffffgggggggggg".

(** A provider whose every call the network refuses. *)
Definition unreachable (db : Pg.database) : PostgresProvider.state :=
  {| PostgresProvider.pool := None;
     PostgresProvider.config := None;
     PostgresProvider.maxConnections := 10;
     PostgresProvider.session := {| Sql.server := db; Sql.txn := None |};
     PostgresProvider.Date_now := t0;
     PostgresProvider.faults := fun _ => Some "connect ECONNREFUSED 10.0.0.5:5432";
     PostgresProvider.still_runs := fun _ => false;
     PostgresProvider.tick := 0;
     PostgresProvider.trace := [] |}.

(** A provider that has been initialised and whose next call the network
    refuses. *)
Definition flaky (db : Pg.database) : PostgresProvider.state :=
  let s := ready_provider db in
  {| PostgresProvider.pool := PostgresProvider.pool s;
     PostgresProvider.config := PostgresProvider.config s;
     PostgresProvider.maxConnections := PostgresProvider.maxConnections s;
     PostgresProvider.session := PostgresProvider.session s;
     PostgresProvider.Date_now := PostgresProvider.Date_now s;
     PostgresProvider.faults :=
       fun n => if Nat.eqb n (PostgresProvider.tick s) then Some "read ECONNRESET"
                else None;
     PostgresProvider.still_runs := fun _ => false;
     PostgresProvider.tick := PostgresProvider.tick s;
     PostgresProvider.trace := PostgresProvider.trace s |}.

(** A provider that has been initialised and whose fourth call from now,
    the [COMMIT] of a [createEphemeralUser], outlives the driver's
    [query_timeout]: the driver reports it failed and the server completes
    it. *)
Definition commit_times_out (db : Pg.database) : PostgresProvider.state :=
  let s := ready_provider db in
  {| PostgresProvider.pool := PostgresProvider.pool s;
     PostgresProvider.config := PostgresProvider.config s;
     PostgresProvider.maxConnections := PostgresProvider.maxConnections s;
     PostgresProvider.session := PostgresProvider.session s;
     PostgresProvider.Date_now := PostgresProvider.Date_now s;
     PostgresProvider.faults :=
       fun n => if Nat.eqb n (PostgresProvider.tick s + 3) then Some "Query read timeout"
                else None;
     PostgresProvider.still_runs := fun n => Nat.eqb n (PostgresProvider.tick s + 3);
     PostgresProvider.tick := PostgresProvider.tick s;
     PostgresProvider.trace := PostgresProvider.trace s |}.

(** A configuration that names another database type. *)
Definition oracle_connection : DatabaseConnectionConfig.t :=
  {| DatabaseConnectionConfig.type := oracle;
     DatabaseConnectionConfig.host := "db";
     DatabaseConnectionConfig.port := 1521;
     DatabaseConnectionConfig.database := "app";
     DatabaseConnectionConfig.sslMode := None;
     DatabaseConnectionConfig.options := [] |}.

(** The handler of a container that has served an invocation before: the
    module holds the agent [st]. *)
Definition lambda (st : Agent.state PostgresProvider.state)
  : Lambda.state PostgresProvider.state :=
  {| Lambda.agentInstance := Some st; Lambda.container := st; Lambda.lines := [] |}.

(** The handler of a container at its first invocation, in front of the
    provider [p]. *)
Definition cold_start (p : PostgresProvider.state) : Lambda.state PostgresProvider.state :=
  {| Lambda.agentInstance := None; Lambda.container := cold p; Lambda.lines := [] |}.

(** The context the Lambda runtime passes. *)
Definition context : Lambda.Context :=
  Lambda.context_value (JStr "ctx-1") (JStr "gatekeeper-agent") (Some (inr (JNum 30000))).

(** A context without the method [remainingTimeInMillis]. *)
Definition context_without_method : Lambda.Context :=
  Lambda.context_value (JStr "ctx-1") (JStr "gatekeeper-agent") None.

(** An API Gateway event. *)
Definition http_fields (method path : string) (body : option string)
  : list (string * jsval) :=
  [ ("httpMethod", JStr method);
    ("path", JStr path);
    ("body", match body with Some text => JStr text | None => JNull end);
    ("requestContext", JObj [("requestId", JStr "req-1")]) ].

Definition http (method path : string) (body : option string) : jsval :=
  JObj (http_fields method path body).

(** A direct invocation. *)
Definition direct (jobData : jsval) : jsval :=
  JObj [ ("jobData", jobData);
         ("correlationId", JStr "c07a0c9b-7f6d-4b8f-8b0c-1d8b9eb9f4f8") ].

End Requests.

(* ===================================================================== *)
(** * Properties *)
(* ===================================================================== *)

Example to_hex_ex : Buffer.to_hex [x00; xff; x1a] = "00ff1a".
Proof. reflexivity. Qed.

Example to_base64_ex : Buffer.to_base64 [x4d; x61; x6e; x4d] = "TWFuTQ==".
Proof. reflexivity. Qed.

Example re_gk_ex : re_gk_alnum "gk_abc123" = true /\ re_gk_alnum "gk_" = false
                   /\ re_gk_alnum "gk_a_b" = false /\ re_gk_word "gk_a_b" = true.
Proof. repeat split; reflexivity. Qed.

Example includes_ex : Str.includes "role x already exists" "already exists" = true.
Proof. reflexivity. Qed.

Example of_Z_ex : Str.of_Z 5432 = "5432".
Proof. reflexivity. Qed.

Example encode_ex : URI.encodeURIComponent "a+b/=" = "a%2Bb%2F%3D".
Proof. reflexivity. Qed.

(* --------------------------------------------------------------------- *)
(** ** Generated identifiers and passwords *)
(* --------------------------------------------------------------------- *)

Section BufferProperties.

Lemma to_hex_length bs :
  String.length (Buffer.to_hex bs) = (2 * List.length bs)%nat.
Proof. induction bs as [|b bs IH]; cbn; [reflexivity|]. rewrite IH. lia. Qed.

Lemma hex_digits_of_byte b :
  (Str.is_alnum (Buffer.hex_digit (Byte.to_N b / 16))
   && Str.is_alnum (Buffer.hex_digit (Byte.to_N b mod 16))
   && Str.is_hex (Buffer.hex_digit (Byte.to_N b / 16))
   && Str.is_hex (Buffer.hex_digit (Byte.to_N b mod 16)))%bool = true.
Proof. destruct b; vm_compute; reflexivity. Qed.

(** A hexadecimal rendering holds hexadecimal digits only, which are
    alphanumeric. *)
Lemma to_hex_alnum bs :
  Str.all Str.is_alnum (Buffer.to_hex bs) = true
  /\ Str.all Str.is_hex (Buffer.to_hex bs) = true.
Proof.
  induction bs as [|b bs [IH1 IH2]]; cbn [Buffer.to_hex Str.all]; [split; reflexivity|].
  pose proof (hex_digits_of_byte b) as H.
  apply andb_prop in H. destruct H as [H H4].
  apply andb_prop in H. destruct H as [H H3].
  apply andb_prop in H. destruct H as [H1 H2].
  rewrite H1, H2, H3, H4, IH1, IH2. split; reflexivity.
Qed.

Lemma list_ind3 {A} (P : list A -> Prop) :
  P [] -> (forall a, P [a]) -> (forall a b, P [a; b]) ->
  (forall a b c r, P r -> P (a :: b :: c :: r)) ->
  forall l, P l.
Proof.
  intros H0 H1 H2 H3.
  assert (H : forall l, P l /\ (forall a, P (a :: l)) /\ (forall a b, P (a :: b :: l))).
  { induction l as [|x l (Ha & Hb & Hc)]; [auto|]. repeat split; auto. }
  intros l. apply H.
Qed.

(** Base64 renders every group of three bytes, the last one padded, as
    four characters. *)
Lemma to_base64_length bs :
  String.length (Buffer.to_base64 bs) = (4 * ((List.length bs + 2) / 3))%nat.
Proof.
  induction bs as [| a | a b | a b c r IH] using list_ind3; try reflexivity.
  cbn [Buffer.to_base64 String.length List.length]. rewrite IH.
  replace (S (S (S (List.length r))) + 2)%nat with ((List.length r + 2) + 1 * 3)%nat by lia.
  rewrite Nat.div_add by lia. lia.
Qed.

Lemma length_append a b :
  String.length (a ++ b) = (String.length a + String.length b)%nat.
Proof. induction a; cbn; [reflexivity|]. now rewrite IHa. Qed.

Lemma strip_append pre s : Str.strip pre (pre ++ s) = Some s.
Proof. induction pre as [|a pre IH]; cbn; [reflexivity|]. now rewrite Ascii.eqb_refl. Qed.

Lemma all_weaken (p q : ascii -> bool) s :
  (forall c, p c = true -> q c = true) ->
  Str.all p s = true -> Str.all q s = true.
Proof.
  intros Hpq. induction s as [|c s IH]; cbn; [reflexivity|].
  intros H. apply andb_prop in H. destruct H as [Hc Hs].
  now rewrite (Hpq _ Hc), IH.
Qed.

Lemma lit_plus_append lit cls h :
  h <> "" -> Str.all cls h = true -> Str.lit_plus lit cls (lit ++ h) = true.
Proof.
  intros Hne Hall. unfold Str.lit_plus. rewrite strip_append.
  destruct h; [contradiction|]. exact Hall.
Qed.

(** [gk_] in front of a non-empty hexadecimal rendering is a name both
    patterns accept. *)
Lemma gk_hex_matches bs :
  bs <> [] ->
  re_gk_alnum ("gk_" ++ Buffer.to_hex bs) = true
  /\ re_gk_word ("gk_" ++ Buffer.to_hex bs) = true.
Proof.
  intros Hne. destruct (to_hex_alnum bs) as [Hal _].
  assert (Hs : Buffer.to_hex bs <> "") by (destruct bs; [contradiction|discriminate]).
  split; apply lit_plus_append; auto.
  apply (all_weaken Str.is_alnum); [|exact Hal].
  intros c Hc. unfold Str.is_word. now rewrite Hc.
Qed.

End BufferProperties.

(* --------------------------------------------------------------------- *)
(** ** Decoding jobs *)
(* --------------------------------------------------------------------- *)

Section ZodProperties.
Context {platform : Platform}.

Lemma validate_error {A} (schema : Zod.decoder A) data context e :
  Zod.validate schema data context = inl e ->
  exists message field, e = ValidationError message field.
Proof.
  unfold Zod.validate. destruct (schema data); intros H; inversion H; eauto.
Qed.

Lemma validateAgentJob_create_session o :
  prop "type" o = JStr "create_session" ->
  Zod.validateAgentJob (JObj o) =
    Zod.validate
      (fun v => Zod.andThen (Zod.CreateSessionJobSchema v) (fun j => inr (create_session_job j)))
      (JObj o) "Invalid agent job".
Proof.
  intros H. unfold Zod.validateAgentJob, Zod.validate, Zod.AgentJobSchema.
  rewrite H. reflexivity.
Qed.

Ltac field H :=
  match type of H with
  | context [Zod.at_key ?k ?d ?o] =>
      let E := fresh "E" in
      destruct (Zod.at_key k d o) eqn:E; cbn in H; [discriminate H|]
  end.

(** A decoded create_session job carries the TTL of the payload, and that
    TTL lies between 1 and 1440. *)
Lemma CreateSessionJobSchema_ttl o j :
  Zod.CreateSessionJobSchema (JObj o) = inr j ->
  prop "ttlMinutes" o = JNum (CreateSessionJob.ttlMinutes j)
  /\ 1 <= CreateSessionJob.ttlMinutes j <= 1440.
Proof.
  unfold Zod.CreateSessionJobSchema, Zod.object, Zod.andThen. intros H.
  do 7 field H. inversion H; subst; cbn. clear H.
  unfold Zod.at_key, Zod.int_range in E3.
  destruct (prop "ttlMinutes" o); cbn in E3; try discriminate.
  destruct (Z.ltb_spec n 1); cbn in E3; try discriminate.
  destruct (Z.ltb_spec 1440 n); cbn in E3; try discriminate.
  inversion E3; subst. split; [reflexivity|lia].
Qed.

Definition with_ttl (t : Z) (j : CreateSessionJob.t) : CreateSessionJob.t :=
  {| CreateSessionJob.id := CreateSessionJob.id j;
     CreateSessionJob.correlationId := CreateSessionJob.correlationId j;
     CreateSessionJob.target := CreateSessionJob.target j;
     CreateSessionJob.role := CreateSessionJob.role j;
     CreateSessionJob.ttlMinutes := t;
     CreateSessionJob.requester := CreateSessionJob.requester j;
     CreateSessionJob.reason := CreateSessionJob.reason j |}.

(** Changing the TTL of a payload that decodes to another value between 1
    and 1440 gives a payload that decodes, to the same job with that TTL. *)
Lemma CreateSessionJobSchema_with_ttl o j t :
  Zod.CreateSessionJobSchema (JObj o) = inr j ->
  1 <= t <= 1440 ->
  Zod.CreateSessionJobSchema (JObj (("ttlMinutes", JNum t) :: o)) = inr (with_ttl t j).
Proof.
  unfold Zod.CreateSessionJobSchema, Zod.object, Zod.andThen. intros H Ht.
  do 7 field H. inversion H; subst; clear H.
  unfold Zod.at_key in *. cbn [prop String.eqb Ascii.eqb Bool.eqb].
  cbn [prop] in *.
  destruct (Zod.BaseJob_id (prop "id" o)); [discriminate|]. inversion E; subst.
  destruct (Zod.BaseJob_correlationId (prop "correlationId" o)); [discriminate|].
  inversion E0; subst.
  destruct (Zod.DatabaseTargetSchema (prop "target" o)); [discriminate|].
  inversion E1; subst.
  destruct (Zod.RoleSchema (prop "role" o)); [discriminate|]. inversion E2; subst.
  destruct (Zod.RequesterSchema (prop "requester" o)); [discriminate|].
  inversion E4; subst.
  destruct (Zod.optional _ (prop "reason" o)); [discriminate|]. inversion E5; subst.
  unfold Zod.int_range.
  destruct (Z.ltb_spec t 1); [lia|]. destruct (Z.ltb_spec 1440 t); [lia|].
  reflexivity.
Qed.

End ZodProperties.

(* --------------------------------------------------------------------- *)
(** ** The orchestrator over any provider *)
(* --------------------------------------------------------------------- *)

Section AgentProperties.
Context {platform : Platform} {S : Type} {provider : DatabaseProvider S}.
Variable config : AgentConfig.t.

(** An event that is neither a provider call other than [initialize] nor
    an audit event. *)
Definition quiet (e : Agent.event) : bool :=
  match e with
  | Agent.Call Agent.call_initialize | Agent.Settled _ | Agent.Log _ _ => true
  | _ => false
  end.

Lemma ensureInitialized_events (st st1 : Agent.state S) r :
  Agent.ensureInitialized config st = (r, st1) ->
  exists l, Agent.events st1 = (Agent.events st ++ l)%list /\ forallb quiet l = true.
Proof.
  unfold Agent.ensureInitialized, Agent.initialize, bind, gets.
  destruct (Agent.initialized st) eqn:Hi; cbn.
  - intros H; inversion H; subst. exists []. now rewrite app_nil_r.
  - rewrite Hi. unfold try_catch, bind, Agent.invoke, modify, Agent.log, throw; cbn.
    destruct (initialize _ _ (Agent.provider_state st)) as [[[]|e] p]; cbn;
      intros H; inversion H; subst; cbn;
      rewrite <- ?app_assoc; eexists; split; try reflexivity; reflexivity.
Qed.

Lemma processJob_ready (st st1 : Agent.state S) jobData cid :
  Agent.ensureInitialized config st = (Ok tt, st1) ->
  Agent.processJob config jobData cid st =
    try_catch
      (bind (Agent.validateAgentJob jobData)
         (fun job =>
            bind (Agent.log Agent.info "Processing agent job")
              (fun _ =>
                 match job with
                 | create_session_job j => Agent.createSession config j
                 | revoke_session_job j => Agent.revokeSession j
                 | cleanup_job j => Agent.cleanup j
                 end)))
      (fun err =>
         bind (Agent.log Agent.error "Job processing failed")
           (fun _ =>
              match err with
              | ValidationError message _ =>
                  ret (Failed {| JobError.code := "VALIDATION_ERROR";
                                 JobError.message := message;
                                 JobError.retryable := false |})
              | _ =>
                  ret (Failed {| JobError.code := "INTERNAL_ERROR";
                                 JobError.message := "Internal server error";
                                 JobError.retryable := true |})
              end))
      st1.
Proof.
  intros H. unfold Agent.processJob at 1. unfold bind at 1. now rewrite H.
Qed.


(** The state after the orchestrator has done [l], in order. *)
Definition after (l : list Agent.event) (st : Agent.state S) : Agent.state S :=
  fold_left (fun s e => Agent.emit e s) l st.

Lemma events_after l : forall st,
  Agent.events (after l st) = (Agent.events st ++ l)%list.
Proof.
  induction l as [|e l IH]; intros st; cbn.
  - now rewrite app_nil_r.
  - unfold after in IH. rewrite IH. cbn. now rewrite <- app_assoc.
Qed.

Lemma provider_state_after l : forall st,
  Agent.provider_state (after l st) = Agent.provider_state st.
Proof. induction l as [|e l IH]; intros st; cbn; [reflexivity|]. unfold after in IH. now rewrite IH. Qed.


(** The request [createSession] builds for a job, from the bytes the random
    source hands out next: six for the session id, six for the user name,
    sixteen and four for the password. *)
Definition bytes_at (st : Agent.state S) (from n : nat) : list byte :=
  map (Agent.entropy st) (seq (Agent.drawn st + from) n).

Definition generated_sessionId (st : Agent.state S) : string :=
  "ses_" ++ Buffer.to_hex (bytes_at st 0 6).

Definition generated_username (st : Agent.state S) : string :=
  "gk_" ++ Buffer.to_hex (bytes_at st 6 6).

Definition generated_password (st : Agent.state S) : string :=
  Buffer.to_base64 (bytes_at st 12 16) ++ Buffer.to_hex (bytes_at st 28 4).

Definition generated_request (job : CreateSessionJob.t) (st : Agent.state S)
  : CreateEphemeralUserRequest.t :=
  {| CreateEphemeralUserRequest.username := generated_username st;
     CreateEphemeralUserRequest.password := generated_password st;
     CreateEphemeralUserRequest.role := Role_name (CreateSessionJob.role job);
     CreateEphemeralUserRequest.ttlMinutes := CreateSessionJob.ttlMinutes job;
     CreateEphemeralUserRequest.connectionLimit := 2 |}.

Definition created_audit (job : CreateSessionJob.t) (st : Agent.state S)
  : Agent.audit_entry :=
  {| Agent.logged_eventType := "session.created";
     Agent.logged_sessionId := Some (generated_sessionId st);
     Agent.logged_username := Some (generated_username st);
     Agent.logged_correlationId := Some (CreateSessionJob.correlationId job);
     Agent.eventHash :=
       sha256_hex
         (JSON_stringify
            (JObj [ ("type", JStr "session.created");
                    ("data", Agent.created_eventData job) ])) |}.

Definition with_provider_state (p : S) (n : nat) (st : Agent.state S) : Agent.state S :=
  {| Agent.provider_state := p; Agent.initialized := Agent.initialized st;
     Agent.entropy := Agent.entropy st; Agent.drawn := (Agent.drawn st + n)%nat;
     Agent.events := Agent.events st |}.

(** [createSession] step by step, for a TTL within the configured
    maximum. *)
Lemma createSession_run (job : CreateSessionJob.t) (st : Agent.state S) :
  CreateSessionJob.ttlMinutes job <= AgentConfig.sessionMaxTtlMinutes config ->
  Agent.createSession config job st =
    match createEphemeralUser (generated_request job st) (Agent.provider_state st) with
    | (Ok result, p) =>
        (Ok (CreateSessionReady (generated_sessionId st)
               (CreateEphemeralUserResult.dsn result)
               (CreateEphemeralUserResult.expiresAt result)
               (generated_username st)),
          after [ Agent.Log Agent.info "Creating ephemeral session via provider";
                  Agent.Call (Agent.call_createEphemeralUser (generated_request job st));
                  Agent.Settled true;
                  Agent.Audit (created_audit job st);
                  Agent.Log Agent.info "Session created successfully via provider" ]
            (with_provider_state p 32 st))
    | (Throw e, p) =>
        (Throw (if instanceof_ValidationError e then e
                else DatabaseError "Failed to create ephemeral session" true),
          after [ Agent.Log Agent.info "Creating ephemeral session via provider";
                  Agent.Call (Agent.call_createEphemeralUser (generated_request job st));
                  Agent.Settled false;
                  Agent.Log Agent.error "Failed to create session via provider" ]
            (with_provider_state p 32 st))
    end.
Proof.
  intros Httl. unfold Agent.createSession.
  destruct (Z.ltb_spec (AgentConfig.sessionMaxTtlMinutes config)
              (CreateSessionJob.ttlMinutes job)) as [Hlt|_]; [lia|].
  unfold try_catch, bind, Agent.generateId, Agent.generatePassword, Agent.randomBytes,
    Agent.invoke, Agent.log, modify, ret; cbn.
  unfold generated_request, generated_username, generated_password, generated_sessionId,
    bytes_at, with_provider_state, created_audit; cbn.
  rewrite Nat.add_0_r, <- !Nat.add_assoc; cbn.
  destruct (createEphemeralUser _ (Agent.provider_state st)) as [[result|e] p]; cbn.
  - reflexivity.
  - destruct (instanceof_ValidationError e); reflexivity.
Qed.

(** C1: when the provider raises one of the known semantic conflicts on
    a create_session job ([USER_EXISTS] or [ROLE_NOT_FOUND], both raised
    as not retryable), [createSession] replaces the error by a
    [DatabaseError] and [processJob] turns that into a failure with code
    [INTERNAL_ERROR] and [retryable = true]. *)
Theorem semantic_conflict_surfaces_as_internal_error :
  forall (st st1 : Agent.state S) (jobData : jsval) (cid : option string)
         (job : CreateSessionJob.t) (message code : string)
         (prov : option DatabaseType),
    Agent.ensureInitialized config st = (Ok tt, st1) ->
    Zod.validateAgentJob jobData = inr (create_session_job job) ->
    CreateSessionJob.ttlMinutes job <= AgentConfig.sessionMaxTtlMinutes config ->
    code = "USER_EXISTS" \/ code = "ROLE_NOT_FOUND" ->
    fst (createEphemeralUser (generated_request job st1) (Agent.provider_state st1))
      = Throw (DatabaseProviderError message code false prov) ->
    fst (Agent.processJob config jobData cid st)
      = Ok (Failed {| JobError.code := "INTERNAL_ERROR";
                      JobError.message := "Internal server error";
                      JobError.retryable := true |}).
Proof.
  intros st st1 jobData cid job message code prov Hinit Hjob Httl _ Hthrow.
  rewrite (processJob_ready _ _ _ _ Hinit).
  unfold try_catch, bind, Agent.validateAgentJob. rewrite Hjob. cbn.
  rewrite (createSession_run job _ Httl). cbn.
  change (generated_request job (Agent.emit _ st1)) with (generated_request job st1).
  destruct (createEphemeralUser _ (Agent.provider_state st1)) as [[r|e] p];
    cbn in Hthrow; [discriminate|].
  inversion Hthrow; subst. reflexivity.
Qed.

(** C7 (amended): a create_session payload whose [ttlMinutes] exceeds the
    configured maximum gets, once the agent is initialised,
    [{status: failed}] with code [VALIDATION_ERROR] and [retryable = false],
    and neither calls the provider after initialisation nor changes its
    state.  A payload that decodes, with its TTL set to the configured
    maximum, decodes again and reaches the provider with that TTL, provided
    the maximum lies within the decoder's own bounds 1 and 1440.  A
    [ttlMinutes] of 0 is rejected at decoding with a validation error. *)
Theorem ttl_over_the_maximum_is_a_validation_error :
  forall (st st1 : Agent.state S) (o : list (string * jsval)) (cid : option string),
    Agent.ensureInitialized config st = (Ok tt, st1) ->
    prop "type" o = JStr "create_session" ->
    (forall t,
        prop "ttlMinutes" o = JNum t ->
        AgentConfig.sessionMaxTtlMinutes config < t ->
        exists message st2 added,
          Agent.processJob config (JObj o) cid st
            = (Ok (Failed {| JobError.code := "VALIDATION_ERROR";
                             JobError.message := message;
                             JobError.retryable := false |}), st2)
          /\ Agent.provider_state st2 = Agent.provider_state st1
          /\ Agent.events st2 = (Agent.events st ++ added)%list
          /\ forallb quiet added = true)
    /\ (forall job,
           Zod.validateAgentJob (JObj o) = inr (create_session_job job) ->
           1 <= AgentConfig.sessionMaxTtlMinutes config <= 1440 ->
           let max := AgentConfig.sessionMaxTtlMinutes config in
           let o' := ("ttlMinutes", JNum max) :: o in
           Zod.validateAgentJob (JObj o') = inr (create_session_job (with_ttl max job))
           /\ exists request,
               CreateEphemeralUserRequest.ttlMinutes request = max
               /\ In (Agent.Call (Agent.call_createEphemeralUser request))
                    (Agent.events (snd (Agent.processJob config (JObj o') cid st))))
    /\ (prop "ttlMinutes" o = JNum 0 ->
        exists message field,
          Zod.validateAgentJob (JObj o) = inl (ValidationError message field)).
Proof.
  intros st st1 o cid Hinit Htype.
  destruct (ensureInitialized_events _ _ _ Hinit) as [l0 [El0 Ql0]].
  split; [|split].
  - intros t Hprop Hover.
    rewrite (processJob_ready _ _ _ _ Hinit).
    unfold try_catch, bind, Agent.validateAgentJob.
    destruct (Zod.validateAgentJob (JObj o)) as [e|job] eqn:Hjob; cbn.
    + destruct (validate_error _ _ _ _ Hjob) as [m [f ->]]. cbn.
      eexists; eexists; eexists. split; [reflexivity|]. cbn.
      split; [reflexivity|]. rewrite El0, <- !app_assoc. split; [reflexivity|].
      now rewrite forallb_app, Ql0.
    + rewrite (validateAgentJob_create_session o Htype) in Hjob.
      unfold Zod.validate, Zod.andThen in Hjob.
      destruct (Zod.CreateSessionJobSchema (JObj o)) as [i|j] eqn:Hj;
        cbn in Hjob; [discriminate|].
      inversion Hjob; subst; clear Hjob.
      destruct (CreateSessionJobSchema_ttl _ _ Hj) as [Hp _].
      rewrite Hprop in Hp. inversion Hp; subst.
      unfold Agent.createSession.
      destruct (Z.ltb_spec (AgentConfig.sessionMaxTtlMinutes config)
                  (CreateSessionJob.ttlMinutes j)) as [_|Hle]; [|lia].
      cbn. eexists; eexists; eexists. split; [reflexivity|]. cbn.
      split; [reflexivity|]. rewrite El0, <- !app_assoc. split; [reflexivity|].
      now rewrite forallb_app, Ql0.
  - intros job Hjob Hmax max o'.
    rewrite (validateAgentJob_create_session o Htype) in Hjob.
    unfold Zod.validate, Zod.andThen in Hjob.
    destruct (Zod.CreateSessionJobSchema (JObj o)) as [i|j] eqn:Hj;
      cbn in Hjob; [discriminate|].
    inversion Hjob; subst; clear Hjob.
    assert (Hv' : Zod.validateAgentJob (JObj o')
                  = inr (create_session_job (with_ttl max job))).
    { rewrite validateAgentJob_create_session by (subst o'; cbn; exact Htype).
      unfold Zod.validate, Zod.andThen. subst o'.
      now rewrite (CreateSessionJobSchema_with_ttl _ _ max Hj Hmax). }
    split; [exact Hv'|].
    rewrite (processJob_ready _ _ _ _ Hinit).
    unfold try_catch, bind, Agent.validateAgentJob. rewrite Hv'. cbn.
    rewrite createSession_run by (cbn; subst max; lia).
    eexists (generated_request (with_ttl max job) _). split; [reflexivity|].
    cbn.
    destruct (createEphemeralUser _ (Agent.provider_state st1)) as [[r|e] p]; cbn.
    + rewrite !in_app_iff. cbn. tauto.
    + destruct (instanceof_ValidationError e) eqn:He.
      * destruct e; try discriminate He. cbn. rewrite !in_app_iff. cbn. tauto.
      * cbn. rewrite !in_app_iff. cbn. tauto.
  - intros Hprop. rewrite (validateAgentJob_create_session o Htype).
    unfold Zod.validate, Zod.andThen.
    destruct (Zod.CreateSessionJobSchema (JObj o)) as [i|j] eqn:Hj; cbn.
    + eauto.
    + destruct (CreateSessionJobSchema_ttl _ _ Hj) as [Hp Hr].
      rewrite Hprop in Hp. inversion Hp. lia.
Qed.

(** A [processJob] that answers [ready] has decoded a create_session job
    and the provider has created the user the job asked for. *)
Lemma processJob_ready_inv (st st1 st2 : Agent.state S) jobData cid sid dsn exp user :
  Agent.ensureInitialized config st = (Ok tt, st1) ->
  Agent.processJob config jobData cid st = (Ok (CreateSessionReady sid dsn exp user), st2) ->
  exists job result p,
    Zod.validateAgentJob jobData = inr (create_session_job job)
    /\ CreateSessionJob.ttlMinutes job <= AgentConfig.sessionMaxTtlMinutes config
    /\ createEphemeralUser (generated_request job st1)
         (Agent.provider_state st1) = (Ok result, p)
    /\ sid = generated_sessionId st1
    /\ user = generated_username st1
    /\ dsn = CreateEphemeralUserResult.dsn result
    /\ exp = CreateEphemeralUserResult.expiresAt result
    /\ st2 = after [ Agent.Log Agent.info "Processing agent job";
                     Agent.Log Agent.info "Creating ephemeral session via provider";
                     Agent.Call (Agent.call_createEphemeralUser (generated_request job st1));
                     Agent.Settled true;
                     Agent.Audit (created_audit job st1);
                     Agent.Log Agent.info "Session created successfully via provider" ]
               (with_provider_state p 32 st1).
Proof.
  intros Hinit H. rewrite (processJob_ready _ _ _ _ Hinit) in H.
  unfold try_catch, bind, Agent.validateAgentJob in H.
  destruct (Zod.validateAgentJob jobData) as [e|[job|job|job]] eqn:Hjob; cbn in H.
  - destruct e; discriminate.
  - destruct (Z.ltb_spec (AgentConfig.sessionMaxTtlMinutes config)
                (CreateSessionJob.ttlMinutes job)) as [Hover|Hle].
    + unfold Agent.createSession in H.
      destruct (Z.ltb_spec (AgentConfig.sessionMaxTtlMinutes config)
                  (CreateSessionJob.ttlMinutes job)); [|lia].
      cbn in H. discriminate.
    + rewrite (createSession_run job _ Hle) in H.
      change (generated_request job (Agent.emit _ st1)) with (generated_request job st1) in H.
      cbn [Agent.provider_state Agent.emit] in H.
      destruct (createEphemeralUser (generated_request job st1) (Agent.provider_state st1))
        as [[result|e] p] eqn:Ecreate.
      * inversion H; subst. exists job, result, p. repeat split; auto.
      * cbn in H. destruct (instanceof_ValidationError e) eqn:He.
        -- destruct e; try discriminate He. cbn in H. discriminate.
        -- cbn in H. discriminate.
  - discriminate.
  - unfold Agent.cleanup, try_catch, bind, Agent.invoke, Agent.log, modify in H. cbn in H.
    destruct (cleanupExpiredUsers _ (Agent.provider_state st1)) as [[rows|e] p]; cbn in H.
    + destruct (List.length (filter UserCleanupResult.dropped rows)); discriminate.
    + discriminate.
Qed.

(** A create_session job within the configured maximum, on an agent that
    is or can be initialised, is answered [ready] when the provider creates
    the user the job asks for. *)
Lemma processJob_create_returns (st st1 : Agent.state S) jobData cid job result p :
  Agent.ensureInitialized config st = (Ok tt, st1) ->
  Zod.validateAgentJob jobData = inr (create_session_job job) ->
  CreateSessionJob.ttlMinutes job <= AgentConfig.sessionMaxTtlMinutes config ->
  createEphemeralUser (generated_request job st1) (Agent.provider_state st1)
  = (Ok result, p) ->
  Agent.processJob config jobData cid st
  = (Ok (CreateSessionReady (generated_sessionId st1)
           (CreateEphemeralUserResult.dsn result)
           (CreateEphemeralUserResult.expiresAt result)
           (generated_username st1)),
      after [ Agent.Log Agent.info "Processing agent job";
              Agent.Log Agent.info "Creating ephemeral session via provider";
              Agent.Call (Agent.call_createEphemeralUser (generated_request job st1));
              Agent.Settled true;
              Agent.Audit (created_audit job st1);
              Agent.Log Agent.info "Session created successfully via provider" ]
        (with_provider_state p 32 st1)).
Proof.
  intros Hinit Hjob Hle Hcreate. rewrite (processJob_ready _ _ _ _ Hinit).
  unfold try_catch, bind, Agent.validateAgentJob. rewrite Hjob. cbn.
  rewrite (createSession_run job _ Hle).
  change (generated_request job (Agent.emit _ st1)) with (generated_request job st1).
  cbn [Agent.provider_state Agent.emit]. rewrite Hcreate. reflexivity.
Qed.

End AgentProperties.

(* --------------------------------------------------------------------- *)
(** ** The PostgreSQL provider: connections *)
(* --------------------------------------------------------------------- *)

Section ConnectionProperties.

Definition is_acquire (e : PostgresProvider.event) : bool :=
  match e with PostgresProvider.Connect true => true | _ => false end.

Definition is_release (e : PostgresProvider.event) : bool :=
  match e with PostgresProvider.Release => true | _ => false end.

(** Connections acquired from the pool, and released to it, so far. *)
Definition acquired (s : PostgresProvider.state) : nat :=
  List.length (filter is_acquire (PostgresProvider.trace s)).

Definition released (s : PostgresProvider.state) : nat :=
  List.length (filter is_release (PostgresProvider.trace s)).

(** Connections of the pool that are checked out. *)
Definition checked_out (s : PostgresProvider.state) : Z :=
  match PostgresProvider.pool s with
  | Some p => Z.of_nat (PostgresProvider.totalCount p)
              - Z.of_nat (PostgresProvider.idleCount p)
  | None => 0
  end.

(** A computation that neither acquires nor releases, and leaves the pool
    as it is. *)
Definition neutral {A} (m : M PostgresProvider.state A) : Prop :=
  forall s r s', m s = (r, s') ->
    acquired s' = acquired s /\ released s' = released s
    /\ PostgresProvider.pool s' = PostgresProvider.pool s.

(** A computation that releases, exactly once, each connection it
    acquires (it acquires at most one), so that as many connections are
    checked out after it as before. *)
Definition releases_what_it_acquires {A} (m : M PostgresProvider.state A) : Prop :=
  forall s r s', m s = (r, s') ->
    exists k : nat,
      (k <= 1)%nat
      /\ acquired s' = (acquired s + k)%nat
      /\ released s' = (released s + k)%nat
      /\ checked_out s' = checked_out s.

Lemma acquired_emit e s :
  acquired (PostgresProvider.emit e s)
  = (acquired s + if is_acquire e then 1 else 0)%nat.
Proof.
  unfold acquired; cbn. rewrite filter_app, length_app. cbn.
  destruct (is_acquire e); reflexivity.
Qed.

Lemma released_emit e s :
  released (PostgresProvider.emit e s)
  = (released s + if is_release e then 1 else 0)%nat.
Proof.
  unfold released; cbn. rewrite filter_app, length_app. cbn.
  destruct (is_release e); reflexivity.
Qed.

Lemma neutral_ret {A} (a : A) : neutral (ret a).
Proof. intros s r s' H; inversion H; auto. Qed.

Lemma neutral_throw {A} e : neutral (@throw _ A e).
Proof. intros s r s' H; inversion H; auto. Qed.

Lemma neutral_get : neutral get.
Proof. intros s r s' H; inversion H; auto. Qed.

Lemma neutral_gets {A} (f : PostgresProvider.state -> A) : neutral (gets f).
Proof. intros s r s' H; inversion H; auto. Qed.

Lemma neutral_log l msg : neutral (PostgresProvider.log l msg).
Proof.
  intros s r s' H; inversion H; subst.
  rewrite acquired_emit, released_emit; cbn. repeat split; lia.
Qed.

Lemma neutral_query c q : neutral (PostgresProvider.client_query c q).
Proof.
  intros s r s'. unfold PostgresProvider.client_query.
  destruct (PostgresProvider.faults s (PostgresProvider.tick s)).
  - intros H; inversion H; subst. rewrite acquired_emit, released_emit; cbn.
    destruct (PostgresProvider.still_runs s (PostgresProvider.tick s));
      unfold acquired, released; cbn; repeat split; lia.
  - destruct (Sql.execute q (PostgresProvider.session s)) as [[e|rows] x];
      intros H; inversion H; subst; rewrite acquired_emit, released_emit; cbn;
      unfold acquired, released; cbn; repeat split; lia.
Qed.

Lemma neutral_bind {A B} (m : M _ A) (k : A -> M _ B) :
  neutral m -> (forall a, neutral (k a)) -> neutral (bind m k).
Proof.
  intros Hm Hk s r s'. unfold bind.
  destruct (m s) as [[a|e] s1] eqn:E; intros H.
  - destruct (Hm _ _ _ E) as (? & ? & ?). destruct (Hk a _ _ _ H) as (? & ? & ?).
    repeat split; congruence.
  - inversion H; subst. exact (Hm _ _ _ E).
Qed.

Lemma neutral_try_catch {A} (m : M _ A) (h : exn -> M _ A) :
  neutral m -> (forall e, neutral (h e)) -> neutral (try_catch m h).
Proof.
  intros Hm Hh s r s'. unfold try_catch.
  destruct (m s) as [[a|e] s1] eqn:E; intros H.
  - inversion H; subst. exact (Hm _ _ _ E).
  - destruct (Hm _ _ _ E) as (? & ? & ?). destruct (Hh e _ _ _ H) as (? & ? & ?).
    repeat split; congruence.
Qed.

Lemma neutral_if {A} (b : bool) (m1 m2 : M _ A) :
  neutral m1 -> neutral m2 -> neutral (if b then m1 else m2).
Proof. destruct b; auto. Qed.

Lemma neutral_getPostgresVersion c : neutral (PostgresProvider.getPostgresVersion c).
Proof.
  apply neutral_try_catch.
  - apply neutral_bind; [apply neutral_query|intros; apply neutral_ret].
  - intros; apply neutral_ret.
Qed.

Lemma neutral_releases {A} (m : M _ A) : neutral m -> releases_what_it_acquires m.
Proof.
  intros Hm s r s' H. destruct (Hm _ _ _ H) as (Ha & Hr & Hp).
  exists 0%nat. unfold checked_out. rewrite Hp. repeat split; lia.
Qed.

Lemma releases_bind {A B} (m : M _ A) (k : A -> M _ B) :
  neutral m -> (forall a, releases_what_it_acquires (k a)) ->
  releases_what_it_acquires (bind m k).
Proof.
  intros Hm Hk s r s'. unfold bind.
  destruct (m s) as [[a|e] s1] eqn:E; intros H.
  - destruct (Hm _ _ _ E) as (Ha & Hr & Hp).
    destruct (Hk a _ _ _ H) as (k0 & ? & ? & ? & Hc). exists k0.
    unfold checked_out in *. rewrite Hp in Hc. repeat split; congruence.
  - inversion H; subst. exact (neutral_releases _ Hm _ _ _ E).
Qed.

Lemma releases_try_catch {A} (m : M _ A) (h : exn -> M _ A) :
  releases_what_it_acquires m -> (forall e, neutral (h e)) ->
  releases_what_it_acquires (try_catch m h).
Proof.
  intros Hm Hh s r s'. unfold try_catch.
  destruct (m s) as [[a|e] s1] eqn:E; intros H.
  - inversion H; subst. exact (Hm _ _ _ E).
  - destruct (Hm _ _ _ E) as (k0 & ? & ? & ? & Hc).
    destruct (Hh e _ _ _ H) as (? & ? & Hp). exists k0.
    unfold checked_out in *. rewrite Hp. repeat split; congruence.
Qed.

(** The shape every operation has: acquire, then
    [try { body } finally { client.release() }]. *)
Lemma with_client_releases {A} (body : PostgresProvider.PoolClient -> M _ A) :
  (forall c, neutral (body c)) ->
  releases_what_it_acquires
    (bind PostgresProvider.pool_connect
       (fun c => try_finally (body c) (PostgresProvider.client_release c))).
Proof.
  intros Hbody s r s'. unfold bind, PostgresProvider.pool_connect.
  destruct (PostgresProvider.pool s) as [p|] eqn:Hp.
  2:{ intros H; inversion H; subst. exists 0%nat. repeat split; lia. }
  destruct (PostgresProvider.faults s (PostgresProvider.tick s)).
  { intros H; inversion H; subst. exists 0%nat.
    rewrite acquired_emit, released_emit; cbn.
    unfold acquired, released, checked_out; cbn. rewrite Hp. repeat split; lia. }
  assert (Hgo : forall p' : PostgresProvider.Pool,
             Z.of_nat (PostgresProvider.totalCount p')
             - Z.of_nat (PostgresProvider.idleCount p')
             = Z.of_nat (PostgresProvider.totalCount p)
               - Z.of_nat (PostgresProvider.idleCount p) + 1 ->
             try_finally (body PostgresProvider.client)
               (PostgresProvider.client_release PostgresProvider.client)
               (PostgresProvider.emit (PostgresProvider.Connect true)
                  (PostgresProvider.set_pool (Some p') (PostgresProvider.next_tick s)))
             = (r, s') ->
             exists k : nat,
               (k <= 1)%nat /\ acquired s' = (acquired s + k)%nat
               /\ released s' = (released s + k)%nat
               /\ checked_out s' = checked_out s).
  { intros p' Hp' H. unfold try_finally in H.
    destruct (body PostgresProvider.client _) as [r1 s1] eqn:E.
    destruct (Hbody _ _ _ _ E) as (Ha & Hr & Hpool).
    rewrite acquired_emit, released_emit in *. cbn in Ha, Hr, Hpool.
    unfold PostgresProvider.client_release in H. cbn in H.
    inversion H; subst. exists 1%nat.
    rewrite acquired_emit, released_emit; cbn.
    unfold acquired, released, checked_out in *; cbn in *.
    rewrite Hpool, Hp. cbn. rewrite ?Zpos_P_of_succ_nat. repeat split; lia. }
  destruct (Nat.ltb_spec 0 (PostgresProvider.idleCount p)).
  - apply Hgo. cbn [PostgresProvider.totalCount PostgresProvider.idleCount]. lia.
  - destruct (Nat.ltb_spec (PostgresProvider.totalCount p) (PostgresProvider.max p)).
    + apply Hgo. cbn [PostgresProvider.totalCount PostgresProvider.idleCount]. lia.
    + intros H'; inversion H'; subst. exists 0%nat.
      rewrite acquired_emit, released_emit; cbn.
      unfold acquired, released, checked_out; cbn. rewrite Hp. repeat split; lia.
Qed.

Ltac neutrality :=
  repeat first
    [ apply neutral_ret | apply neutral_throw | apply neutral_get | apply neutral_gets
    | apply neutral_log | apply neutral_query | apply neutral_getPostgresVersion
    | apply neutral_bind | apply neutral_try_catch | apply neutral_if
    | intro ].

(** C10: each of [createEphemeralUser], [dropUser], [listEphemeralUsers],
    [cleanupExpiredUsers] and [healthCheck], from any state and whatever
    fails on the way, acquires at most one connection from the admin pool
    and releases it exactly once when it has acquired it; the number of
    connections checked out is the same after the call as before. *)
Theorem every_operation_releases_its_connection :
  (forall request,
      releases_what_it_acquires (PostgresProvider.createEphemeralUser request))
  /\ (forall username, releases_what_it_acquires (PostgresProvider.dropUser username))
  /\ releases_what_it_acquires PostgresProvider.listEphemeralUsers
  /\ (forall olderThanMinutes,
         releases_what_it_acquires (PostgresProvider.cleanupExpiredUsers olderThanMinutes))
  /\ releases_what_it_acquires PostgresProvider.healthCheck.
Proof.
  repeat split; intros.
  - unfold PostgresProvider.createEphemeralUser.
    apply releases_bind; [apply neutral_get|]. intros this.
    destruct (PostgresProvider.pool this), (PostgresProvider.config this);
      try (apply neutral_releases, neutral_throw).
    apply with_client_releases. unfold PostgresProvider.createEphemeralUser_try.
    neutrality.
  - unfold PostgresProvider.dropUser.
    apply releases_bind; [apply neutral_get|]. intros this.
    destruct (PostgresProvider.pool this);
      try (apply neutral_releases, neutral_throw).
    apply with_client_releases. neutrality.
  - unfold PostgresProvider.listEphemeralUsers.
    apply releases_bind; [apply neutral_get|]. intros this.
    destruct (PostgresProvider.pool this);
      try (apply neutral_releases, neutral_throw).
    apply with_client_releases. neutrality.
  - unfold PostgresProvider.cleanupExpiredUsers.
    apply releases_bind; [apply neutral_get|]. intros this.
    destruct (PostgresProvider.pool this);
      try (apply neutral_releases, neutral_throw).
    apply with_client_releases. neutrality.
  - unfold PostgresProvider.healthCheck.
    apply releases_bind; [apply neutral_gets|]. intros timestamp.
    apply releases_bind; [apply neutral_get|]. intros this.
    destruct (PostgresProvider.pool this);
      try (apply neutral_releases, neutral_ret).
    apply releases_try_catch; [|neutrality].
    apply with_client_releases. neutrality.
Qed.

End ConnectionProperties.

(* --------------------------------------------------------------------- *)
(** ** Identifiers *)
(* --------------------------------------------------------------------- *)

Section IdentifierProperties.
Import Pg.

Lemma identifier_short s : (String.length s <= 63)%nat -> identifier s = s.
Proof.
  unfold identifier. generalize 63%nat as n. induction s as [|c s IH]; intros n Hn.
  - destruct n; reflexivity.
  - destruct n as [|n]; cbn in *; [lia|]. f_equal. apply IH. lia.
Qed.

Lemma identifier_length s : (String.length (identifier s) <= 63)%nat.
Proof.
  unfold identifier. generalize 63%nat as n. induction s as [|c s IH]; intros n.
  - destruct n; cbn; lia.
  - destruct n as [|n]; cbn; [lia|]. specialize (IH n). lia.
Qed.

Lemma identifier_long s : (63 < String.length s)%nat -> identifier s <> s.
Proof.
  intros Hs E. pose proof (identifier_length s) as Hl. rewrite E in Hl. lia.
Qed.

Lemma startsWith_identifier s : Str.startsWith s (identifier s) = true.
Proof.
  unfold identifier. generalize 63%nat as n. induction s as [|c s IH]; intros n.
  - destruct n; reflexivity.
  - destruct n as [|n]; cbn; [reflexivity|]. now rewrite Ascii.eqb_refl, IH.
Qed.

Lemma identifier_cut s : (63 < String.length s)%nat -> String.length (identifier s) = 63%nat.
Proof.
  unfold identifier. generalize 63%nat as n. induction s as [|c s IH]; intros n Hn.
  - cbn in Hn. lia.
  - destruct n as [|n]; cbn; [reflexivity|]. f_equal. apply IH. cbn in Hn. lia.
Qed.

(** In a catalog a name longer than an identifier is the name of no
    role. *)
Lemma names_fit_absent u db :
  names_fit db = true -> (63 < String.length u)%nat -> role_exists u db = false.
Proof.
  unfold names_fit, role_exists. induction (pg_roles db) as [|r l IH]; cbn; [reflexivity|].
  intros Hfit Hu. apply andb_prop in Hfit. destruct Hfit as [Hr Hl].
  rewrite (IH Hl Hu), orb_false_r. apply String.eqb_neq. intros E.
  apply Nat.leb_le in Hr. rewrite E in Hr. lia.
Qed.

End IdentifierProperties.

(* --------------------------------------------------------------------- *)
(** ** The PostgreSQL provider: creating a principal *)
(* --------------------------------------------------------------------- *)

Section CreateProperties.


Lemma pool_connect_ok s c s1 :
  PostgresProvider.pool_connect s = (Ok c, s1) ->
  exists p',
    s1 = PostgresProvider.emit (PostgresProvider.Connect true)
           (PostgresProvider.set_pool (Some p') (PostgresProvider.next_tick s)).
Proof.
  unfold PostgresProvider.pool_connect.
  destruct (PostgresProvider.pool s) as [p|]; [|discriminate].
  destruct (PostgresProvider.faults s (PostgresProvider.tick s)); [discriminate|].
  destruct (Nat.ltb 0 (PostgresProvider.idleCount p)).
  - intros H; inversion H; eauto.
  - destruct (Nat.ltb (PostgresProvider.totalCount p) (PostgresProvider.max p));
      intros H; inversion H; eauto.
Qed.

(** The four ways a [client.query] goes: the driver fails it before the
    server has seen the statement, the driver fails it and the server runs
    the statement all the same, the server raises, or rows come back. *)
Lemma client_query_cases c q s :
  (exists msg,
      PostgresProvider.client_query c q s
      = (Throw (JsError msg),
          PostgresProvider.emit (PostgresProvider.Query q false)
            (PostgresProvider.next_tick s)))
  \/ (exists msg res x,
         Sql.execute q (PostgresProvider.session s) = (res, x)
         /\ PostgresProvider.still_runs s (PostgresProvider.tick s) = true
         /\ PostgresProvider.client_query c q s
            = (Throw (JsError msg),
                PostgresProvider.emit (PostgresProvider.Query q false)
                  (PostgresProvider.set_session x (PostgresProvider.next_tick s))))
  \/ (exists sqlerrm x,
         Sql.execute q (PostgresProvider.session s) = (inl sqlerrm, x)
         /\ PostgresProvider.client_query c q s
            = (Throw (JsError sqlerrm),
                PostgresProvider.emit (PostgresProvider.Query q false)
                  (PostgresProvider.set_session x (PostgresProvider.next_tick s))))
  \/ (exists rows x,
         Sql.execute q (PostgresProvider.session s) = (inr rows, x)
         /\ PostgresProvider.faults s (PostgresProvider.tick s) = None
         /\ PostgresProvider.client_query c q s
            = (Ok rows,
                PostgresProvider.emit (PostgresProvider.Query q true)
                  (PostgresProvider.set_session x (PostgresProvider.next_tick s)))).
Proof.
  unfold PostgresProvider.client_query.
  destruct (PostgresProvider.faults s (PostgresProvider.tick s)) as [msg|].
  - destruct (PostgresProvider.still_runs s (PostgresProvider.tick s)); [|eauto].
    right; left. destruct (Sql.execute q (PostgresProvider.session s)) as [res x].
    exists msg, res, x. auto.
  - destruct (Sql.execute q (PostgresProvider.session s)) as [[e|rows] x]; [|];
      eauto 12.
Qed.

(** [getPostgresVersion] swallows its own failure: it always returns. *)
Lemma getPostgresVersion_returns c s :
  exists v s',
    PostgresProvider.getPostgresVersion c s = (Ok v, s')
    /\ PostgresProvider.session s' = PostgresProvider.session s
    /\ exists e, PostgresProvider.trace s' = (PostgresProvider.trace s ++ [e])%list
                 /\ e <> PostgresProvider.Query Sql.COMMIT true.
Proof.
  unfold PostgresProvider.getPostgresVersion, try_catch, bind, ret.
  destruct (client_query_cases c Sql.SELECT_version s)
    as [(msg & Hq) | [(msg & res & x & Hx & _ & Hq)
                     | [(msg & x & Hx & Hq) | (rows & x & Hx & Hf & Hq)]]];
    rewrite Hq; try (cbn in Hx; inversion Hx; subst x);
    eexists; eexists; (split; [reflexivity|]); (split; [reflexivity|]);
    eexists; (split; [reflexivity|]); discriminate.
Qed.

Ltac version H :=
  match type of H with
  | context [PostgresProvider.getPostgresVersion ?c ?s] =>
      let v := fresh "v" in
      let s' := fresh "s'" in
      let E := fresh "E" in
      let Es := fresh "Es" in
      let ev := fresh "ev" in
      let Et := fresh "Et" in
      let Ne := fresh "Ne" in
      destruct (getPostgresVersion_returns c s) as (v & s' & E & Es & ev & Et & Ne);
      rewrite E in H; clear E; cbv beta iota in H
  end.

Ltac expose H :=
  cbv beta iota delta [bind try_catch try_finally gets get modify ret throw
                         PostgresProvider.log] in H.

Ltac query H :=
  match type of H with
  | context [PostgresProvider.client_query ?c ?q ?s] =>
      let msg := fresh "msg" in
      let res := fresh "res" in
      let x := fresh "x" in
      let rows := fresh "rows" in
      let Hx := fresh "Hx" in
      let Hf := fresh "Hf" in
      let Hl := fresh "Hl" in
      let Hq := fresh "Hq" in
      destruct (client_query_cases c q s)
        as [(msg & Hq) | [(msg & res & x & Hx & Hl & Hq)
                         | [(msg & x & Hx & Hq) | (rows & x & Hx & Hf & Hq)]]];
      rewrite Hq in H; clear Hq; cbv beta iota in H
  end.


(** A statement the server never rejects. *)
Ltac never_raises Hx :=
  cbn in Hx;
  repeat match type of Hx with
         | context [match ?t with _ => _ end] => destruct t; cbn in Hx
         end;
  discriminate Hx.

(** The helper routine's call of [createEphemeralUser] for a request, on the
    provider's clock [now]. *)
Definition helper_call (request : CreateEphemeralUserRequest.t) (now : Z)
  (db : Pg.database) : (string + unit) * Pg.database :=
  Bootstrap.gk_create_ephemeral_user
    (Some (CreateEphemeralUserRequest.username request))
    (Some (CreateEphemeralUserRequest.password request))
    (now + CreateEphemeralUserRequest.ttlMinutes request * 60 * 1000)
    (CreateEphemeralUserRequest.role request)
    (CreateEphemeralUserRequest.connectionLimit request) db.




(** When the helper routine returns, the expiry it was given lies after
    the server's [now()], and the audit table is as it was. *)
Lemma gk_create_ephemeral_user_ok u pw v r n db db' :
  Bootstrap.gk_create_ephemeral_user (Some u) (Some pw) v r n db = (inr tt, db') ->
  Pg.db_now db < v
  /\ re_gk_word u = true
  /\ Pg.role_exists r db = true
  /\ Pg.gatekeeper_audit db' = Pg.gatekeeper_audit db.
Proof.
  unfold Bootstrap.gk_create_ephemeral_user.
  destruct u; [discriminate|]. destruct pw; [discriminate|].
  destruct (re_gk_word _) eqn:Hre; cbn [negb]; [|discriminate].
  destruct (Z.leb_spec v (Pg.db_now db)) as [_|Hnow]; [discriminate|].
  destruct (Pg.role_exists r db) eqn:Hr; cbn [negb]; [|discriminate].
  unfold Pg.CREATE_ROLE. cbv zeta.
  destruct (Pg.role_exists (Pg.identifier _) db); [discriminate|].
  destruct (n <? -1); [discriminate|].
  intros E; inversion E; subst. repeat split; auto.
Qed.

(** When the transaction of [createEphemeralUser] succeeds: the result, and
    what has happened by then. *)
Lemma createEphemeralUser_try_ok cfg request c s1 r s2 :
  PostgresProvider.createEphemeralUser_try cfg request c s1 = (Ok r, s2) ->
  let expiresAt :=
    PostgresProvider.Date_now s1 + CreateEphemeralUserRequest.ttlMinutes request * 60 * 1000 in
  CreateEphemeralUserResult.username r = CreateEphemeralUserRequest.username request
  /\ CreateEphemeralUserResult.dsn r
     = PostgresProvider.generateDsn cfg (CreateEphemeralUserRequest.username request)
         (CreateEphemeralUserRequest.password request)
  /\ CreateEphemeralUserResult.expiresAt r = expiresAt
  /\ Pg.db_now (Sql.server (PostgresProvider.session s1)) < expiresAt
  /\ Pg.gatekeeper_audit (Sql.server (PostgresProvider.session s2))
     = Pg.gatekeeper_audit (Sql.server (PostgresProvider.session s1))
  /\ Sql.txn (PostgresProvider.session s2) = None
  /\ exists before after,
      PostgresProvider.trace s2
      = (PostgresProvider.trace s1 ++ before
           ++ [PostgresProvider.Query Sql.COMMIT true] ++ after)%list.
Proof.
  intros H expiresAt.
  unfold PostgresProvider.createEphemeralUser_try in H. expose H.
  query H; [discriminate | discriminate | never_raises Hx |].
  cbn in Hx; inversion Hx; subst; clear Hx.
  query H; [query H; discriminate | query H; discriminate | query H; discriminate |].
  cbn -[Bootstrap.gk_create_ephemeral_user] in Hx. unfold Sql.rows_of in Hx.
  destruct (Sql.int4 _); [|discriminate Hx].
  destruct (Bootstrap.gk_create_ephemeral_user _ _ _ _ _ _) as [[e|[]] db'] eqn:Ehelper;
    inversion Hx; subst; clear Hx.
  destruct (gk_create_ephemeral_user_ok _ _ _ _ _ _ _ Ehelper) as (Hnow & _ & _ & Haudit).
  query H; [query H; discriminate | query H; discriminate | never_raises Hx |].
  cbn in Hx; inversion Hx; subst; clear Hx.
  version H. inversion H; subst; clear H. cbn.
  rewrite Es, Et. cbn. repeat split; auto.
  rewrite <- !app_assoc. cbn.
  eexists [_; _; _]; eexists; reflexivity.
Qed.

(** [createEphemeralUser], when it returns. *)
Lemma createEphemeralUser_ok request s r s' :
  PostgresProvider.createEphemeralUser request s = (Ok r, s') ->
  let expiresAt :=
    PostgresProvider.Date_now s + CreateEphemeralUserRequest.ttlMinutes request * 60 * 1000 in
  exists cfg,
    PostgresProvider.config s = Some cfg
    /\ CreateEphemeralUserResult.dsn r
       = PostgresProvider.generateDsn cfg (CreateEphemeralUserRequest.username request)
           (CreateEphemeralUserRequest.password request)
    /\ CreateEphemeralUserResult.expiresAt r = expiresAt
    /\ Pg.db_now (Sql.server (PostgresProvider.session s)) < expiresAt
    /\ Pg.gatekeeper_audit (Sql.server (PostgresProvider.session s'))
       = Pg.gatekeeper_audit (Sql.server (PostgresProvider.session s))
    /\ Sql.txn (PostgresProvider.session s') = None
    /\ exists before after,
        PostgresProvider.trace s'
        = (PostgresProvider.trace s ++ before
             ++ [PostgresProvider.Query Sql.COMMIT true] ++ after)%list.
Proof.
  intros H expiresAt.
  unfold PostgresProvider.createEphemeralUser, bind, get in H.
  destruct (PostgresProvider.pool s) as [p|] eqn:Hp; [|discriminate].
  destruct (PostgresProvider.config s) as [cfg|] eqn:Hc; [|discriminate].
  destruct (PostgresProvider.pool_connect s) as [[c|e] s1] eqn:Hconn; [|discriminate].
  destruct (pool_connect_ok _ _ _ Hconn) as [p' ->].
  unfold try_finally, try_catch in H.
  destruct (PostgresProvider.createEphemeralUser_try cfg request c _)
    as [[r1|cause] s2] eqn:Etry; cbn in H; [|discriminate].
  inversion H; subst; clear H.
  destruct (createEphemeralUser_try_ok _ _ _ _ _ _ Etry)
    as (_ & Hdsn & Hexp & Hnow & Haudit & Htxn2 & before & after & Htrace).
  exists cfg. cbn in *. repeat split; auto.
  exists (PostgresProvider.Connect true :: before),
         (after ++ [PostgresProvider.Release])%list.
  rewrite Htrace. rewrite <- ?app_assoc. cbn. now rewrite <- ?app_assoc.
Qed.

End CreateProperties.

(* --------------------------------------------------------------------- *)
(** ** Dropping a principal *)
(* --------------------------------------------------------------------- *)

Section DropProperties.
Import Pg.

(** A privilege class the block of [REVOKE]s of [gk_drop_user] covers. *)
Definition revoked_by_helper (o : acl_object) : bool :=
  match o with
  | OTHER_OBJECT _ => false
  | _ => true
  end.

(** Nothing depends on the role beyond the privileges the helper revokes:
    it owns no object and holds no other privilege. *)
Definition droppable (name : string) (db : database) : bool :=
  (forallb (fun e => negb (String.eqb (fst e) name) || revoked_by_helper (snd e)) (acl db)
   && negb (existsb (String.eqb name) (owners db)))%bool.

Lemma re_gk_word_nonempty name : re_gk_word name = true -> name <> "".
Proof. intros H ->. discriminate. Qed.

Lemma revoke_all_acl name db :
  acl (Bootstrap.revoke_all name db)
  = filter (fun e => negb (String.eqb (fst e) name && revoked_by_helper (snd e))) (acl db).
Proof.
  unfold Bootstrap.revoke_all, REVOKE_ALL_PRIVILEGES; cbn.
  generalize (acl db) as l.
  induction l as [|[g o] l IH]; [reflexivity|].
  cbn [filter fst snd]. destruct (String.eqb g name) eqn:E.
  - destruct o; cbn [andb negb acl_object_eqb revoked_by_helper filter fst snd];
      rewrite ?E; cbn [andb negb acl_object_eqb revoked_by_helper filter fst snd];
      rewrite ?E; cbn [andb negb acl_object_eqb revoked_by_helper filter fst snd];
      rewrite ?E; cbn [andb negb acl_object_eqb revoked_by_helper filter fst snd];
      rewrite ?E; cbn [andb negb acl_object_eqb revoked_by_helper filter fst snd];
      rewrite ?E; cbn [andb negb acl_object_eqb revoked_by_helper filter fst snd];
      now rewrite IH.
  - cbn [andb negb filter fst snd]. rewrite E. cbn [andb negb filter fst snd].
    rewrite E. cbn [andb negb filter fst snd]. rewrite E. cbn [andb negb filter fst snd].
    rewrite E. cbn [andb negb filter fst snd]. now rewrite IH.
Qed.

Lemma droppable_no_dependents name db :
  droppable name db = true ->
  has_dependents name (Bootstrap.revoke_all name db) = false.
Proof.
  unfold droppable, has_dependents. intros H.
  apply andb_prop in H. destruct H as [Hacl Hown].
  rewrite revoke_all_acl.
  replace (owners (Bootstrap.revoke_all name db)) with (owners db) by reflexivity.
  apply negb_true_iff in Hown. rewrite Hown, orb_false_r.
  induction (acl db) as [|[g o] l IH]; [reflexivity|]. cbn in *.
  apply andb_prop in Hacl. destruct Hacl as [Hhd Htl].
  destruct (String.eqb g name) eqn:E; cbn in *.
  - rewrite Hhd. cbn. auto.
  - rewrite E. cbn. auto.
Qed.

Lemma filter_none {A} (p : A -> bool) l :
  List.length (filter p l) = 0%nat -> forall a, In a l -> p a = false.
Proof.
  induction l as [|x l IH]; cbn; [tauto|].
  destruct (p x) eqn:E; cbn; [discriminate|].
  intros H a [<-|Ha]; auto.
Qed.

(** [gk_drop_user] on a name that passes its pattern and that no role
    bears: false, and nothing changes. *)
Lemma gk_drop_user_absent name db :
  re_gk_word name = true ->
  role_exists name db = false ->
  Bootstrap.gk_drop_user (Some name) db = (inr false, db).
Proof.
  intros Hre Hex. unfold Bootstrap.gk_drop_user.
  destruct name; [discriminate|]. now rewrite Hre, Hex.
Qed.

(** [gk_drop_user] on a name that fails its pattern raises. *)
Lemma gk_drop_user_refuses name db :
  re_gk_word name = false ->
  exists sqlerrm, Bootstrap.gk_drop_user (Some name) db = (inl sqlerrm, db).
Proof.
  intros Hre. unfold Bootstrap.gk_drop_user.
  destruct name; [eexists; reflexivity|]. rewrite Hre. eexists; reflexivity.
Qed.

Lemma dropped_role_is_gone name (f : pg_role -> pg_role) l :
  (forall r, rolname (f r) = rolname r) ->
  existsb (fun r => String.eqb (rolname r) name)
    (map f (filter (fun r => negb (String.eqb (rolname r) name)) l)) = false.
Proof.
  intros Hf. induction l as [|r l IH]; [reflexivity|]. cbn.
  destruct (String.eqb (rolname r) name) eqn:E; cbn; [exact IH|].
  now rewrite Hf, E.
Qed.

Lemma no_dependents_no_acl name l :
  existsb (fun e : string * acl_object => String.eqb (fst e) name) l = false ->
  forall e, In e l -> fst e <> name.
Proof.
  induction l as [|y l IH]; cbn; [tauto|].
  intros H. apply orb_false_elim in H. destruct H as [Hy Hl].
  intros e [<-|He] Hname.
  - rewrite Hname, String.eqb_refl in Hy. discriminate.
  - exact (IH Hl e He Hname).
Qed.

(** [gk_drop_user] on an existing role that can be dropped: true, the role
    is gone, none of its other backends is active, and it holds no
    privilege. *)
Lemma gk_drop_user_present name db :
  re_gk_word name = true ->
  role_exists name db = true ->
  droppable name db = true ->
  exists db',
    Bootstrap.gk_drop_user (Some name) db = (inr true, db')
    /\ role_exists name db' = false
    /\ (forall a, In a (pg_stat_activity db') -> Bootstrap.active_other name db a = false)
    /\ (forall e, In e (acl db') -> fst e <> name).
Proof.
  intros Hre Hex Hdrop. unfold Bootstrap.gk_drop_user.
  destruct name as [|ch name']; [discriminate|]. rewrite Hre, Hex. cbn [negb].
  set (name := String ch name') in *.
  set (db1 := if count_activity (Bootstrap.active_other name db) db >? 0
              then pg_terminate_backend (Bootstrap.any_other name db) db else db).
  assert (Hacl1 : acl db1 = acl db) by (subst db1; destruct (_ >? 0); reflexivity).
  assert (Hown1 : owners db1 = owners db) by (subst db1; destruct (_ >? 0); reflexivity).
  assert (Hrol1 : pg_roles db1 = pg_roles db) by (subst db1; destruct (_ >? 0); reflexivity).
  assert (Hdrop1 : droppable name db1 = true)
    by (unfold droppable; now rewrite Hacl1, Hown1).
  assert (Hex1 : role_exists name (Bootstrap.revoke_all name db1) = true)
    by (unfold role_exists in *; cbn; now rewrite Hrol1).
  pose proof (droppable_no_dependents _ _ Hdrop1) as Hnodep.
  unfold DROP_ROLE. rewrite Hex1, Hnodep. cbn [negb].
  eexists. split; [reflexivity|]. split; [|split].
  - unfold role_exists. cbn [pg_roles with_roles]. apply dropped_role_is_gone.
    reflexivity.
  - cbn [pg_stat_activity with_roles].
    replace (pg_stat_activity (Bootstrap.revoke_all name db1))
      with (pg_stat_activity db1) by reflexivity.
    subst db1.
    destruct (Z.gtb_spec (count_activity (Bootstrap.active_other name db) db) 0)
      as [Hpos|Hzero].
    + cbn [pg_stat_activity pg_terminate_backend with_activity].
      intros a Ha. apply filter_In in Ha. destruct Ha as [_ Ha].
      unfold Bootstrap.active_other, Bootstrap.any_other in *.
      apply negb_true_iff in Ha.
      destruct (String.eqb (usename a) name); cbn in *; [|reflexivity].
      destruct (pid a =? pg_backend_pid db); cbn in *; [|discriminate].
      now rewrite andb_false_r.
    + apply filter_none. unfold count_activity in Hzero. lia.
  - replace (acl (with_roles _ (Bootstrap.revoke_all name db1)))
      with (acl (Bootstrap.revoke_all name db1)) by reflexivity.
    apply no_dependents_no_acl.
    unfold has_dependents in Hnodep. apply orb_false_elim in Hnodep. tauto.
Qed.

(** A connection can be had: the network lets the call through and the
    pool has an idle connection or room for one more. *)
Definition can_connect (s : PostgresProvider.state) : Prop :=
  PostgresProvider.faults s (PostgresProvider.tick s) = None
  /\ exists p, PostgresProvider.pool s = Some p
               /\ (Nat.ltb 0 (PostgresProvider.idleCount p)
                   || Nat.ltb (PostgresProvider.totalCount p) (PostgresProvider.max p))%bool
                  = true.

Lemma pool_connect_succeeds s :
  can_connect s ->
  exists p',
    PostgresProvider.pool_connect s
    = (Ok PostgresProvider.client,
        PostgresProvider.emit (PostgresProvider.Connect true)
          (PostgresProvider.set_pool (Some p') (PostgresProvider.next_tick s))).
Proof.
  intros [Hf (p & Hp & Hroom)]. unfold PostgresProvider.pool_connect.
  rewrite Hp, Hf.
  destruct (Nat.ltb 0 (PostgresProvider.idleCount p)) eqn:E0; [eauto|].
  cbn [orb] in Hroom. rewrite Hroom. eauto.
Qed.

(** What [dropUser] does once it holds its connection and the network
    carries its one statement, by what the helper routine answers. *)
Lemma dropUser_run s name :
  can_connect s ->
  PostgresProvider.faults s (S (PostgresProvider.tick s)) = None ->
  exists s',
    Sql.txn (PostgresProvider.session s') = Sql.txn (PostgresProvider.session s)
    /\ match Bootstrap.gk_drop_user (Some name) (Sql.server (PostgresProvider.session s)) with
       | (inr b, db') =>
           PostgresProvider.dropUser name s = (Ok b, s')
           /\ Sql.server (PostgresProvider.session s') = db'
       | (inl _, db') =>
           PostgresProvider.dropUser name s
           = (Throw (PostgresProvider.provider_error "Failed to drop user"
                       "USER_DROP_FAILED" true), s')
           /\ Sql.server (PostgresProvider.session s') = db'
       end.
Proof.
  intros Hconn Hf. destruct (pool_connect_succeeds _ Hconn) as [p' Hgo].
  destruct Hconn as [_ (p & Hp & _)].
  unfold PostgresProvider.dropUser, bind, get. rewrite Hp, Hgo.
  unfold try_finally, try_catch, bind, PostgresProvider.log, modify,
    PostgresProvider.client_query.
  cbn -[Bootstrap.gk_drop_user]. rewrite Hf. unfold Sql.rows_of.
  destruct (Bootstrap.gk_drop_user (Some name) _) as [[sqlerrm|b] db'].
  - cbn. eexists. split; [|split; [reflexivity|]]; reflexivity.
  - destruct b; cbn; eexists; (split; [|split; [reflexivity|]]; reflexivity).
Qed.

(** C8 (amended): on an initialised provider that gets its connection and
    whose statement the network carries, [dropUser(name)] raises
    [USER_DROP_FAILED] when the name does not match [^gk_[a-zA-Z0-9_]+$];
    returns false, raises nothing and leaves the catalogs as they are when
    the name matches and no role bears it; and, when the role exists and
    nothing depends on it beyond the privileges the helper revokes,
    returns true with the role removed, none of its backends other than
    the caller's still active, and no privilege left to it. *)
Theorem dropUser_of_an_absent_principal_is_false :
  forall (s : PostgresProvider.state) (name : string),
    can_connect s ->
    PostgresProvider.faults s (S (PostgresProvider.tick s)) = None ->
    let db := Sql.server (PostgresProvider.session s) in
    (re_gk_word name = false ->
     exists s',
       PostgresProvider.dropUser name s
       = (Throw (PostgresProvider.provider_error "Failed to drop user"
                   "USER_DROP_FAILED" true), s'))
    /\ (re_gk_word name = true ->
        role_exists name db = false ->
        exists s',
          PostgresProvider.dropUser name s = (Ok false, s')
          /\ Sql.server (PostgresProvider.session s') = db)
    /\ (re_gk_word name = true ->
        role_exists name db = true ->
        droppable name db = true ->
        exists s',
          PostgresProvider.dropUser name s = (Ok true, s')
          /\ let db' := Sql.server (PostgresProvider.session s') in
             role_exists name db' = false
             /\ (forall a, In a (pg_stat_activity db') ->
                           Bootstrap.active_other name db a = false)
             /\ (forall e, In e (acl db') -> fst e <> name)).
Proof.
  intros s name Hconn Hf db.
  destruct (dropUser_run s name Hconn Hf) as (s' & _ & Hrun). fold db in Hrun.
  split; [|split].
  - intros Hre. destruct (gk_drop_user_refuses name db Hre) as [sqlerrm E].
    rewrite E in Hrun. exists s'. tauto.
  - intros Hre Hex. rewrite (gk_drop_user_absent name db Hre Hex) in Hrun.
    exists s'. tauto.
  - intros Hre Hex Hdrop.
    destruct (gk_drop_user_present name db Hre Hex Hdrop) as (db' & E & H1 & H2 & H3).
    rewrite E in Hrun. destruct Hrun as [Hrun Hdb]. exists s'.
    split; [exact Hrun|]. cbn. rewrite Hdb. auto.
Qed.

End DropProperties.

(* --------------------------------------------------------------------- *)
(** ** Cleaning up expired principals *)
(* --------------------------------------------------------------------- *)

Section CleanupProperties.
Import Pg.

(** The two shapes a row of [gk_cleanup_expired_users] has: dropped, with
    no error text; or not dropped, with the error text of the failed drop
    if it raised.  [was_expired] is true in both. *)
Definition cleanup_row_shape (r : row) : Prop :=
  col "was_expired" r = BOOLEAN true
  /\ (col "dropped" r = BOOLEAN true /\ col "error_message" r = NULL
      \/ col "dropped" r = BOOLEAN false
         /\ (col "error_message" r = NULL
             \/ exists sqlerrm, col "error_message" r = TEXT sqlerrm)).

Lemma cleanup_loop_rows names : forall db,
  map (col "username") (fst (Bootstrap.cleanup_loop names db)) = map TEXT names
  /\ forall r, In r (fst (Bootstrap.cleanup_loop names db)) -> cleanup_row_shape r.
Proof.
  induction names as [|n rest IH]; intros db; cbn -[Bootstrap.gk_drop_user].
  - split; [reflexivity|]. intros r [].
  - destruct (Bootstrap.gk_drop_user (Some n) db) as [[sqlerrm|b] db1].
    + destruct (IH db1) as [IHn IHs].
      destruct (Bootstrap.cleanup_loop rest db1) as [rows db2]. cbn in *.
      split; [now rewrite IHn|].
      intros r [<-|Hr]; [|auto].
      split; [reflexivity|]. right. split; [reflexivity|]. right. cbn. eauto.
    + destruct (IH db1) as [IHn IHs].
      destruct (Bootstrap.cleanup_loop rest db1) as [rows db2]. cbn in *.
      split; [now rewrite IHn|].
      intros r [<-|Hr]; [|auto].
      split; [reflexivity|]. destruct b; [left|right]; cbn; auto.
Qed.


End CleanupProperties.

(* --------------------------------------------------------------------- *)
(** ** Creating a session on PostgreSQL *)
(* --------------------------------------------------------------------- *)

Section CreateSessionProperties.
Context {platform : Platform}.
Variable config : AgentConfig.t.

(** The helper routine accepts a request whose name matches its pattern and,
    as the server reads it, is free, whose password is not empty, whose
    expiry lies ahead and whose group role exists. *)
Lemma helper_call_returns request now db :
  re_gk_word (CreateEphemeralUserRequest.username request) = true ->
  CreateEphemeralUserRequest.password request <> "" ->
  Pg.db_now db < now + CreateEphemeralUserRequest.ttlMinutes request * 60 * 1000 ->
  Pg.role_exists (CreateEphemeralUserRequest.role request) db = true ->
  Pg.role_exists (Pg.identifier (CreateEphemeralUserRequest.username request)) db = false ->
  -1 <= CreateEphemeralUserRequest.connectionLimit request ->
  exists db',
    helper_call request now db = (inr tt, db')
    /\ Pg.role_exists (Pg.identifier (CreateEphemeralUserRequest.username request)) db'
       = true.
Proof.
  intros Hre Hpw Hnow Hrole Hfree Hlimit.
  unfold helper_call, Bootstrap.gk_create_ephemeral_user.
  destruct (CreateEphemeralUserRequest.username request) as [|a u] eqn:Eu;
    [discriminate|].
  destruct (CreateEphemeralUserRequest.password request) as [|b pw] eqn:Epw;
    [congruence|].
  rewrite Hre, Hrole. cbn [negb].
  destruct (Z.leb_spec (now + CreateEphemeralUserRequest.ttlMinutes request * 60 * 1000)
              (Pg.db_now db)) as [Hle|_]; [lia|].
  unfold Pg.CREATE_ROLE. cbv zeta. rewrite Hfree.
  destruct (Z.ltb_spec (CreateEphemeralUserRequest.connectionLimit request) (-1))
    as [Hlt|_]; [lia|].
  eexists. split; [reflexivity|].
  unfold Pg.ALTER_ROLE_SET_search_path, Pg.GRANT_ROLE, Pg.update_role, Pg.role_exists.
  cbn [Pg.pg_roles Pg.with_roles]. rewrite !map_app, !existsb_app.
  apply orb_true_iff. right.
  set (name := Pg.identifier (String a u)) in *. clearbody name. cbn.
  repeat (rewrite String.eqb_refl; cbn). reflexivity.
Qed.

Lemma bind_ok {St A B} (m : M St A) (k : A -> M St B) s a s' :
  m s = (Ok a, s') -> bind m k s = k a s'.
Proof. intros H. unfold bind. now rewrite H. Qed.

Lemma try_catch_ok {St A} (m : M St A) (h : exn -> M St A) s a s' :
  m s = (Ok a, s') -> try_catch m h s = (Ok a, s').
Proof. intros H. unfold try_catch. now rewrite H. Qed.

Lemma client_query_ok c q s rows x :
  PostgresProvider.faults s (PostgresProvider.tick s) = None ->
  Sql.execute q (PostgresProvider.session s) = (inr rows, x) ->
  PostgresProvider.client_query c q s
  = (Ok rows,
      PostgresProvider.emit (PostgresProvider.Query q true)
        (PostgresProvider.set_session x (PostgresProvider.next_tick s))).
Proof. intros Hf Hx. unfold PostgresProvider.client_query. now rewrite Hf, Hx. Qed.

(** The transaction of [createEphemeralUser] goes through when the driver
    carries [BEGIN], the helper's call and [COMMIT] and the helper routine
    accepts the request. *)
Lemma createEphemeralUser_try_returns cfg request c s1 db' :
  PostgresProvider.faults s1 (PostgresProvider.tick s1) = None ->
  PostgresProvider.faults s1 (S (PostgresProvider.tick s1)) = None ->
  PostgresProvider.faults s1 (S (S (PostgresProvider.tick s1))) = None ->
  Sql.int4 (CreateEphemeralUserRequest.connectionLimit request) = true ->
  helper_call request (PostgresProvider.Date_now s1)
    (Sql.server (PostgresProvider.session s1)) = (inr tt, db') ->
  exists v s2,
    PostgresProvider.createEphemeralUser_try cfg request c s1
    = (Ok {| CreateEphemeralUserResult.username :=
               CreateEphemeralUserRequest.username request;
             CreateEphemeralUserResult.dsn :=
               PostgresProvider.generateDsn cfg
                 (CreateEphemeralUserRequest.username request)
                 (CreateEphemeralUserRequest.password request);
             CreateEphemeralUserResult.expiresAt :=
               PostgresProvider.Date_now s1
               + CreateEphemeralUserRequest.ttlMinutes request * 60 * 1000;
             CreateEphemeralUserResult.connectionLimit :=
               CreateEphemeralUserRequest.connectionLimit request;
             CreateEphemeralUserResult.postgresVersion := v |}, s2)
    /\ Sql.server (PostgresProvider.session s2) = db'
    /\ Sql.txn (PostgresProvider.session s2) = None.
Proof.
  intros Hf1 Hf2 Hf3 Hint Hhelper.
  set (sa := PostgresProvider.emit
               (PostgresProvider.Log PostgresProvider.info
                  "Creating PostgreSQL ephemeral user") s1).
  set (xb := {| Sql.server := Sql.server (PostgresProvider.session s1);
                Sql.txn := match Sql.txn (PostgresProvider.session s1) with
                           | Some t => Some t
                           | None => Some (Sql.server (PostgresProvider.session s1))
                           end |}).
  set (sb := PostgresProvider.emit (PostgresProvider.Query Sql.BEGIN true)
               (PostgresProvider.set_session xb (PostgresProvider.next_tick sa))).
  set (q := Sql.SELECT_gk_create_ephemeral_user
              (CreateEphemeralUserRequest.username request)
              (CreateEphemeralUserRequest.password request)
              (PostgresProvider.Date_now s1
               + CreateEphemeralUserRequest.ttlMinutes request * 60 * 1000)
              (CreateEphemeralUserRequest.role request)
              (CreateEphemeralUserRequest.connectionLimit request)).
  set (xc := {| Sql.server := db'; Sql.txn := Sql.txn xb |}).
  set (sc := PostgresProvider.emit (PostgresProvider.Query q true)
               (PostgresProvider.set_session xc (PostgresProvider.next_tick sb))).
  set (xd := {| Sql.server := db'; Sql.txn := None |}).
  set (sd := PostgresProvider.emit (PostgresProvider.Query Sql.COMMIT true)
               (PostgresProvider.set_session xd (PostgresProvider.next_tick sc))).
  set (se := PostgresProvider.emit
               (PostgresProvider.Log PostgresProvider.info
                  "PostgreSQL ephemeral user created successfully") sd).
  assert (Hb : PostgresProvider.client_query c Sql.BEGIN sa = (Ok [], sb))
    by (apply client_query_ok; [exact Hf1|reflexivity]).
  assert (Hc : PostgresProvider.client_query c q sb
               = (Ok [[("gk_create_ephemeral_user", Pg.NULL)]], sc)).
  { apply client_query_ok; [exact Hf2|].
    unfold helper_call in Hhelper.
    change (Sql.execute q (PostgresProvider.session sb))
      with (if Sql.int4 (CreateEphemeralUserRequest.connectionLimit request)
            then Sql.rows_of (fun _ : unit => [[("gk_create_ephemeral_user", Pg.NULL)]])
                   (Bootstrap.gk_create_ephemeral_user
                      (Some (CreateEphemeralUserRequest.username request))
                      (Some (CreateEphemeralUserRequest.password request))
                      (PostgresProvider.Date_now s1
                       + CreateEphemeralUserRequest.ttlMinutes request * 60 * 1000)
                      (CreateEphemeralUserRequest.role request)
                      (CreateEphemeralUserRequest.connectionLimit request)
                      (Sql.server (PostgresProvider.session s1)))
                   (Sql.txn xb)
            else (inl (Sql.out_of_range
                         (CreateEphemeralUserRequest.connectionLimit request)), xb)).
    rewrite Hint, Hhelper. reflexivity. }
  assert (Hd : PostgresProvider.client_query c Sql.COMMIT sc = (Ok [], sd))
    by (apply client_query_ok; [exact Hf3|reflexivity]).
  destruct (getPostgresVersion_returns c se) as (v & s2 & Ev & Es & ev & Et & _).
  exists v, s2. split.
  - unfold PostgresProvider.createEphemeralUser_try.
    rewrite (bind_ok (gets PostgresProvider.Date_now) _ s1 _ s1 eq_refl).
    rewrite (bind_ok (PostgresProvider.log PostgresProvider.info
                        "Creating PostgreSQL ephemeral user") _ s1 tt sa eq_refl).
    rewrite (bind_ok _ _ sa _ sb Hb).
    apply try_catch_ok.
    fold q.
    rewrite (bind_ok _ _ sb _ sc Hc).
    rewrite (bind_ok _ _ sc _ sd Hd).
    rewrite (bind_ok (PostgresProvider.log PostgresProvider.info
                        "PostgreSQL ephemeral user created successfully")
               _ sd tt se eq_refl).
    rewrite (bind_ok _ _ se _ s2 Ev).
    reflexivity.
  - rewrite Es. split; reflexivity.
Qed.

(** [createEphemeralUser] returns when the provider gets its connection,
    the driver carries [BEGIN], the helper's call and [COMMIT], and the
    helper routine accepts the request: the result names the user of the
    request, with the DSN and the expiry computed from it, and the server
    is as the helper routine left it, with no transaction open. *)
Lemma createEphemeralUser_returns request s cfg db' :
  can_connect s ->
  PostgresProvider.config s = Some cfg ->
  PostgresProvider.faults s (S (PostgresProvider.tick s)) = None ->
  PostgresProvider.faults s (S (S (PostgresProvider.tick s))) = None ->
  PostgresProvider.faults s (S (S (S (PostgresProvider.tick s)))) = None ->
  Sql.int4 (CreateEphemeralUserRequest.connectionLimit request) = true ->
  helper_call request (PostgresProvider.Date_now s)
    (Sql.server (PostgresProvider.session s)) = (inr tt, db') ->
  exists v s',
    PostgresProvider.createEphemeralUser request s
    = (Ok {| CreateEphemeralUserResult.username :=
               CreateEphemeralUserRequest.username request;
             CreateEphemeralUserResult.dsn :=
               PostgresProvider.generateDsn cfg
                 (CreateEphemeralUserRequest.username request)
                 (CreateEphemeralUserRequest.password request);
             CreateEphemeralUserResult.expiresAt :=
               PostgresProvider.Date_now s
               + CreateEphemeralUserRequest.ttlMinutes request * 60 * 1000;
             CreateEphemeralUserResult.connectionLimit :=
               CreateEphemeralUserRequest.connectionLimit request;
             CreateEphemeralUserResult.postgresVersion := v |}, s')
    /\ Sql.server (PostgresProvider.session s') = db'
    /\ Sql.txn (PostgresProvider.session s') = None.
Proof.
  intros Hconn Hcfg Hf1 Hf2 Hf3 Hint Hhelper.
  destruct (pool_connect_succeeds _ Hconn) as [p' Hgo].
  destruct Hconn as [_ (p & Hp & _)].
  set (s1 := PostgresProvider.emit (PostgresProvider.Connect true)
               (PostgresProvider.set_pool (Some p') (PostgresProvider.next_tick s))) in *.
  destruct (createEphemeralUser_try_returns cfg request PostgresProvider.client s1 db'
              Hf1 Hf2 Hf3 Hint Hhelper) as (v & s2 & Etry & Hdb & Htxn).
  exists v. eexists. split.
  - unfold PostgresProvider.createEphemeralUser.
    rewrite (bind_ok get _ s s s eq_refl). rewrite Hp, Hcfg.
    rewrite (bind_ok PostgresProvider.pool_connect _ s _ s1 Hgo).
    unfold try_finally. rewrite (try_catch_ok _ _ _ _ _ Etry). reflexivity.
  - split; [exact Hdb|exact Htxn].
Qed.
(** C6: on an agent that is initialised, or whose initialisation on demand
    succeeds, every create_session job that succeeds has been decoded with
    a TTL between 1 and 1440; its session id is [ses_] and its user name
    [gk_] followed by the twelve hexadecimal digits of six bytes from the
    random source, so the name matches [^gk_[A-Za-z0-9]+$] and is 15
    characters long; the password handed to the provider and put into the
    DSN is the base64 of sixteen random bytes followed by the hexadecimal
    of four, 32 characters; and [expiresAt] is the provider's clock at the
    time of the call plus [ttlMinutes * 60] seconds, strictly after that
    clock and strictly after the server's [now()].  And such a job does
    succeed, with exactly these values, whenever its TTL is within the
    configured maximum, the provider gets its connection, the driver
    carries [BEGIN], the helper's call and [COMMIT], the group role exists,
    the generated name is free and the expiry lies after the server's
    [now()]; the principal then exists on the server. *)
Theorem successful_create_session_result :
  forall (st st1 : Agent.state PostgresProvider.state) (jobData : jsval)
         (cid : option string),
    Agent.ensureInitialized config st = (Ok tt, st1) ->
    let sid := "ses_" ++ Buffer.to_hex (bytes_at st1 0 6) in
    let user := "gk_" ++ Buffer.to_hex (bytes_at st1 6 6) in
    let password :=
      Buffer.to_base64 (bytes_at st1 12 16) ++ Buffer.to_hex (bytes_at st1 28 4) in
    let provider := Agent.provider_state st1 in
    let now := PostgresProvider.Date_now provider in
    let db := Sql.server (PostgresProvider.session provider) in
    (forall (st2 : Agent.state PostgresProvider.state) (sid' dsn user' : string) (exp : Z),
        Agent.processJob config jobData cid st
        = (Ok (CreateSessionReady sid' dsn exp user'), st2) ->
        exists (job : CreateSessionJob.t) (cfg : DatabaseConnectionConfig.t),
          Zod.validateAgentJob jobData = inr (create_session_job job)
          /\ 1 <= CreateSessionJob.ttlMinutes job <= 1440
          /\ sid' = sid
          /\ String.length sid' = 16%nat
          /\ user' = user
          /\ Str.all Str.is_hex (Buffer.to_hex (bytes_at st1 6 6)) = true
          /\ re_gk_alnum user' = true
          /\ String.length user' = 15%nat
          /\ Zod.validEphemeralUsername user' = true
          /\ (List.length (bytes_at st1 12 16) = 16%nat
              /\ String.length password = 32%nat
              /\ (24 <= String.length password)%nat
              /\ PostgresProvider.config provider = Some cfg
              /\ dsn = PostgresProvider.generateDsn cfg user' password
              /\ exists request,
                  In (Agent.Call (Agent.call_createEphemeralUser request))
                    (Agent.events st2)
                  /\ CreateEphemeralUserRequest.username request = user'
                  /\ CreateEphemeralUserRequest.password request = password)
          /\ (exp = now + CreateSessionJob.ttlMinutes job * 60 * 1000
              /\ now < exp
              /\ Pg.db_now db < exp))
    /\ (forall (job : CreateSessionJob.t) (cfg : DatabaseConnectionConfig.t),
           Zod.validateAgentJob jobData = inr (create_session_job job) ->
           CreateSessionJob.ttlMinutes job <= AgentConfig.sessionMaxTtlMinutes config ->
           PostgresProvider.config provider = Some cfg ->
           can_connect provider ->
           PostgresProvider.faults provider (S (PostgresProvider.tick provider)) = None ->
           PostgresProvider.faults provider (S (S (PostgresProvider.tick provider)))
           = None ->
           PostgresProvider.faults provider (S (S (S (PostgresProvider.tick provider))))
           = None ->
           Pg.role_exists (Role_name (CreateSessionJob.role job)) db = true ->
           Pg.role_exists user db = false ->
           Pg.db_now db < now + CreateSessionJob.ttlMinutes job * 60 * 1000 ->
           exists st2,
             Agent.processJob config jobData cid st
             = (Ok (CreateSessionReady sid
                      (PostgresProvider.generateDsn cfg user password)
                      (now + CreateSessionJob.ttlMinutes job * 60 * 1000)
                      user), st2)
             /\ Pg.role_exists user
                  (Sql.server (PostgresProvider.session (Agent.provider_state st2)))
                = true).
Proof.
  intros st st1 jobData cid Hinit sid user password provider now db.
  assert (Hlen : forall from n, List.length (bytes_at st1 from n) = n)
    by (intros; unfold bytes_at; now rewrite length_map, length_seq).
  assert (Hne : bytes_at st1 6 6 <> [])
    by (intros E; pose proof (Hlen 6%nat 6%nat) as L; rewrite E in L; discriminate).
  destruct (gk_hex_matches _ Hne) as [Hre Hword].
  assert (Huser : String.length user = 15%nat)
    by (subst user; rewrite length_append, to_hex_length, Hlen; reflexivity).
  assert (Hpw : String.length password = 32%nat)
    by (subst password;
        rewrite length_append, to_base64_length, to_hex_length, !Hlen; reflexivity).
  split.
  - subst sid user password provider now db.
    intros st2 sid' dsn user' exp H.
    destruct (processJob_ready_inv config _ _ _ _ _ _ _ _ _ Hinit H)
      as (job & result & p & Hjob & Hle & Hcreate & -> & -> & -> & -> & ->).
    destruct (createEphemeralUser_ok _ _ _ _ Hcreate)
      as (cfg & Hcfg & Hdsn & Hexp & Hnow & _).
    assert (Httl : 1 <= CreateSessionJob.ttlMinutes job <= 1440).
    { unfold Zod.validateAgentJob, Zod.validate in Hjob.
      destruct (Zod.AgentJobSchema jobData) as [i|j] eqn:E; [discriminate|].
      inversion Hjob; subst j. unfold Zod.AgentJobSchema in E.
      destruct jobData; try discriminate.
      destruct (prop "type" fields); try discriminate.
      destruct (String.eqb s "create_session").
      - unfold Zod.andThen in E.
        destruct (Zod.CreateSessionJobSchema (JObj fields)) as [i|j] eqn:Ej; [discriminate|].
        inversion E; subst. exact (proj2 (CreateSessionJobSchema_ttl _ _ Ej)).
      - destruct (String.eqb s "revoke_session").
        + unfold Zod.andThen in E. destruct (Zod.RevokeSessionJobSchema _); discriminate.
        + destruct (String.eqb s "cleanup"); [|discriminate].
          unfold Zod.andThen in E. destruct (Zod.CleanupJobSchema _); discriminate. }
    exists job, cfg. unfold generated_sessionId, generated_username.
    split; [exact Hjob|]. split; [exact Httl|].
    split; [reflexivity|].
    split; [rewrite length_append, to_hex_length, Hlen; reflexivity|].
    split; [reflexivity|].
    split; [exact (proj2 (to_hex_alnum _))|].
    split; [exact Hre|]. split; [exact Huser|].
    split; [unfold Zod.validEphemeralUsername; rewrite Hre, Huser; reflexivity|].
    split.
    + split; [apply Hlen|]. split; [exact Hpw|]. split; [rewrite Hpw; lia|].
      split; [exact Hcfg|]. split; [exact Hdsn|].
      exists (generated_request job st1). split; [|split; reflexivity].
      rewrite events_after. apply in_or_app. right. cbn. auto.
    + cbn in Hexp, Hnow. split; [exact Hexp|].
      rewrite Hexp. split; [lia|exact Hnow].
  - intros job cfg Hjob Hle Hcfg Hconn Hf1 Hf2 Hf3 Hrole Hfree Hnow.
    assert (Hshort : Pg.identifier user = user)
      by (apply identifier_short; rewrite Huser; lia).
    destruct (helper_call_returns (generated_request job st1) now db) as (db' & Hhelper & Hex).
    { exact Hword. }
    { change (password <> ""). intros E. rewrite E in Hpw. discriminate. }
    { exact Hnow. }
    { exact Hrole. }
    { change (Pg.role_exists (Pg.identifier user) db = false). now rewrite Hshort. }
    { change (-1 <= 2). lia. }
    destruct (createEphemeralUser_returns (generated_request job st1) provider cfg db'
                Hconn Hcfg Hf1 Hf2 Hf3 eq_refl Hhelper)
      as (v & s' & Hcreate & Hdb & _).
    eexists. split.
    + exact (processJob_create_returns config st st1 jobData cid job _ s'
               Hinit Hjob Hle Hcreate).
    + rewrite provider_state_after. cbn [with_provider_state Agent.provider_state].
      rewrite Hdb.
      change (Pg.role_exists (Pg.identifier user) db' = true) in Hex.
      now rewrite Hshort in Hex.
Qed.

(** C3 (amended): for every create_session job that succeeds, the
    orchestrator hands exactly one [session.created] audit event to its
    logger, after the provider's call has settled and so after the
    provider's [COMMIT] went through.  The event carries the session id,
    the user name, the job's correlation id and, as [eventHash], the
    SHA-256 of the JSON text of [{type, data}].  No hash of a previous
    event is computed, and the table [gatekeeper_audit] is as it was: the
    event is not persisted. *)
Theorem session_created_is_logged_after_commit :
  forall (st st1 st2 : Agent.state PostgresProvider.state) (jobData : jsval)
         (cid : option string) (sid dsn user : string) (exp : Z),
    Agent.ensureInitialized config st = (Ok tt, st1) ->
    Agent.processJob config jobData cid st
    = (Ok (CreateSessionReady sid dsn exp user), st2) ->
    exists (job : CreateSessionJob.t) (request : CreateEphemeralUserRequest.t),
      Zod.validateAgentJob jobData = inr (create_session_job job)
      /\ Agent.events st2
         = (Agent.events st1 ++
              [ Agent.Log Agent.info "Processing agent job";
                Agent.Log Agent.info "Creating ephemeral session via provider";
                Agent.Call (Agent.call_createEphemeralUser request);
                Agent.Settled true;
                Agent.Audit
                  {| Agent.logged_eventType := "session.created";
                     Agent.logged_sessionId := Some sid;
                     Agent.logged_username := Some user;
                     Agent.logged_correlationId :=
                       Some (CreateSessionJob.correlationId job);
                     Agent.eventHash :=
                       sha256_hex
                         (JSON_stringify
                            (JObj [ ("type", JStr "session.created");
                                    ("data", Agent.created_eventData job) ])) |};
                Agent.Log Agent.info "Session created successfully via provider" ])%list
      /\ (exists before after,
             PostgresProvider.trace (Agent.provider_state st2)
             = (PostgresProvider.trace (Agent.provider_state st1) ++ before
                  ++ [PostgresProvider.Query Sql.COMMIT true] ++ after)%list)
      /\ Pg.gatekeeper_audit
           (Sql.server (PostgresProvider.session (Agent.provider_state st2)))
         = Pg.gatekeeper_audit
             (Sql.server (PostgresProvider.session (Agent.provider_state st1))).
Proof.
  intros st st1 st2 jobData cid sid dsn user exp Hinit H.
  destruct (processJob_ready_inv config _ _ _ _ _ _ _ _ _ Hinit H)
    as (job & result & p & Hjob & Hle & Hcreate & -> & -> & -> & -> & ->).
  destruct (createEphemeralUser_ok _ _ _ _ Hcreate)
    as (cfg & _ & _ & _ & _ & Haudit & _ & Htrace).
  exists job, (generated_request job st1).
  split; [exact Hjob|]. rewrite events_after, provider_state_after.
  split; [reflexivity|]. split; [exact Htrace|exact Haudit].
Qed.

End CreateSessionProperties.

(* --------------------------------------------------------------------- *)
(** ** The scenarios, run *)
(* --------------------------------------------------------------------- *)

Module Runs.
Import Scenario.

(** *** Where the code departs from a sentence of the specification *)

(** A create_session job succeeds and the audit table still holds only the
    row the bootstrap wrote: nothing is appended to it. *)
Lemma successful_create_leaves_the_audit_table_alone :
  fst (run 1440 (create_job 15) (agent bootstrapped))
  = Ok (CreateSessionReady "ses_000102030405"
          "postgresql://gk_060708090a0b:DA0ODxAREhMUFRYXGBkaGw%3D%3D1c1d1e1f@db:5432/app?sslmode=prefer"
          1700000900000 "gk_060708090a0b")
  /\ map Pg.event_type
       (Pg.gatekeeper_audit
          (Sql.server
             (PostgresProvider.session
                (Agent.provider_state
                   (snd (run 1440 (create_job 15) (agent bootstrapped)))))))
     = ["setup.completed"].
Proof. split; vm_compute; reflexivity. Qed.



(** With a configured maximum of 2000 minutes, a job asking for 2000
    minutes is rejected, by the decoder's own bound of 1440; the same job
    asking for 15 minutes is accepted. *)
Lemma ttl_at_a_configured_maximum_of_2000_is_rejected :
  AgentConfig.sessionMaxTtlMinutes (config 2000) = 2000
  /\ fst (run 2000 (create_job 2000) (agent bootstrapped))
     = Ok (Failed {| JobError.code := "VALIDATION_ERROR";
                     JobError.message :=
                       "Invalid agent job: TTL cannot exceed 24 hours (1440 minutes)";
                     JobError.retryable := false |})
  /\ fst (run 2000 (create_job 15) (agent bootstrapped))
     = Ok (CreateSessionReady "ses_000102030405"
             "postgresql://gk_060708090a0b:DA0ODxAREhMUFRYXGBkaGw%3D%3D1c1d1e1f@db:5432/app?sslmode=prefer"
             1700000900000 "gk_060708090a0b").
Proof. repeat split; vm_compute; reflexivity. Qed.

(** No role is called [bob], and [dropUser("bob")] raises
    [USER_DROP_FAILED] instead of returning false. *)
Lemma dropUser_of_an_absent_name_outside_the_pattern_raises :
  Pg.role_exists "bob" populated = false
  /\ fst (PostgresProvider.dropUser "bob" (ready_provider populated))
     = Throw (DatabaseProviderError "Failed to drop user" "USER_DROP_FAILED" true
                (Some postgres)).
Proof. split; vm_compute; reflexivity. Qed.

(** A valid revoke_session job on an agent that is not yet initialised and
    whose provider cannot be reached: [processJob] does not answer
    [not_found], it throws the error of the initialisation. *)
Lemma revoke_on_an_agent_that_cannot_initialise_throws :
  Zod.validateAgentJob (revoke_job "ses_unknown")
  = inr (revoke_session_job (decoded_revoke_job "ses_unknown"))
  /\ fst (run 1440 (revoke_job "ses_unknown")
            (Requests.cold (Requests.unreachable bootstrapped)))
     = Throw (DatabaseProviderError
                "Failed to initialize postgres provider: connect ECONNREFUSED 10.0.0.5:5432"
                "PROVIDER_INIT_ERROR" true (Some postgres)).
Proof. split; vm_compute; reflexivity. Qed.

(** A valid cleanup job on the same agent: the provider fails, and
    [processJob] does not answer [failed] with a count of 0, it throws. *)
Lemma cleanup_on_an_agent_that_cannot_initialise_throws :
  Zod.validateAgentJob (cleanup_job_data 0) = inr (cleanup_job (decoded_cleanup_job 0))
  /\ fst (run 1440 (cleanup_job_data 0)
            (Requests.cold (Requests.unreachable populated)))
     = Throw (DatabaseProviderError
                "Failed to initialize postgres provider: connect ECONNREFUSED 10.0.0.5:5432"
                "PROVIDER_INIT_ERROR" true (Some postgres)).
Proof. split; vm_compute; reflexivity. Qed.

(** *** The theorems at work *)

Ltac run_it := vm_compute; reflexivity.



Lemma semantic_conflict_surfaces_as_internal_error_witness :
  fst (PostgresProvider.createEphemeralUser request (ready_provider collision))
  = Throw (DatabaseProviderError "User gk_060708090a0b already exists" "USER_EXISTS"
             false (Some postgres))
  /\ fst (run 1440 (create_job 15) (agent collision))
     = Ok (Failed {| JobError.code := "INTERNAL_ERROR";
                     JobError.message := "Internal server error";
                     JobError.retryable := true |}).
Proof.
  split; [run_it|].
  exact (@semantic_conflict_surfaces_as_internal_error platform _
           PostgresProvider.provider (config 1440) (agent collision) (agent collision)
           (create_job 15) None (decoded_create_job 15)
           "User gk_060708090a0b already exists" "USER_EXISTS" (Some postgres)
           ltac:(run_it) ltac:(run_it) ltac:(cbn; lia) (or_introl eq_refl)
           ltac:(run_it)).
Defined.

Lemma ttl_over_the_maximum_is_a_validation_error_witness :
  (exists message st2,
      Agent.processJob (config 1440) (create_job 9999) None (agent bootstrapped)
      = (Ok (Failed {| JobError.code := "VALIDATION_ERROR";
                       JobError.message := message;
                       JobError.retryable := false |}), st2)
      /\ Agent.provider_state st2 = Agent.provider_state (agent bootstrapped))
  /\ Zod.validateAgentJob (JObj (("ttlMinutes", JNum 1440) :: create_fields 15))
     = inr (create_session_job (decoded_create_job 1440))
  /\ exists message field,
      Zod.validateAgentJob (create_job 0) = inl (ValidationError message field).
Proof.
  destruct (@ttl_over_the_maximum_is_a_validation_error platform _
              PostgresProvider.provider (config 1440) (agent bootstrapped)
              (agent bootstrapped) (create_fields 9999) None
              ltac:(run_it) ltac:(run_it)) as (Hover & _ & _).
  destruct (@ttl_over_the_maximum_is_a_validation_error platform _
              PostgresProvider.provider (config 1440) (agent bootstrapped)
              (agent bootstrapped) (create_fields 15) None
              ltac:(run_it) ltac:(run_it)) as (_ & Hmax & _).
  destruct (@ttl_over_the_maximum_is_a_validation_error platform _
              PostgresProvider.provider (config 1440) (agent bootstrapped)
              (agent bootstrapped) (create_fields 0) None
              ltac:(run_it) ltac:(run_it)) as (_ & _ & Hzero).
  split; [|split].
  - destruct (Hover 9999 ltac:(run_it) ltac:(cbn; lia)) as (m & st2 & added & H1 & H2 & _).
    exists m, st2. split; assumption.
  - exact (proj1 (Hmax (decoded_create_job 15) ltac:(run_it) ltac:(cbn; lia))).
  - exact (Hzero ltac:(run_it)).
Defined.

Lemma ready_can_connect db : can_connect (ready_provider db).
Proof. split; [reflexivity|]. eexists. split; reflexivity. Defined.


(** The [COMMIT] outlives the driver's timeout: [createEphemeralUser] fails
    with [USER_CREATION_FAILED], retryable, its [ROLLBACK] goes through, and
    the principal is there all the same. *)
Lemma a_commit_reported_failed_keeps_the_principal :
  let after :=
    snd (PostgresProvider.createEphemeralUser request
           (Requests.commit_times_out bootstrapped)) in
  fst (PostgresProvider.createEphemeralUser request (Requests.commit_times_out bootstrapped))
  = Throw (DatabaseProviderError "Failed to create ephemeral user" "USER_CREATION_FAILED"
             true (Some postgres))
  /\ In (PostgresProvider.Query Sql.COMMIT false) (PostgresProvider.trace after)
  /\ In (PostgresProvider.Query Sql.ROLLBACK true) (PostgresProvider.trace after)
  /\ Pg.role_exists "gk_060708090a0b" bootstrapped = false
  /\ Pg.role_exists "gk_060708090a0b" (Sql.server (PostgresProvider.session after)) = true
  /\ Sql.txn (PostgresProvider.session after) = None.
Proof.
  intros after. split; [run_it|]. split; [vm_compute; tauto|].
  split; [vm_compute; tauto|]. repeat split; run_it.
Qed.

Lemma dropUser_of_an_absent_principal_is_false_witness :
  (exists s', PostgresProvider.dropUser "gk_gone" (ready_provider populated) = (Ok false, s')
              /\ Sql.server (PostgresProvider.session s') = populated)
  /\ (exists s', PostgresProvider.dropUser "gk_old" (ready_provider populated) = (Ok true, s')
                 /\ Pg.role_exists "gk_old"
                      (Sql.server (PostgresProvider.session s')) = false).
Proof.
  destruct (dropUser_of_an_absent_principal_is_false (ready_provider populated) "gk_gone"
              (ready_can_connect populated) ltac:(run_it)) as (_ & Habsent & _).
  destruct (dropUser_of_an_absent_principal_is_false (ready_provider populated) "gk_old"
              (ready_can_connect populated) ltac:(run_it)) as (_ & _ & Hpresent).
  split.
  - exact (Habsent ltac:(run_it) ltac:(run_it)).
  - destruct (Hpresent ltac:(run_it) ltac:(run_it) ltac:(run_it)) as (s' & H & Hgone & _).
    exists s'. split; assumption.
Defined.


Lemma successful_create_session_result_witness :
  exists st2,
    run 1440 (create_job 15) (agent bootstrapped)
    = (Ok (CreateSessionReady "ses_000102030405"
             "postgresql://gk_060708090a0b:DA0ODxAREhMUFRYXGBkaGw%3D%3D1c1d1e1f@db:5432/app?sslmode=prefer"
             1700000900000 "gk_060708090a0b"), st2)
    /\ Pg.role_exists "gk_060708090a0b" bootstrapped = false
    /\ Pg.role_exists "gk_060708090a0b"
         (Sql.server (PostgresProvider.session (Agent.provider_state st2))) = true
    /\ Zod.validEphemeralUsername "gk_060708090a0b" = true
    /\ 1700000900000 = t0 + 15 * 60 * 1000.
Proof.
  destruct (@successful_create_session_result platform (config 1440)
              (agent bootstrapped) (agent bootstrapped) (create_job 15) None
              ltac:(run_it)) as [Hinv Hrun].
  destruct (Hrun (decoded_create_job 15) connection
              ltac:(run_it) ltac:(cbn; lia) ltac:(run_it)
              (ready_can_connect bootstrapped)
              ltac:(run_it) ltac:(run_it) ltac:(run_it)
              ltac:(run_it) ltac:(run_it) ltac:(run_it))
    as (st2 & H & Hex).
  destruct (Hinv _ _ _ _ _ H) as (job & cfg & _ & _ & _ & _ & _ & _ & _ & _ & Hvalid & _).
  exists st2. split; [exact H|]. split; [run_it|]. split; [exact Hex|].
  split; [exact Hvalid|reflexivity].
Defined.

Lemma session_created_is_logged_after_commit_witness :
  exists job request,
    Zod.validateAgentJob (create_job 15) = inr (create_session_job job)
    /\ In (Agent.Call (Agent.call_createEphemeralUser request))
         (Agent.events (snd (run 1440 (create_job 15) (agent bootstrapped))))
    /\ Pg.gatekeeper_audit
         (Sql.server
            (PostgresProvider.session
               (Agent.provider_state
                  (snd (run 1440 (create_job 15) (agent bootstrapped))))))
       = Pg.gatekeeper_audit bootstrapped.
Proof.
  destruct (@session_created_is_logged_after_commit platform (config 1440)
              (agent bootstrapped) (agent bootstrapped)
              (snd (run 1440 (create_job 15) (agent bootstrapped)))
              (create_job 15) None "ses_000102030405"
              "postgresql://gk_060708090a0b:DA0ODxAREhMUFRYXGBkaGw%3D%3D1c1d1e1f@db:5432/app?sslmode=prefer"
              "gk_060708090a0b" 1700000900000
              ltac:(run_it) ltac:(run_it))
    as (job & request & Hjob & Hevents & _ & Haudit).
  exists job, request. split; [exact Hjob|]. split.
  - rewrite Hevents. apply in_or_app. right. cbn. tauto.
  - exact Haudit.
Defined.

End Runs.

(* --------------------------------------------------------------------- *)
(** ** The helper routines on their own *)
(* --------------------------------------------------------------------- *)

Section HelperRoutineProperties.
Import Pg.

Lemma update_role_absent name (f : pg_role -> pg_role) l :
  existsb (fun r => String.eqb (rolname r) name) l = false ->
  map (fun r => if String.eqb (rolname r) name then f r else r) l = l.
Proof.
  induction l as [|r l IH]; cbn; [reflexivity|].
  intros H. apply orb_false_elim in H. destruct H as [Hr Hl].
  now rewrite Hr, IH.
Qed.

(** The role [gk_create_ephemeral_user] leaves behind. *)
Definition ephemeral_role (u pw : string) (v : Z) (r : string) (n : Z) : pg_role :=
  {| rolname := u; rolcanlogin := true; rolpassword := Some pw;
     rolvaliduntil := Some v; rolconnlimit := n; rolmemberof := [r];
     rolsearch_path := Some "public" |}.


(** X1: when [gk_create_ephemeral_user] returns, the catalogs differ from
    those before in one thing only: one role has been added.  It bears the
    name given as the server reads it, which is the name itself when that
    has at most 63 bytes and its first 63 bytes otherwise; no role bore
    that name before.  The role can log in with the password given,
    expires at the instant given, has the connection limit given, is a
    member of the group role given and of nothing else, and has its
    [search_path] set to [public].  Every other role, every privilege,
    ownership and backend is as it was, and no name of the catalog has
    become longer than an identifier. *)
Theorem gk_create_ephemeral_user_adds_exactly_one_role :
  forall (u pw : string) (v : Z) (r : string) (n : Z) (db db' : database),
    Bootstrap.gk_create_ephemeral_user (Some u) (Some pw) v r n db = (inr tt, db') ->
    role_exists (identifier u) db = false
    /\ pg_roles db'
       = (pg_roles db ++ [ephemeral_role (identifier u) pw v (identifier r) n])%list
    /\ ((String.length u <= 63)%nat -> identifier u = u)
    /\ ((63 < String.length u)%nat ->
        identifier u <> u /\ String.length (identifier u) = 63%nat
        /\ Str.startsWith u (identifier u) = true)
    /\ (names_fit db = true -> identifier r = r /\ names_fit db' = true)
    /\ acl db' = acl db
    /\ owners db' = owners db
    /\ pg_stat_activity db' = pg_stat_activity db
    /\ gatekeeper_audit db' = gatekeeper_audit db.
Proof.
  intros u pw v r n db db'. unfold Bootstrap.gk_create_ephemeral_user.
  destruct u as [|c u']; [discriminate|]. destruct pw as [|d pw']; [discriminate|].
  set (u := String c u'). set (pw := String d pw').
  destruct (re_gk_word u); cbn [negb]; [|discriminate].
  destruct (v <=? db_now db); [discriminate|].
  destruct (role_exists r db) eqn:Hr; cbn [negb]; [|discriminate].
  unfold CREATE_ROLE. cbv zeta.
  destruct (role_exists (identifier u) db) eqn:Hex; [discriminate|].
  destruct (n <? -1); [discriminate|].
  intros H. inversion H; subst db'; clear H.
  set (db' := ALTER_ROLE_SET_search_path u _).
  assert (Hroles :
            pg_roles db'
            = (pg_roles db ++ [ephemeral_role (identifier u) pw v (identifier r) n])%list).
  { subst db'. unfold ALTER_ROLE_SET_search_path, GRANT_ROLE, update_role.
    cbn [pg_roles with_roles]. rewrite !map_app.
    unfold role_exists in Hex. rewrite !(update_role_absent _ _ _ Hex).
    cbn [map rolname]. rewrite String.eqb_refl. cbn [rolname]. rewrite String.eqb_refl.
    reflexivity. }
  split; [reflexivity|]. split; [exact Hroles|].
  split; [apply identifier_short|].
  split.
  { intros Hlong. split; [now apply identifier_long|].
    split; [now apply identifier_cut|apply startsWith_identifier]. }
  split.
  { intros Hfit.
    assert (Hshort : (String.length r <= 63)%nat).
    { destruct (Nat.le_gt_cases (String.length r) 63) as [Hle|Hgt]; [exact Hle|].
      rewrite (names_fit_absent r db Hfit Hgt) in Hr. discriminate. }
    split; [now apply identifier_short|].
    unfold names_fit. rewrite Hroles, forallb_app. fold (names_fit db). rewrite Hfit.
    cbn [forallb ephemeral_role rolname andb].
    rewrite andb_true_r. apply Nat.leb_le. apply identifier_length. }
  repeat split.
Qed.

(** What a successful [gk_drop_user] has done to the roles. *)
Definition without_role (name : string) (l : list pg_role) : list pg_role :=
  map (fun r => {| rolname := rolname r; rolcanlogin := rolcanlogin r;
                   rolpassword := rolpassword r; rolvaliduntil := rolvaliduntil r;
                   rolconnlimit := rolconnlimit r;
                   rolmemberof :=
                     filter (fun m => negb (String.eqb m name)) (rolmemberof r);
                   rolsearch_path := rolsearch_path r |})
    (filter (fun r => negb (String.eqb (rolname r) name)) l).

Lemma gk_drop_user_true name db db' :
  Bootstrap.gk_drop_user (Some name) db = (inr true, db') ->
  re_gk_word name = true
  /\ role_exists name db = true
  /\ pg_roles db' = without_role name (pg_roles db)
  /\ owners db' = owners db.
Proof.
  unfold Bootstrap.gk_drop_user. destruct name as [|c name']; [discriminate|].
  set (name := String c name').
  destruct (re_gk_word name); cbn [negb]; [|discriminate].
  destruct (role_exists name db) eqn:Hex; cbn [negb]; [|discriminate].
  set (db1 := if _ >? 0 then _ else db).
  assert (Hrol1 : pg_roles db1 = pg_roles db) by (subst db1; destruct (_ >? 0); reflexivity).
  assert (Hown1 : owners db1 = owners db) by (subst db1; destruct (_ >? 0); reflexivity).
  unfold DROP_ROLE. destruct (role_exists name (Bootstrap.revoke_all name db1)); cbn [negb];
    [|discriminate].
  destruct (has_dependents name (Bootstrap.revoke_all name db1)); [discriminate|].
  intros H. inversion H; subst db'; clear H.
  repeat split; cbn [pg_roles owners with_roles]; unfold without_role;
    change (pg_roles (Bootstrap.revoke_all name db1)) with (pg_roles db1);
    change (owners (Bootstrap.revoke_all name db1)) with (owners db1); congruence.
Qed.

Lemma role_exists_without name v l :
  existsb (fun r => String.eqb (rolname r) v) (without_role name l)
  = (negb (String.eqb v name) && existsb (fun r => String.eqb (rolname r) v) l)%bool.
Proof.
  unfold without_role. induction l as [|r l IH]; cbn.
  - now rewrite andb_false_r.
  - destruct (String.eqb (rolname r) name) eqn:E; cbn.
    + rewrite IH. apply String.eqb_eq in E. rewrite E.
      rewrite (String.eqb_sym name v). destruct (String.eqb v name); reflexivity.
    + rewrite IH. destruct (String.eqb (rolname r) v) eqn:Ev; cbn; [|reflexivity].
      apply String.eqb_eq in Ev. subst v. rewrite E. reflexivity.
Qed.

(** [gk_drop_user] touches no role but the one it is given. *)
Lemma gk_drop_user_roles name db :
  let db' := snd (Bootstrap.gk_drop_user (Some name) db) in
  forall v,
    role_exists v db'
    = match fst (Bootstrap.gk_drop_user (Some name) db) with
      | inr true => (negb (String.eqb v name) && role_exists v db)%bool
      | _ => role_exists v db
      end.
Proof.
  intros db' v. subst db'.
  destruct (Bootstrap.gk_drop_user (Some name) db) as [[e|[|]] db'] eqn:E; cbn [fst snd].
  - unfold Bootstrap.gk_drop_user in E. destruct name as [|c name']; [now inversion E|].
    destruct (re_gk_word _); cbn [negb] in E; [|now inversion E].
    destruct (role_exists _ db); cbn [negb] in E; [|now inversion E].
    destruct (DROP_ROLE _ _); inversion E; subst.
    destruct (_ >? 0); reflexivity.
  - destruct (gk_drop_user_true _ _ _ E) as (_ & _ & Hr & _).
    unfold role_exists. rewrite Hr. apply role_exists_without.
  - unfold Bootstrap.gk_drop_user in E. destruct name as [|c name']; [discriminate|].
    destruct (re_gk_word _); cbn [negb] in E; [|discriminate].
    destruct (role_exists _ db); cbn [negb] in E; [|now inversion E].
    destruct (DROP_ROLE _ _) eqn:D; [discriminate|].
    inversion E.
Qed.

(** X2: a second [gk_drop_user] of a principal that has just been dropped
    returns false and changes nothing. *)
Theorem gk_drop_user_twice_is_false :
  forall (name : string) (db db' : database),
    Bootstrap.gk_drop_user (Some name) db = (inr true, db') ->
    Bootstrap.gk_drop_user (Some name) db' = (inr false, db').
Proof.
  intros name db db' H.
  destruct (gk_drop_user_true _ _ _ H) as (Hre & _ & Hr & _).
  apply gk_drop_user_absent; [exact Hre|].
  pose proof (gk_drop_user_roles name db name) as Hx. rewrite H in Hx. cbn in Hx.
  now rewrite String.eqb_refl in Hx.
Qed.





(** *** Cleaning up *)

Lemma cleanup_loop_cons n rest db :
  snd (Bootstrap.cleanup_loop (n :: rest) db)
  = snd (Bootstrap.cleanup_loop rest (snd (Bootstrap.gk_drop_user (Some n) db))).
Proof.
  cbn -[Bootstrap.gk_drop_user].
  destruct (Bootstrap.gk_drop_user (Some n) db) as [[e|b] db1];
    cbn [snd]; destruct (Bootstrap.cleanup_loop rest db1); reflexivity.
Qed.

Lemma cleanup_loop_keeps names : forall db v,
  ~ In v names ->
  role_exists v (snd (Bootstrap.cleanup_loop names db)) = role_exists v db.
Proof.
  induction names as [|n rest IH]; intros db v Hv; [reflexivity|].
  rewrite cleanup_loop_cons, IH by (intros Hin; apply Hv; now right).
  rewrite gk_drop_user_roles.
  destruct (fst (Bootstrap.gk_drop_user (Some n) db)) as [|[|]]; try reflexivity.
  destruct (String.eqb_spec v n) as [->|_]; [|reflexivity].
  exfalso. apply Hv. now left.
Qed.

Lemma cleanup_loop_only_removes names : forall db v,
  role_exists v db = false ->
  role_exists v (snd (Bootstrap.cleanup_loop names db)) = false.
Proof.
  induction names as [|n rest IH]; intros db v Hv; [exact Hv|].
  rewrite cleanup_loop_cons. apply IH. rewrite gk_drop_user_roles.
  destruct (fst (Bootstrap.gk_drop_user (Some n) db)) as [|[|]]; rewrite ?Hv;
    auto using andb_false_r.
Qed.

Lemma In_candidate_names G db name :
  In name (map rolname (filter (Bootstrap.cleanup_candidate G db) (pg_roles db))) ->
  exists r, In r (pg_roles db) /\ rolname r = name
            /\ Bootstrap.cleanup_candidate G db r = true.
Proof.
  intros H. apply in_map_iff in H. destruct H as (r & Hn & Hr).
  apply filter_In in Hr. exists r. tauto.
Qed.

(** X4: [gk_cleanup_expired_users] removes candidates only.  A name that
    no candidate of the loop bears (no role of that name matches
    [^gk_[a-zA-Z0-9]+$] with an expiry that is missing or at least the
    grace period in the past) is borne by a role after the cleanup exactly
    when it was before. *)
Theorem cleanup_leaves_every_other_role :
  forall (G : Z) (db : database) (name : string),
    (forall r, In r (pg_roles db) -> rolname r = name ->
               Bootstrap.cleanup_candidate G db r = false) ->
    role_exists name (snd (Bootstrap.gk_cleanup_expired_users G db))
    = role_exists name db.
Proof.
  intros G db name H. unfold Bootstrap.gk_cleanup_expired_users.
  apply cleanup_loop_keeps. intros Hin.
  destruct (In_candidate_names _ _ _ Hin) as (r & Hr & Hn & Hc).
  rewrite (H r Hr Hn) in Hc. discriminate.
Qed.

Lemma cleanup_loop_dropped names : forall db row,
  In row (fst (Bootstrap.cleanup_loop names db)) ->
  col "dropped" row = BOOLEAN true ->
  exists name,
    col "username" row = TEXT name
    /\ In name names
    /\ role_exists name (snd (Bootstrap.cleanup_loop names db)) = false.
Proof.
  induction names as [|n rest IH]; intros db row Hin Hd; [destruct Hin|].
  rewrite cleanup_loop_cons.
  pose proof (gk_drop_user_roles n db n) as Hgone.
  cbn -[Bootstrap.gk_drop_user] in Hin.
  destruct (Bootstrap.gk_drop_user (Some n) db) as [[e|b] db1]; cbn [fst snd] in *;
    destruct (Bootstrap.cleanup_loop rest db1) as [rows db2] eqn:E; cbn [fst snd] in *.
  - destruct Hin as [<-|Hin]; [discriminate Hd|].
    destruct (IH db1 row) as (name & ? & ? & ?); rewrite ?E; auto.
    exists name. rewrite E in *. cbn in *. auto.
  - destruct Hin as [<-|Hin].
    + cbn in Hd. inversion Hd; subst b. exists n. split; [reflexivity|].
      split; [now left|].
      rewrite String.eqb_refl in Hgone. cbn in Hgone.
      pose proof (cleanup_loop_only_removes rest db1 n Hgone) as Hx.
      now rewrite E in Hx.
    + destruct (IH db1 row) as (name & ? & ? & ?); rewrite ?E; auto.
      exists name. rewrite E in *. cbn in *. auto.
Qed.

(** X5: a principal that [gk_cleanup_expired_users] reports as dropped was
    a candidate and is gone when the cleanup returns: no later step of the
    loop brings it back. *)
Theorem cleaned_principals_are_gone :
  forall (G : Z) (db : database) (row : row),
    In row (fst (Bootstrap.gk_cleanup_expired_users G db)) ->
    col "dropped" row = BOOLEAN true ->
    exists name,
      col "username" row = TEXT name
      /\ (exists r, In r (pg_roles db) /\ rolname r = name
                    /\ Bootstrap.cleanup_candidate G db r = true)
      /\ role_exists name (snd (Bootstrap.gk_cleanup_expired_users G db)) = false.
Proof.
  intros G db row Hin Hd. unfold Bootstrap.gk_cleanup_expired_users in *.
  destruct (cleanup_loop_dropped _ _ _ Hin Hd) as (name & Hu & Hn & Hgone).
  exists name. split; [exact Hu|]. split; [|exact Hgone].
  now apply In_candidate_names.
Qed.


(** *** Listing *)

(** The [valid_until] column of a row. *)
Definition row_valid_until (r : row) : option Z :=
  match col "valid_until" r with
  | TIMESTAMPTZ t => Some t
  | _ => None
  end.

(** [a] sorts before [b], or with it, under [ORDER BY valid_until NULLS LAST]. *)
Definition expires_no_later (a b : row) : Prop :=
  Bootstrap.valid_until_le (row_valid_until a) (row_valid_until b) = true.

Inductive ordered {A} (le : A -> A -> Prop) : list A -> Prop :=
| ordered_nil : ordered le []
| ordered_cons a l : Forall (le a) l -> ordered le l -> ordered le (a :: l).

Definition role_le (a b : pg_role) : Prop :=
  Bootstrap.valid_until_le (rolvaliduntil a) (rolvaliduntil b) = true.

Lemma valid_until_le_trans a b c :
  Bootstrap.valid_until_le a b = true -> Bootstrap.valid_until_le b c = true ->
  Bootstrap.valid_until_le a c = true.
Proof.
  destruct a, b, c; cbn; try congruence. intros H1 H2.
  apply Z.leb_le in H1, H2. apply Z.leb_le. lia.
Qed.

Lemma valid_until_le_total a b :
  Bootstrap.valid_until_le a b = false -> Bootstrap.valid_until_le b a = true.
Proof.
  destruct a, b; cbn; try congruence. intros H.
  apply Z.leb_gt in H. apply Z.leb_le. lia.
Qed.

Lemma In_insert_role r x l :
  In x (Bootstrap.insert_role r l) <-> x = r \/ In x l.
Proof.
  induction l as [|y l IH]; cbn; [intuition|].
  destruct (Bootstrap.valid_until_le _ _); cbn; [intuition|].
  rewrite IH. intuition.
Qed.

Lemma In_order_by x l :
  In x (Bootstrap.order_by_valid_until l) <-> In x l.
Proof.
  induction l as [|y l IH]; cbn; [tauto|].
  rewrite In_insert_role, IH. intuition.
Qed.

Lemma insert_role_ordered r l :
  ordered role_le l -> ordered role_le (Bootstrap.insert_role r l).
Proof.
  induction 1 as [|a l Ha Hl IH]; cbn.
  - constructor; constructor.
  - destruct (Bootstrap.valid_until_le (rolvaliduntil r) (rolvaliduntil a)) eqn:E.
    + constructor; [|now constructor].
      constructor; [exact E|].
      eapply Forall_impl; [|exact Ha]. intros b Hb.
      exact (valid_until_le_trans _ _ _ E Hb).
    + constructor; [|exact IH].
      apply Forall_forall. intros x Hx. apply (proj1 (In_insert_role _ _ _)) in Hx.
      destruct Hx as [->|Hx].
      * exact (valid_until_le_total _ _ E).
      * rewrite Forall_forall in Ha. auto.
Qed.

Lemma order_by_ordered l : ordered role_le (Bootstrap.order_by_valid_until l).
Proof.
  induction l as [|r l IH]; cbn; [constructor|]. now apply insert_role_ordered.
Qed.

Lemma ordered_map {A B} (f : A -> B) (leA : A -> A -> Prop) (leB : B -> B -> Prop) l :
  (forall a b, leA a b -> leB (f a) (f b)) ->
  ordered leA l -> ordered leB (map f l).
Proof.
  intros Hf. induction 1 as [|a l Ha Hl IH]; cbn; constructor; [|exact IH].
  apply Forall_forall. intros y Hy. apply in_map_iff in Hy.
  destruct Hy as (x & <- & Hx). rewrite Forall_forall in Ha. auto.
Qed.

(** X6: the rows of [gk_list_ephemeral_users] come in the order of their
    expiry, the principals without expiry last: each row expires no later
    than every row after it. *)
Theorem listing_is_ordered_by_expiry :
  forall db : database,
    ordered expires_no_later (Bootstrap.gk_list_ephemeral_users db).
Proof.
  intros db. unfold Bootstrap.gk_list_ephemeral_users.
  eapply ordered_map; [|apply order_by_ordered].
  intros a b Hab. unfold expires_no_later, row_valid_until, role_le in *. cbn.
  destruct (rolvaliduntil a), (rolvaliduntil b); exact Hab.
Qed.

Lemma listing_usernames db :
  map (col "username") (Bootstrap.gk_list_ephemeral_users db)
  = map (fun r => TEXT (rolname r))
      (Bootstrap.order_by_valid_until
         (filter (fun r => re_gk_alnum (rolname r)) (pg_roles db))).
Proof. unfold Bootstrap.gk_list_ephemeral_users. now rewrite map_map. Qed.

Lemma listed_iff db name :
  In (TEXT name) (map (col "username") (Bootstrap.gk_list_ephemeral_users db))
  <-> re_gk_alnum name = true /\ role_exists name db = true.
Proof.
  rewrite listing_usernames, in_map_iff. unfold role_exists. rewrite existsb_exists.
  split.
  - intros (r & Hn & Hr). inversion Hn; subst name. apply (proj1 (In_order_by _ _)) in Hr.
    apply filter_In in Hr. destruct Hr as [Hr Hp]. split; [exact Hp|].
    exists r. split; [exact Hr|apply String.eqb_refl].
  - intros (Hp & r & Hr & Hn). apply String.eqb_eq in Hn. subst name.
    exists r. split; [reflexivity|]. apply (proj2 (In_order_by _ _)). apply filter_In. tauto.
Qed.

(** X7: [gk_list_ephemeral_users] lists a name exactly when a role bears
    it and it matches [^gk_[a-zA-Z0-9]+$]; and a row is reported as
    expired exactly when it has an expiry that is not after the server's
    [now()], so a principal without expiry is never reported as expired. *)
Theorem listing_is_complete_and_flags_expiry :
  forall (db : database),
    (forall name,
        In (TEXT name) (map (col "username") (Bootstrap.gk_list_ephemeral_users db))
        <-> re_gk_alnum name = true /\ role_exists name db = true)
    /\ (forall row, In row (Bootstrap.gk_list_ephemeral_users db) ->
          (col "is_expired" row = BOOLEAN true
           <-> exists t, row_valid_until row = Some t /\ t <= db_now db)).
Proof.
  intros db. split; [intros name; apply listed_iff|].
  intros row Hrow. unfold Bootstrap.gk_list_ephemeral_users in Hrow.
  apply in_map_iff in Hrow. destruct Hrow as (r & <- & _).
  unfold row_valid_until. cbn. destruct (rolvaliduntil r) as [t|]; cbn.
  - split.
    + intros H. inversion H as [Hle]. exists t. split; [reflexivity|].
      now apply Z.leb_le.
    + intros (t' & Ht & Hle). inversion Ht; subst t'.
      apply Z.leb_le in Hle. now rewrite Hle.
  - split; [discriminate|]. intros (t & Ht & _). discriminate.
Qed.

(** X8: a name that fails [^gk_[a-zA-Z0-9]+$], such as one with an
    underscore after the prefix, which [gk_create_ephemeral_user] accepts,
    is never listed by [gk_list_ephemeral_users], never gets a row from
    [gk_cleanup_expired_users], and is borne by a role after a cleanup
    exactly when it was before, whatever its expiry. *)
Theorem names_outside_the_listing_pattern_are_invisible :
  forall (name : string) (G : Z) (db : database),
    re_gk_alnum name = false ->
    ~ In (TEXT name) (map (col "username") (Bootstrap.gk_list_ephemeral_users db))
    /\ ~ In (TEXT name)
           (map (col "username") (fst (Bootstrap.gk_cleanup_expired_users G db)))
    /\ role_exists name (snd (Bootstrap.gk_cleanup_expired_users G db))
       = role_exists name db.
Proof.
  intros name G db Hre.
  assert (Hc : forall r, In r (pg_roles db) -> rolname r = name ->
                         Bootstrap.cleanup_candidate G db r = false).
  { intros r _ Hn. unfold Bootstrap.cleanup_candidate. now rewrite Hn, Hre. }
  split; [|split].
  - rewrite listed_iff. intros [H _]. congruence.
  - unfold Bootstrap.gk_cleanup_expired_users.
    rewrite (proj1 (cleanup_loop_rows _ db)). intros Hin.
    apply in_map_iff in Hin. destruct Hin as (n & Hn & Hin). inversion Hn; subst n.
    destruct (In_candidate_names _ _ _ Hin) as (r & Hr & Hrn & Hcand).
    rewrite (Hc r Hr Hrn) in Hcand. discriminate.
  - unfold Bootstrap.gk_cleanup_expired_users.
    apply cleanup_loop_keeps. intros Hin.
    destruct (In_candidate_names _ _ _ Hin) as (r & Hr & Hrn & Hcand).
    rewrite (Hc r Hr Hrn) in Hcand. discriminate.
Qed.

End HelperRoutineProperties.

(* --------------------------------------------------------------------- *)
(** ** The provider's other operations *)
(* --------------------------------------------------------------------- *)

Section ProviderProperties.
Import Pg.

(** X9: [healthCheck] never throws: from any state, whatever the network
    and the server do, it returns a result stamped with the clock at the
    call.  Without a pool the result is [unhealthy] and nothing is sent.
    The status is [unhealthy] exactly when the details carry an error,
    that is when the connection or one of the two statements failed. *)
Theorem healthCheck_always_returns :
  forall s : PostgresProvider.state,
    exists r s',
      PostgresProvider.healthCheck s = (Ok r, s')
      /\ HealthCheckResult.timestamp r = PostgresProvider.Date_now s
      /\ (PostgresProvider.pool s = None ->
          s' = s
          /\ r = PostgresProvider.unhealthy_result "Provider not initialized"
                   (PostgresProvider.Date_now s) "Pool not created")
      /\ (HealthCheckResult.status r = unhealthy
          <-> exists err, HealthCheckResult.details r = HealthCheckResult.error_details err).
Proof.
  intros s. unfold PostgresProvider.healthCheck, bind, gets, get.
  destruct (PostgresProvider.pool s) as [p|] eqn:Hp.
  2:{ eexists; eexists. split; [reflexivity|]. split; [reflexivity|].
      split; [auto|]. cbn. split; eauto. }
  unfold try_catch, try_finally.
  destruct (PostgresProvider.pool_connect s) as [[c|e] s1].
  2:{ cbn. eexists; eexists. split; [reflexivity|]. split; [reflexivity|].
      split; [discriminate|]. cbn. split; eauto. }
  destruct (PostgresProvider.client_query c Sql.SELECT_1 s1) as [[rows|e] s2].
  2:{ cbn. eexists; eexists. split; [reflexivity|]. split; [reflexivity|].
      split; [discriminate|]. cbn. split; eauto. }
  destruct (PostgresProvider.client_query c Sql.SELECT_gk_validate_setup s2)
    as [[validation|e] s3].
  2:{ cbn. eexists; eexists. split; [reflexivity|]. split; [reflexivity|].
      split; [discriminate|]. cbn. split; eauto. }
  unfold ret. cbn -[forallb fold_left].
  eexists; eexists. split; [reflexivity|]. split; [reflexivity|].
  split; [discriminate|]. cbn -[forallb fold_left].
  split.
  - destruct (forallb _ _); discriminate.
  - intros [err H]. destruct (PostgresProvider.pool s3); discriminate.
Qed.


(** What [gk_validate_setup] checks. *)
Definition setup_is_valid (db : database) : bool :=
  (role_exists "gatekeeper_admin" db && role_exists "app_read" db
   && Nat.eqb
        (List.length
           (filter (fun p => existsb (String.eqb p) Bootstrap.helper_functions)
              (pg_proc db))) 4
   && Nat.ltb 0 (sample_data db))%bool.

Lemma validate_setup_all_OK db :
  forallb (fun kv => PostgresProvider.is_OK (snd kv))
    (fold_left
       (fun acc r =>
          PostgresProvider.obj_set (PostgresProvider.text_of (col "check_name" r))
            (col "status" r) acc)
       (Bootstrap.gk_validate_setup db) [])
  = setup_is_valid db.
Proof.
  unfold Bootstrap.gk_validate_setup, setup_is_valid, Bootstrap.check_row.
  generalize (role_exists "gatekeeper_admin" db) as a.
  generalize (role_exists "app_read" db) as b.
  generalize (Nat.ltb 0 (sample_data db)) as d.
  generalize (List.length
                (filter (fun p => existsb (String.eqb p) Bootstrap.helper_functions)
                   (pg_proc db))) as n.
  intros n d b a. generalize (Nat.eqb n 4) as c. intros c.
  destruct a, b, c, d; reflexivity.
Qed.

(** X10: when the provider gets its connection and the network carries its
    two statements, [healthCheck] reports [healthy] exactly when the admin
    role and [app_read] exist, four helper functions are installed and the
    sample table has a row; otherwise it reports [degraded], never
    [unhealthy].  The check changes nothing on the server. *)
Theorem healthCheck_is_healthy_iff_the_setup_is_valid :
  forall s : PostgresProvider.state,
    can_connect s ->
    PostgresProvider.faults s (S (PostgresProvider.tick s)) = None ->
    PostgresProvider.faults s (S (S (PostgresProvider.tick s))) = None ->
    exists r s',
      PostgresProvider.healthCheck s = (Ok r, s')
      /\ HealthCheckResult.status r
         = (if setup_is_valid (Sql.server (PostgresProvider.session s))
            then healthy else degraded)
      /\ PostgresProvider.session s' = PostgresProvider.session s.
Proof.
  intros s Hconn Hf1 Hf2. destruct (pool_connect_succeeds _ Hconn) as [p' Hgo].
  destruct Hconn as [_ (p & Hp & _)].
  unfold PostgresProvider.healthCheck, bind, gets, get. rewrite Hp.
  unfold try_catch, try_finally, bind. rewrite Hgo.
  unfold PostgresProvider.client_query. cbn -[Bootstrap.gk_validate_setup forallb fold_left].
  rewrite Hf1. cbn -[Bootstrap.gk_validate_setup forallb fold_left].
  rewrite Hf2. cbn -[Bootstrap.gk_validate_setup forallb fold_left].
  rewrite validate_setup_all_OK.
  eexists; eexists. split; [reflexivity|].
  cbn -[setup_is_valid]. split; [reflexivity|].
  destruct (PostgresProvider.session s); reflexivity.
Qed.


(** X11: [initialize] with a configuration for another database type
    fails before it creates a pool or talks to the network: the pool, the
    session and the clock of the network are as they were, while the
    configuration has already been stored.  The error is
    [PROVIDER_INIT_ERROR], retryable, and its message carries the prefix
    of [ProviderInitializationError] twice, since the error thrown inside
    the [try] is wrapped again by the [catch]. *)
Theorem initialize_rejects_another_database_type :
  forall (cfg : DatabaseConnectionConfig.t) (credentials : DatabaseCredentials.t)
         (s : PostgresProvider.state),
    DatabaseConnectionConfig.type cfg <> postgres ->
    exists s',
      PostgresProvider.initialize cfg credentials s
      = (Throw (DatabaseProviderError
                  ("Failed to initialize postgres provider: "
                     ++ "Failed to initialize postgres provider: "
                     ++ "Invalid database type: "
                     ++ DatabaseType_name (DatabaseConnectionConfig.type cfg))
                  "PROVIDER_INIT_ERROR" true (Some postgres)), s')
      /\ PostgresProvider.pool s' = PostgresProvider.pool s
      /\ PostgresProvider.config s' = Some cfg
      /\ PostgresProvider.session s' = PostgresProvider.session s
      /\ PostgresProvider.tick s' = PostgresProvider.tick s
      /\ PostgresProvider.trace s'
         = (PostgresProvider.trace s
              ++ [PostgresProvider.Log PostgresProvider.error
                    "Failed to initialize PostgreSQL provider"])%list.
Proof.
  intros cfg credentials s Ht.
  unfold PostgresProvider.initialize, try_catch, bind, modify, throw, PostgresProvider.log.
  destruct (DatabaseConnectionConfig.type cfg); [congruence| | |];
    cbn; eexists; (split; [reflexivity|]); cbn; auto.
Qed.




(** The ways the three operations that wrap their statement fail: without
    a pool, with the driver's error when no connection could be had (the
    connection is acquired outside the [try]), or with the operation's own
    retryable error once the connection is held. *)
Definition fails_as (message code : string) (s : PostgresProvider.state)
  (e : exn) (s' : PostgresProvider.state) : Prop :=
  (PostgresProvider.pool s = None /\ e = PostgresProvider.NOT_INITIALIZED /\ s' = s)
  \/ (exists m, PostgresProvider.pool_connect s = (Throw (JsError m), s') /\ e = JsError m)
  \/ (e = DatabaseProviderError message code true (Some postgres)
      /\ exists c s1, PostgresProvider.pool_connect s = (Ok c, s1)).

Lemma pool_connect_throws s e s1 :
  PostgresProvider.pool_connect s = (Throw e, s1) -> exists m, e = JsError m.
Proof.
  unfold PostgresProvider.pool_connect.
  destruct (PostgresProvider.pool s) as [p|]; [|intros H; inversion H; eauto].
  destruct (PostgresProvider.faults s _); [intros H; inversion H; eauto|].
  destruct (Nat.ltb 0 _); [discriminate|].
  destruct (Nat.ltb _ _); [discriminate|]. intros H; inversion H; eauto.
Qed.

Lemma with_client_fails {A} (body : PostgresProvider.PoolClient -> M _ A)
  line message code s e s' :
  bind PostgresProvider.pool_connect
    (fun c =>
       try_finally
         (try_catch (body c)
            (fun _ =>
               bind (PostgresProvider.log PostgresProvider.error line)
                 (fun _ => throw (PostgresProvider.provider_error message code true))))
         (PostgresProvider.client_release c)) s = (Throw e, s') ->
  (exists m, PostgresProvider.pool_connect s = (Throw (JsError m), s') /\ e = JsError m)
  \/ (e = DatabaseProviderError message code true (Some postgres)
      /\ exists c s1, PostgresProvider.pool_connect s = (Ok c, s1)).
Proof.
  unfold bind at 1.
  destruct (PostgresProvider.pool_connect s) as [[c|x] s1] eqn:Hc.
  - unfold try_finally, try_catch, bind, throw, PostgresProvider.log, modify,
      PostgresProvider.client_release.
    destruct (body c s1) as [[a|y] s2]; cbn; intros H; inversion H; subst.
    right. split; [reflexivity|]. eauto.
  - intros H; inversion H; subst. destruct (pool_connect_throws _ _ _ Hc) as [m ->].
    left. eauto.
Qed.

(** X13: [dropUser], [listEphemeralUsers] and [cleanupExpiredUsers] fail in
    three ways only.  Without a pool they raise [NOT_INITIALIZED] and do
    nothing.  When no connection can be had they raise the driver's own
    error, unmapped, since the connection is acquired before the [try].
    Once the connection is held, whatever fails is raised as
    [USER_DROP_FAILED], [USER_LIST_FAILED] or [CLEANUP_FAILED], each
    retryable. *)
Theorem operations_fail_in_three_ways :
  forall (s s' : PostgresProvider.state) (e : exn),
    (forall username,
        PostgresProvider.dropUser username s = (Throw e, s') ->
        fails_as "Failed to drop user" "USER_DROP_FAILED" s e s')
    /\ (PostgresProvider.listEphemeralUsers s = (Throw e, s') ->
        fails_as "Failed to list users" "USER_LIST_FAILED" s e s')
    /\ (forall olderThanMinutes,
           PostgresProvider.cleanupExpiredUsers olderThanMinutes s = (Throw e, s') ->
           fails_as "Failed to cleanup expired users" "CLEANUP_FAILED" s e s').
Proof.
  intros s s' e. unfold fails_as. repeat split; intros;
    match goal with
    | H : ?op = (Throw e, s') |- _ =>
        unfold PostgresProvider.dropUser, PostgresProvider.listEphemeralUsers,
          PostgresProvider.cleanupExpiredUsers in H;
        unfold bind at 1 in H; unfold get in H;
        destruct (PostgresProvider.pool s) eqn:Hp;
        [ right; exact (with_client_fails _ _ _ _ _ _ _ H)
        | left; inversion H; auto ]
    end.
Qed.

(** X14: on a provider that gets its connection and whose statement the
    network carries, [listEphemeralUsers] returns one entry for each role
    whose name matches [^gk_[a-zA-Z0-9]+$], in the order of the helper
    routine.  An entry is expired exactly when it has an expiry that is
    not after the server's [now()]; the server is left as it was. *)
Theorem listEphemeralUsers_mirrors_the_helper :
  forall s : PostgresProvider.state,
    can_connect s ->
    PostgresProvider.faults s (S (PostgresProvider.tick s)) = None ->
    let db := Sql.server (PostgresProvider.session s) in
    exists users s',
      PostgresProvider.listEphemeralUsers s = (Ok users, s')
      /\ map EphemeralUser.username users
         = map rolname
             (Bootstrap.order_by_valid_until
                (filter (fun r => re_gk_alnum (rolname r)) (pg_roles db)))
      /\ (forall u, In u users ->
            (EphemeralUser.isExpired u = true
             <-> exists t, EphemeralUser.expiresAt u = Some t /\ t <= db_now db))
      /\ PostgresProvider.session s' = PostgresProvider.session s.
Proof.
  intros s Hconn Hf db. destruct (pool_connect_succeeds _ Hconn) as [p' Hgo].
  destruct Hconn as [_ (p & Hp & _)].
  unfold PostgresProvider.listEphemeralUsers, bind, get. rewrite Hp, Hgo.
  unfold try_finally, try_catch, bind, PostgresProvider.client_query.
  cbn -[Bootstrap.gk_list_ephemeral_users]. rewrite Hf.
  cbn -[Bootstrap.gk_list_ephemeral_users].
  eexists; eexists. split; [reflexivity|]. fold db. split; [|split].
  - unfold Bootstrap.gk_list_ephemeral_users. rewrite !map_map. reflexivity.
  - intros u Hu. apply in_map_iff in Hu. destruct Hu as (row & <- & Hrow).
    unfold Bootstrap.gk_list_ephemeral_users in Hrow.
    apply in_map_iff in Hrow. destruct Hrow as (r & <- & _). cbn.
    destruct (rolvaliduntil r) as [t|]; cbn.
    + split.
      * intros H. exists t. split; [reflexivity|]. now apply Z.leb_le.
      * intros (t' & Ht & Hle). inversion Ht; subst t'. now apply Z.leb_le.
    + split; [discriminate|]. intros (t & Ht & _). discriminate.
  - destruct (PostgresProvider.session s); reflexivity.
Qed.

End ProviderProperties.

(* --------------------------------------------------------------------- *)
(** ** The DSN *)
(* --------------------------------------------------------------------- *)

Section DsnProperties.

(** A character [encodeURIComponent] can put out: an unreserved one, or
    the percent sign. *)
Definition escaped (c : ascii) : bool := (URI.unreserved c || Ascii.eqb c "%")%bool.

Definition unHEX (c : ascii) : N :=
  let n := N_of_ascii c in if (n <? 65)%N then n - 48 else n - 55.

Lemma HEX_digits_of c :
  let n := N_of_ascii c in
  URI.unreserved (URI.HEX_digit (n / 16)) = true
  /\ URI.unreserved (URI.HEX_digit (n mod 16)) = true
  /\ ascii_of_N (16 * unHEX (URI.HEX_digit (n / 16)) + unHEX (URI.HEX_digit (n mod 16))) = c.
Proof.
  destruct c as [[] [] [] [] [] [] [] []]; vm_compute; repeat split; reflexivity.
Qed.

Lemma encodeURIComponent_escaped s :
  Str.all escaped (URI.encodeURIComponent s) = true.
Proof.
  induction s as [|c s IH]; [reflexivity|]. cbn [URI.encodeURIComponent].
  destruct (URI.unreserved c) eqn:E.
  - cbn [Str.all]. unfold escaped at 1. now rewrite E, IH.
  - destruct (HEX_digits_of c) as (H1 & H2 & _).
    cbn [Str.all]. unfold escaped at 1 2 3. rewrite H1, H2, IH. reflexivity.
Qed.

Lemma encodeURIComponent_injective : forall s1 s2,
  URI.encodeURIComponent s1 = URI.encodeURIComponent s2 -> s1 = s2.
Proof.
  induction s1 as [|c1 s1 IH]; intros [|c2 s2]; cbn [URI.encodeURIComponent].
  - reflexivity.
  - destruct (URI.unreserved c2); discriminate.
  - destruct (URI.unreserved c1); discriminate.
  - destruct (URI.unreserved c1) eqn:E1, (URI.unreserved c2) eqn:E2; intros H.
    + inversion H; subst. f_equal. now apply IH.
    + inversion H; subst. discriminate E1.
    + inversion H; subst. discriminate E2.
    + inversion H as [[Ha Hb Ht]]. f_equal; [|now apply IH].
      destruct (HEX_digits_of c1) as (_ & _ & <-).
      destruct (HEX_digits_of c2) as (_ & _ & <-).
      now rewrite Ha, Hb.
Qed.

(** Two texts over an alphabet, each followed by a separator outside the
    alphabet: the first separator tells where the text ends. *)
Lemma split_at_separator (p : ascii -> bool) (sep : ascii) : forall a b x y,
  p sep = false -> Str.all p a = true -> Str.all p b = true ->
  a ++ String sep x = b ++ String sep y -> a = b /\ x = y.
Proof.
  intros a b x y Hsep. revert b.
  induction a as [|c a IH]; intros [|d b]; cbn; intros Ha Hb H.
  - inversion H. auto.
  - inversion H; subst. apply andb_prop in Hb. destruct Hb as [Hd _]. congruence.
  - inversion H; subst. apply andb_prop in Ha. destruct Ha as [Hc _]. congruence.
  - inversion H; subst. apply andb_prop in Ha, Hb.
    destruct (IH b) as [-> ->]; tauto.
Qed.

Lemma append_assoc (a b c : string) : (a ++ b) ++ c = a ++ (b ++ c).
Proof. induction a as [|x a IH]; cbn; [reflexivity|]. now rewrite IH. Qed.

(** X15: the DSN [generateDsn] builds determines the credentials put into
    it.  The user name and the password are percent-encoded, so neither
    holds a [:] or an [@] of its own, and for one configuration two DSNs
    are equal only when the user names are equal and the passwords are
    equal. *)
Theorem generateDsn_determines_the_credentials :
  forall (cfg : DatabaseConnectionConfig.t) (u1 p1 u2 p2 : string),
    PostgresProvider.generateDsn cfg u1 p1 = PostgresProvider.generateDsn cfg u2 p2 ->
    u1 = u2 /\ p1 = p2.
Proof.
  intros cfg u1 p1 u2 p2. unfold PostgresProvider.generateDsn.
  set (tail := DatabaseConnectionConfig.host cfg ++ _).
  intros H. cbn in H. inversion H as [H1]. clear H.
  assert (Hsafe : forall s, Str.all (fun c => escaped c) (URI.encodeURIComponent s) = true)
    by apply encodeURIComponent_escaped.
  apply (split_at_separator escaped ":") in H1; auto.
  destruct H1 as [Hu H2].
  apply (split_at_separator escaped "@") in H2; auto.
  destruct H2 as [Hp _].
  split; now apply encodeURIComponent_injective.
Qed.

End DsnProperties.

(* --------------------------------------------------------------------- *)
(** ** The orchestrator over any provider: initialisation and failures *)
(* --------------------------------------------------------------------- *)

Section OrchestratorProperties.
Context {platform : Platform} {S : Type} {provider : DatabaseProvider S}.
Variable config : AgentConfig.t.

Definition is_initialize_call (e : Agent.event) : bool :=
  match e with
  | Agent.Call Agent.call_initialize => true
  | _ => false
  end.

(** A computation that leaves [this.initialized] alone and never calls
    the provider's [initialize]. *)
Definition steady {A} (m : M (Agent.state S) A) : Prop :=
  forall s r s', m s = (r, s') ->
    Agent.initialized s' = Agent.initialized s
    /\ exists l, Agent.events s' = (Agent.events s ++ l)%list
                 /\ forallb (fun e => negb (is_initialize_call e)) l = true.

Lemma steady_ret {A} (a : A) : steady (ret a).
Proof. intros s r s' H; inversion H; subst. split; [reflexivity|]. exists []. now rewrite app_nil_r. Qed.

Lemma steady_throw {A} e : steady (@throw _ A e).
Proof. intros s r s' H; inversion H; subst. split; [reflexivity|]. exists []. now rewrite app_nil_r. Qed.

Lemma steady_emit e :
  is_initialize_call e = false -> steady (modify (Agent.emit e)).
Proof.
  intros He s r s' H; inversion H; subst. split; [reflexivity|].
  exists [e]. cbn. now rewrite He.
Qed.

Lemma steady_log l msg : steady (Agent.log l msg).
Proof. now apply steady_emit. Qed.

Lemma steady_randomBytes n : steady (Agent.randomBytes n).
Proof. intros s r s' H; inversion H; subst. split; [reflexivity|]. exists []. cbn. now rewrite app_nil_r. Qed.

Lemma steady_invoke {A} c (op : M S A) :
  is_initialize_call (Agent.Call c) = false -> steady (Agent.invoke c op).
Proof.
  intros Hc s r s'. unfold Agent.invoke. cbn.
  destruct (op (Agent.provider_state s)) as [r0 p]. intros H; inversion H; subst; cbn.
  split; [reflexivity|]. rewrite <- app_assoc. eexists. split; [reflexivity|].
  cbn [forallb app]. rewrite Hc. reflexivity.
Qed.

Lemma steady_bind {A B} (m : M _ A) (k : A -> M _ B) :
  steady m -> (forall a, steady (k a)) -> steady (bind m k).
Proof.
  intros Hm Hk s r s'. unfold bind. destruct (m s) as [[a|e] s1] eqn:E.
  - intros H. destruct (Hm _ _ _ E) as (Hi & l1 & El1 & Ql1).
    destruct (Hk a _ _ _ H) as (Hi2 & l2 & El2 & Ql2).
    split; [congruence|]. exists (l1 ++ l2)%list.
    rewrite El2, El1, <- app_assoc, forallb_app, Ql1, Ql2. auto.
  - intros H; inversion H; subst. exact (Hm _ _ _ E).
Qed.

Lemma steady_try_catch {A} (m : M _ A) (h : exn -> M _ A) :
  steady m -> (forall e, steady (h e)) -> steady (try_catch m h).
Proof.
  intros Hm Hh s r s'. unfold try_catch. destruct (m s) as [[a|e] s1] eqn:E.
  - intros H; inversion H; subst. exact (Hm _ _ _ E).
  - intros H. destruct (Hm _ _ _ E) as (Hi & l1 & El1 & Ql1).
    destruct (Hh e _ _ _ H) as (Hi2 & l2 & El2 & Ql2).
    split; [congruence|]. exists (l1 ++ l2)%list.
    rewrite El2, El1, <- app_assoc, forallb_app, Ql1, Ql2. auto.
Qed.

Lemma steady_if {A} (b : bool) (m1 m2 : M _ A) :
  steady m1 -> steady m2 -> steady (if b then m1 else m2).
Proof. now destruct b. Qed.

Ltac steadiness :=
  repeat first
    [ apply steady_ret | apply steady_throw | apply steady_log
    | apply steady_randomBytes
    | apply steady_invoke; reflexivity
    | apply steady_emit; reflexivity
    | apply steady_bind | apply steady_try_catch | apply steady_if
    | match goal with |- forall _, _ => intro end
    | match goal with |- steady (match ?x with _ => _ end) => destruct x end ].

Lemma steady_job (job : AgentJob) :
  steady match job with
         | create_session_job j => Agent.createSession config j
         | revoke_session_job j => Agent.revokeSession j
         | cleanup_job j => Agent.cleanup j
         end.
Proof.
  destruct job as [j|j|j].
  - unfold Agent.createSession, Agent.generateId, Agent.generatePassword, Agent.auditEvent.
    steadiness.
  - unfold Agent.revokeSession, Agent.findUsernameForSession, Agent.auditEvent.
    steadiness.
  - unfold Agent.cleanup, Agent.auditEvent. steadiness.
Qed.

(** An initialised agent returns from [processJob]: the [catch] of
    [processJob] turns every error into a result. *)
Lemma processJob_answers (st : Agent.state S) jobData cid :
  Agent.initialized st = true ->
  exists result st', Agent.processJob config jobData cid st = (Ok result, st').
Proof.
  intros Hinit.
  assert (Hready : Agent.ensureInitialized config st = (Ok tt, st))
    by (unfold Agent.ensureInitialized, bind, gets; now rewrite Hinit).
  rewrite (processJob_ready _ _ _ _ _ Hready).
  unfold try_catch.
  match goal with
  | |- context [match ?m st with _ => _ end] => destruct (m st) as [[r|e] s1]
  end.
  - eauto.
  - unfold bind, Agent.log, modify. destruct e; cbn; eexists; eexists; reflexivity.
Qed.

(** X16: an initialised agent answers every job.  Whatever the payload and
    whatever the provider does, [processJob] returns a result and throws
    nothing, the agent stays initialised, and the provider's [initialize]
    is not called again. *)
Theorem processJob_always_answers_once_initialised :
  forall (st : Agent.state S) (jobData : jsval) (cid : option string),
    Agent.initialized st = true ->
    exists result st' added,
      Agent.processJob config jobData cid st = (Ok result, st')
      /\ Agent.initialized st' = true
      /\ Agent.events st' = (Agent.events st ++ added)%list
      /\ ~ In (Agent.Call Agent.call_initialize) added.
Proof.
  intros st jobData cid Hinit.
  assert (Hready : Agent.ensureInitialized config st = (Ok tt, st))
    by (unfold Agent.ensureInitialized, bind, gets; now rewrite Hinit).
  rewrite (processJob_ready _ _ _ _ _ Hready).
  set (body := bind (Agent.validateAgentJob jobData) _).
  assert (Hbody : steady body).
  { subst body. unfold Agent.validateAgentJob.
    apply steady_bind; [destruct (Zod.validateAgentJob jobData); steadiness|].
    intros job. apply steady_bind; [apply steady_log|]. intros _. apply steady_job. }
  assert (Hnot : forall l, forallb (fun e => negb (is_initialize_call e)) l = true ->
                           ~ In (Agent.Call Agent.call_initialize) l).
  { intros l Hl Hin. rewrite forallb_forall in Hl. specialize (Hl _ Hin). discriminate. }
  unfold try_catch. destruct (body st) as [[r|e] s1] eqn:E.
  - destruct (Hbody _ _ _ E) as (Hi & l & El & Ql).
    exists r, s1, l. repeat split; auto. congruence.
  - destruct (Hbody _ _ _ E) as (Hi & l & El & Ql).
    unfold bind, Agent.log, modify.
    destruct e; cbn; eexists; eexists; eexists; (split; [reflexivity|]); cbn;
      (split; [congruence|]); rewrite El, <- app_assoc; (split; [reflexivity|]);
      apply Hnot; rewrite forallb_app, Ql; reflexivity.
Qed.

(** [processJob] on an agent whose provider cannot be initialised. *)
Lemma processJob_uninitialised (st : Agent.state S) jobData cid e p :
  Agent.initialized st = false ->
  initialize (AgentConfig.connection config) (AgentConfig.credentials config)
    (Agent.provider_state st) = (Throw e, p) ->
  exists st',
    Agent.processJob config jobData cid st = (Throw e, st')
    /\ Agent.initialized st' = false.
Proof.
  intros Hinit Hfail.
  unfold Agent.processJob, Agent.ensureInitialized, Agent.initialize, bind at 1, gets.
  unfold bind at 1. rewrite Hinit. unfold bind at 1, gets. rewrite Hinit.
  unfold try_catch, bind, Agent.invoke, Agent.log, modify, throw. cbn.
  rewrite Hfail. cbn. eexists. split; [reflexivity|]. cbn. exact Hinit.
Qed.

(** X17: when the provider's [initialize] fails, [processJob] throws that
    very error instead of answering with a failed result: the payload is
    not looked at, the agent stays uninitialised, and the next job will
    try to initialise again. *)
Theorem processJob_throws_when_initialisation_fails :
  forall (st : Agent.state S) (jobData : jsval) (cid : option string) (e : exn) (p : S),
    Agent.initialized st = false ->
    initialize (AgentConfig.connection config) (AgentConfig.credentials config)
      (Agent.provider_state st) = (Throw e, p) ->
    exists st',
      Agent.processJob config jobData cid st = (Throw e, st')
      /\ Agent.initialized st' = false
      /\ Agent.provider_state st' = p
      /\ Agent.events st'
         = (Agent.events st
              ++ [ Agent.Call Agent.call_initialize; Agent.Settled false;
                   Agent.Log Agent.error "Failed to initialize agent provider" ])%list.
Proof.
  intros st jobData cid e p Hinit Hfail.
  unfold Agent.processJob, Agent.ensureInitialized, Agent.initialize, bind at 1, gets.
  unfold bind at 1. rewrite Hinit. unfold bind at 1, gets. rewrite Hinit.
  unfold try_catch, bind, Agent.invoke, Agent.log, modify, throw. cbn.
  rewrite Hfail. cbn. eexists. split; [reflexivity|]. cbn.
  rewrite <- !app_assoc. auto.
Qed.

(** X18: the first job initialises the provider.  When [initialize]
    succeeds on an uninitialised agent, the job is processed exactly as
    by the agent that is initialised, holds the provider's new state and
    has recorded the call. *)
Theorem processJob_initialises_on_first_use :
  forall (st : Agent.state S) (jobData : jsval) (cid : option string) (p : S),
    Agent.initialized st = false ->
    initialize (AgentConfig.connection config) (AgentConfig.credentials config)
      (Agent.provider_state st) = (Ok tt, p) ->
    Agent.processJob config jobData cid st
    = Agent.processJob config jobData cid
        {| Agent.provider_state := p;
           Agent.initialized := true;
           Agent.entropy := Agent.entropy st;
           Agent.drawn := Agent.drawn st;
           Agent.events :=
             (Agent.events st
                ++ [ Agent.Call Agent.call_initialize; Agent.Settled true;
                     Agent.Log Agent.info "Agent provider initialized successfully" ])%list |}.
Proof.
  intros st jobData cid p Hinit Hok.
  set (st1 := {| Agent.provider_state := p |}).
  assert (H1 : Agent.ensureInitialized config st = (Ok tt, st1)).
  { unfold Agent.ensureInitialized, Agent.initialize, try_catch, bind, gets,
      Agent.invoke, Agent.log, modify.
    cbn. rewrite Hinit. cbn. rewrite ?Hinit. cbn. rewrite Hok. cbn.
    subst st1. unfold Agent.emit, Agent.set_initialized. cbn. rewrite <- ?app_assoc. reflexivity. }
  assert (H2 : Agent.ensureInitialized config st1 = (Ok tt, st1)) by reflexivity.
  now rewrite (processJob_ready _ _ _ _ _ H1), (processJob_ready _ _ _ _ _ H2).
Qed.


Lemma startsWith_append pre s : Str.startsWith (pre ++ s) pre = true.
Proof.
  induction pre as [|c pre IH]; cbn; [now destruct s|].
  now rewrite Ascii.eqb_refl, IH.
Qed.

(** X19: a payload the job schema rejects never reaches the provider.  An
    initialised agent answers it with [{status: failed}], code
    [VALIDATION_ERROR], not retryable, the message being that of the
    first issue after the prefix "Invalid agent job: "; all it does is
    write one error line. *)
Theorem rejected_payload_is_a_validation_failure :
  forall (st : Agent.state S) (jobData : jsval) (cid : option string) (e : exn),
    Agent.initialized st = true ->
    Zod.validateAgentJob jobData = inl e ->
    exists message field,
      e = ValidationError message (Some field)
      /\ Str.startsWith message "Invalid agent job: " = true
      /\ Agent.processJob config jobData cid st
         = (Ok (Failed {| JobError.code := "VALIDATION_ERROR";
                          JobError.message := message;
                          JobError.retryable := false |}),
             Agent.emit (Agent.Log Agent.error "Job processing failed") st).
Proof.
  intros st jobData cid e Hinit Hbad.
  assert (Hready : Agent.ensureInitialized config st = (Ok tt, st))
    by (unfold Agent.ensureInitialized, bind, gets; now rewrite Hinit).
  rewrite (processJob_ready _ _ _ _ _ Hready).
  unfold try_catch, bind, Agent.validateAgentJob. rewrite Hbad.
  unfold Zod.validateAgentJob, Zod.validate in Hbad.
  destruct (Zod.AgentJobSchema jobData) as [i|j]; [|discriminate].
  inversion Hbad; subst e. eexists; eexists. split; [reflexivity|].
  split; [apply (startsWith_append "Invalid agent job: ")|]. reflexivity.
Qed.

Definition is_audit (e : Agent.event) : bool :=
  match e with
  | Agent.Audit _ => true
  | _ => false
  end.

(** X20: a cleanup hands one [sessions.cleaned] audit event to the logger
    when the provider has dropped at least one principal, and none when it
    has dropped nothing or has failed. *)
Theorem cleanup_audits_only_what_it_dropped :
  forall (st : Agent.state S) (job : CleanupJob.t),
    let st' := snd (Agent.cleanup job st) in
    let audits := filter is_audit (Agent.events st') in
    match cleanupExpiredUsers (CleanupJob.olderThanMinutes job) (Agent.provider_state st) with
    | (Ok rows, _) =>
        match filter UserCleanupResult.dropped rows with
        | [] => audits = filter is_audit (Agent.events st)
        | _ :: _ =>
            exists a,
              audits = (filter is_audit (Agent.events st) ++ [Agent.Audit a])%list
              /\ Agent.logged_eventType a = "sessions.cleaned"
              /\ Agent.logged_sessionId a = None
              /\ Agent.logged_username a = None
              /\ Agent.logged_correlationId a = Some (CleanupJob.correlationId job)
        end
    | (Throw _, _) => audits = filter is_audit (Agent.events st)
    end.
Proof.
  intros st job. cbv zeta.
  unfold Agent.cleanup, try_catch, bind, Agent.invoke, Agent.log, modify, Agent.auditEvent.
  cbn.
  destruct (cleanupExpiredUsers _ (Agent.provider_state st)) as [[rows|e] p]; cbn.
  - destruct (filter UserCleanupResult.dropped rows) as [|x l] eqn:E; cbn.
    + rewrite !filter_app. cbn. now rewrite !app_nil_r.
    + eexists. rewrite !filter_app. cbn. rewrite !app_nil_r.
      split; [reflexivity|]. cbn. auto.
  - rewrite !filter_app. cbn. now rewrite !app_nil_r.
Qed.

End OrchestratorProperties.

(* --------------------------------------------------------------------- *)
(** ** What a decoded job is known to satisfy *)
(* --------------------------------------------------------------------- *)

Section JobSchemaProperties.
Context {platform : Platform}.

(** The value of the discriminator [type] of a job. *)
Definition AgentJob_type (job : AgentJob) : string :=
  match job with
  | create_session_job _ => "create_session"
  | revoke_session_job _ => "revoke_session"
  | cleanup_job _ => "cleanup"
  end.

Definition AgentJob_id (job : AgentJob) : string :=
  match job with
  | create_session_job j => CreateSessionJob.id j
  | revoke_session_job j => RevokeSessionJob.id j
  | cleanup_job j => CleanupJob.id j
  end.

Definition AgentJob_correlationId (job : AgentJob) : string :=
  match job with
  | create_session_job j => CreateSessionJob.correlationId j
  | revoke_session_job j => RevokeSessionJob.correlationId j
  | cleanup_job j => CleanupJob.correlationId j
  end.

Ltac key H :=
  match type of H with
  | context [Zod.at_key ?k ?d ?o] =>
      let E := fresh "E" in
      destruct (Zod.at_key k d o) eqn:E; cbn [Zod.andThen] in H; [discriminate H|]
  end.

Ltac key_as H E :=
  match type of H with
  | context [Zod.at_key ?k ?d ?o] =>
      destruct (Zod.at_key k d o) eqn:E; cbn [Zod.andThen] in H; [discriminate H|]
  end.

Lemma at_key_inr {A} k (d : Zod.decoder A) o a :
  Zod.at_key k d o = inr a -> d (prop k o) = inr a.
Proof. unfold Zod.at_key. destruct (d (prop k o)); intros H; inversion H; reflexivity. Qed.

Lemma string_min_inr n msg v s :
  Zod.string_min n msg v = inr s -> v = JStr s /\ (n <= String.length s)%nat.
Proof.
  unfold Zod.string_min, Zod.string_check. destruct v; cbn; try discriminate.
  destruct (Nat.leb_spec n (String.length s0)) as [Hle|Hgt]; intros H; inversion H; subst; auto.
Qed.

Lemma string_check_inr ok msg v s :
  Zod.string_check ok msg v = inr s -> v = JStr s /\ ok s = true.
Proof.
  unfold Zod.string_check. destruct v; cbn; try discriminate.
  destruct (ok s0) eqn:E; intros H; inversion H; subst; auto.
Qed.

(** X21: the variant [validateAgentJob] decodes is the one the payload
    names: the payload is an object whose [type] is the name of the
    variant, whose [id] is the job's id and is not empty, and whose
    [correlationId] is the job's and passes the UUID test. *)
Theorem validateAgentJob_decodes_the_named_variant :
  forall (jobData : jsval) (job : AgentJob),
    Zod.validateAgentJob jobData = inr job ->
    exists o,
      jobData = JObj o
      /\ prop "type" o = JStr (AgentJob_type job)
      /\ prop "id" o = JStr (AgentJob_id job)
      /\ AgentJob_id job <> ""
      /\ prop "correlationId" o = JStr (AgentJob_correlationId job)
      /\ zod_uuid (AgentJob_correlationId job) = true.
Proof.
  intros jobData job. unfold Zod.validateAgentJob, Zod.validate.
  destruct (Zod.AgentJobSchema jobData) as [i|j] eqn:E; [discriminate|].
  intros H; inversion H; subst j; clear H.
  unfold Zod.AgentJobSchema in E. destruct jobData as [| | | | | | |o]; try discriminate.
  exists o. split; [reflexivity|].
  destruct (prop "type" o) as [| | | | |t| |] eqn:Ht; try discriminate.
  assert (Hid : forall id, Zod.at_key "id" Zod.BaseJob_id o = inr id ->
                           prop "id" o = JStr id /\ id <> "").
  { intros id Hk. apply at_key_inr, string_min_inr in Hk. destruct Hk as [-> Hlen].
    split; [reflexivity|]. intros ->. cbn in Hlen. lia. }
  assert (Hcid : forall c, Zod.at_key "correlationId" Zod.BaseJob_correlationId o = inr c ->
                           prop "correlationId" o = JStr c /\ zod_uuid c = true).
  { intros c Hk. now apply at_key_inr, string_check_inr in Hk. }
  destruct (String.eqb_spec t "create_session") as [->|_].
  { unfold Zod.andThen at 1 in E.
    destruct (Zod.CreateSessionJobSchema (JObj o)) as [i|j] eqn:Ej; [discriminate|].
    inversion E; subst job; clear E. cbn.
    unfold Zod.CreateSessionJobSchema, Zod.object in Ej.
    do 7 key Ej. injection Ej as <-; cbn.
    destruct (Hid _ eq_refl) as [? ?]. destruct (Hcid _ eq_refl) as [? ?]. auto 10. }
  destruct (String.eqb_spec t "revoke_session") as [->|_].
  { unfold Zod.andThen at 1 in E.
    destruct (Zod.RevokeSessionJobSchema (JObj o)) as [i|j] eqn:Ej; [discriminate|].
    inversion E; subst job; clear E. cbn.
    unfold Zod.RevokeSessionJobSchema, Zod.object in Ej.
    do 3 key Ej. injection Ej as <-; cbn.
    destruct (Hid _ eq_refl) as [? ?]. destruct (Hcid _ eq_refl) as [? ?]. auto 10. }
  destruct (String.eqb_spec t "cleanup") as [->|_]; [|discriminate].
  unfold Zod.andThen at 1 in E.
  destruct (Zod.CleanupJobSchema (JObj o)) as [i|j] eqn:Ej; [discriminate|].
  inversion E; subst job; clear E. cbn.
  unfold Zod.CleanupJobSchema, Zod.object in Ej.
  do 3 key Ej. injection Ej as <-; cbn.
  destruct (Hid _ eq_refl) as [? ?]. destruct (Hcid _ eq_refl) as [? ?]. auto 10.
Qed.


Lemma validateAgentJob_inr jobData job :
  Zod.validateAgentJob jobData = inr job -> Zod.AgentJobSchema jobData = inr job.
Proof.
  unfold Zod.validateAgentJob, Zod.validate.
  destruct (Zod.AgentJobSchema jobData); intros H; inversion H; reflexivity.
Qed.

(** The schema a payload is decoded with, by the variant that comes out. *)
Lemma AgentJobSchema_inr jobData job :
  Zod.AgentJobSchema jobData = inr job ->
  exists o,
    jobData = JObj o
    /\ match job with
       | create_session_job j => Zod.CreateSessionJobSchema (JObj o) = inr j
       | revoke_session_job j => Zod.RevokeSessionJobSchema (JObj o) = inr j
       | cleanup_job j => Zod.CleanupJobSchema (JObj o) = inr j
       end.
Proof.
  unfold Zod.AgentJobSchema. destruct jobData as [| | | | | | |o]; try discriminate.
  intros E. exists o. split; [reflexivity|].
  destruct (prop "type" o) as [| | | | |t| |]; try discriminate.
  destruct (String.eqb t "create_session").
  { unfold Zod.andThen in E. destruct (Zod.CreateSessionJobSchema (JObj o));
      inversion E; reflexivity. }
  destruct (String.eqb t "revoke_session").
  { unfold Zod.andThen in E. destruct (Zod.RevokeSessionJobSchema (JObj o));
      inversion E; reflexivity. }
  destruct (String.eqb t "cleanup"); [|discriminate].
  unfold Zod.andThen in E. destruct (Zod.CleanupJobSchema (JObj o));
    inversion E; reflexivity.
Qed.

Lemma nonempty_of_length (s : string) : (1 <= String.length s)%nat -> s <> "".
Proof. intros H ->. cbn in H. lia. Qed.

(** X22: a create_session job that has been decoded is within the bounds
    of the schema: host, database name and user id are not empty, the port
    lies between 1 and 65535 and the TTL between 1 and 1440, an e-mail
    address passes the e-mail test, a reason has at most 256 characters,
    and a target without [sslMode] has been given [prefer]. *)
Theorem decoded_create_session_job_is_within_bounds :
  forall (jobData : jsval) (job : CreateSessionJob.t),
    Zod.validateAgentJob jobData = inr (create_session_job job) ->
    let target := CreateSessionJob.target job in
    let requester := CreateSessionJob.requester job in
    DatabaseTarget.host target <> ""
    /\ 1 <= DatabaseTarget.port target <= 65535
    /\ DatabaseTarget.database target <> ""
    /\ 1 <= CreateSessionJob.ttlMinutes job <= 1440
    /\ Requester.userId requester <> ""
    /\ (forall e, Requester.email requester = Some e -> zod_email e = true)
    /\ (forall r, CreateSessionJob.reason job = Some r -> (String.length r <= 256)%nat)
    /\ exists o t,
        jobData = JObj o /\ prop "target" o = JObj t
        /\ (prop "sslMode" t = JUndefined -> DatabaseTarget.sslMode target = prefer).
Proof.
  intros jobData job Hjob target requester. subst target requester.
  apply validateAgentJob_inr, AgentJobSchema_inr in Hjob.
  destruct Hjob as (o & -> & Hj).
  unfold Zod.CreateSessionJobSchema, Zod.object in Hj.
  key_as Hj Kid. key_as Hj Kcid. key_as Hj Ktarget. key_as Hj Krole. key_as Hj Kttl.
  key_as Hj Kreq. key_as Hj Kreason. injection Hj as <-. cbn.
  (* the target *)
  apply at_key_inr in Ktarget. unfold Zod.DatabaseTargetSchema, Zod.object in Ktarget.
  destruct (prop "target" o) as [| | | | | | |tf] eqn:Ht; try discriminate.
  key_as Ktarget Khost. key_as Ktarget Kport. key_as Ktarget Kdb. key_as Ktarget Kssl.
  injection Ktarget as <-. cbn.
  apply at_key_inr, string_min_inr in Khost. destruct Khost as [_ Hhost].
  apply at_key_inr in Kport. unfold Zod.int_range in Kport.
  destruct (prop "port" tf) as [| | |n| | | |]; try discriminate.
  destruct (Z.ltb_spec n 1) as [|Hlo]; [discriminate|].
  destruct (Z.ltb_spec 65535 n) as [|Hhi]; [discriminate|]. injection Kport as <-.
  apply at_key_inr, string_min_inr in Kdb. destruct Kdb as [_ Hdb].
  apply at_key_inr in Kssl.
  (* the TTL *)
  apply at_key_inr in Kttl. unfold Zod.int_range in Kttl.
  destruct (prop "ttlMinutes" o) as [| | |m| | | |]; try discriminate.
  destruct (Z.ltb_spec m 1) as [|Hlo']; [discriminate|].
  destruct (Z.ltb_spec 1440 m) as [|Hhi']; [discriminate|]. injection Kttl as <-.
  (* the requester *)
  apply at_key_inr in Kreq. unfold Zod.RequesterSchema, Zod.object in Kreq.
  destruct (prop "requester" o) as [| | | | | | |rf]; try discriminate.
  key_as Kreq Kuser. key_as Kreq Kemail. injection Kreq as <-. cbn.
  apply at_key_inr, string_min_inr in Kuser. destruct Kuser as [_ Huser].
  apply at_key_inr in Kemail.
  (* the reason *)
  apply at_key_inr in Kreason.
  repeat split; try lia; try (now apply nonempty_of_length).
  - intros em ->. unfold Zod.optional in Kemail.
    destruct (prop "email" rf); try discriminate;
      match type of Kemail with
      | context [Zod.string_check ?ok ?msg ?v] =>
          destruct (Zod.string_check ok msg v) eqn:Ec; [discriminate|]
      end.
    injection Kemail as <-. now apply string_check_inr in Ec.
  - intros rs ->. unfold Zod.optional in Kreason.
    destruct (prop "reason" o); try discriminate;
      match type of Kreason with
      | context [Zod.string_max ?n ?msg ?v] =>
          destruct (Zod.string_max n msg v) eqn:Ec; [discriminate|]
      end.
    injection Kreason as <-. unfold Zod.string_max in Ec.
    apply string_check_inr in Ec. destruct Ec as [_ Hlen].
    now apply Nat.leb_le in Hlen.
  - exists o, tf. split; [reflexivity|]. split; [exact Ht|].
    intros Hs. rewrite Hs in Kssl. cbn in Kssl. now injection Kssl as <-.
Qed.

(** X23: a cleanup job that has been decoded has a threshold that is not
    negative: the one the payload gives, or 5 minutes when the payload
    gives none. *)
Theorem decoded_cleanup_threshold_is_not_negative :
  forall (jobData : jsval) (job : CleanupJob.t),
    Zod.validateAgentJob jobData = inr (cleanup_job job) ->
    0 <= CleanupJob.olderThanMinutes job
    /\ exists o,
        jobData = JObj o
        /\ (prop "olderThanMinutes" o = JUndefined -> CleanupJob.olderThanMinutes job = 5)
        /\ (forall n, prop "olderThanMinutes" o = JNum n ->
                      CleanupJob.olderThanMinutes job = n).
Proof.
  intros jobData job Hjob.
  apply validateAgentJob_inr, AgentJobSchema_inr in Hjob.
  destruct Hjob as (o & -> & Hj).
  unfold Zod.CleanupJobSchema, Zod.object in Hj.
  key_as Hj Kid. key_as Hj Kcid. key_as Hj Kold. injection Hj as <-. cbn.
  apply at_key_inr in Kold. unfold Zod.optional_default, Zod.int_min in Kold.
  destruct (prop "olderThanMinutes" o) as [| | |n| | | |] eqn:Hp; try discriminate.
  - injection Kold as <-. split; [lia|]. exists o. split; [reflexivity|].
    split; [reflexivity|]. intros n Hn. congruence.
  - destruct (Z.ltb_spec n 0) as [|Hlo]; [discriminate|]. injection Kold as <-.
    split; [lia|]. exists o. split; [reflexivity|].
    split; [congruence|]. intros m Hm. congruence.
Qed.

End JobSchemaProperties.

(* --------------------------------------------------------------------- *)
(** ** Identifiers and the shared validators *)
(* --------------------------------------------------------------------- *)

Section IdentifierProperties.
Context {platform : Platform} {S : Type} {provider : DatabaseProvider S}.
Variable config : AgentConfig.t.

Lemma hex_of_six (bs : list byte) :
  List.length bs = 6%nat ->
  Buffer.to_hex bs <> ""
  /\ String.length (Buffer.to_hex bs) = 12%nat
  /\ Str.all Str.is_alnum (Buffer.to_hex bs) = true.
Proof.
  intros Hlen. split; [|split].
  - destruct bs; [discriminate|]. discriminate.
  - rewrite to_hex_length, Hlen. reflexivity.
  - apply to_hex_alnum.
Qed.

Lemma bytes_at_length (st : Agent.state S) from n :
  List.length (bytes_at st from n) = n.
Proof. unfold bytes_at. now rewrite length_map, length_seq. Qed.

(** X24: the identifiers of a session that has been created pass the
    validators of the shared package: the session id is accepted by
    [validateSessionId] and the user name by [validateEphemeralUsername],
    each returning it unchanged. *)
Theorem created_identifiers_pass_the_validators :
  forall (job : CreateSessionJob.t) (st st' : Agent.state S)
         (sid dsn user : string) (exp : Z),
    Agent.createSession config job st = (Ok (CreateSessionReady sid dsn exp user), st') ->
    Zod.validateSessionId sid = inr sid
    /\ Zod.validateEphemeralUsername user = inr user.
Proof.
  intros job st st' sid dsn user exp H.
  destruct (Z.ltb_spec (AgentConfig.sessionMaxTtlMinutes config)
              (CreateSessionJob.ttlMinutes job)) as [Hover|Hle].
  { unfold Agent.createSession in H.
    destruct (Z.ltb_spec (AgentConfig.sessionMaxTtlMinutes config)
                (CreateSessionJob.ttlMinutes job)); [|lia].
    discriminate. }
  rewrite (createSession_run config job st Hle) in H.
  destruct (createEphemeralUser _ (Agent.provider_state st)) as [[r|e] p];
    [|discriminate].
  inversion H; subst; clear H.
  unfold generated_sessionId, generated_username.
  destruct (hex_of_six _ (bytes_at_length st 0 6)) as (Hne1 & Hlen1 & Hal1).
  destruct (hex_of_six _ (bytes_at_length st 6 6)) as (Hne2 & Hlen2 & Hal2).
  unfold Zod.validateSessionId, Zod.validateEphemeralUsername, Zod.validate,
    Zod.string_checks, Zod.min_length, Zod.max_length.
  cbn [find fst snd].
  unfold re_ses_alnum, re_gk_alnum.
  rewrite (lit_plus_append "ses_" _ _ Hne1 Hal1), (lit_plus_append "gk_" _ _ Hne2 Hal2).
  rewrite !length_append, Hlen1, Hlen2. split; reflexivity.
Qed.

End IdentifierProperties.

(* --------------------------------------------------------------------- *)
(** ** Shutting down *)
(* --------------------------------------------------------------------- *)

Section ShutdownGeneric.
Context {platform : Platform} {S : Type} {provider : DatabaseProvider S}
        {provider_close : DatabaseProviderClose S}.

(** The agent after [shutdown] has returned, with the provider in state
    [p]. *)
Definition shut_down (p : S) (st : Agent.state S) : Agent.state S :=
  {| Agent.provider_state := p;
     Agent.initialized := false;
     Agent.entropy := Agent.entropy st;
     Agent.drawn := Agent.drawn st;
     Agent.events :=
       (Agent.events st
          ++ [ Agent.Log Agent.info "Shutting down agent...";
               Agent.Log Agent.info "Agent shutdown complete" ])%list |}.

(** [shutdown] step by step: the provider is closed when the agent is
    initialised, and when [close] throws the agent stays as it is. *)
Lemma shutdown_run (st : Agent.state S) :
  Agent.shutdown st
  = if Agent.initialized st then
      match close (Agent.provider_state st) with
      | (Ok _, p) => (Ok tt, shut_down p st)
      | (Throw e, p) =>
          (Throw e,
            {| Agent.provider_state := p;
               Agent.initialized := true;
               Agent.entropy := Agent.entropy st;
               Agent.drawn := Agent.drawn st;
               Agent.events :=
                 (Agent.events st
                    ++ [Agent.Log Agent.info "Shutting down agent..."])%list |})
      end
    else (Ok tt, shut_down (Agent.provider_state st) st).
Proof.
  unfold Agent.shutdown, bind, gets, Agent.log, modify, Agent.probe, shut_down. cbn.
  destruct (Agent.initialized st) eqn:Hi; cbn.
  - destruct (close (Agent.provider_state st)) as [[[]|e] p]; cbn.
    + unfold Agent.emit, Agent.set_initialized. cbn. now rewrite <- app_assoc.
    + now rewrite Hi.
  - unfold Agent.emit, Agent.set_initialized. cbn. now rewrite <- app_assoc.
Qed.

End ShutdownGeneric.

Section ShutdownProperties.
Context {platform : Platform}.

Lemma close_run (s : PostgresProvider.state) :
  exists s',
    PostgresProvider.close s = (Ok tt, s')
    /\ PostgresProvider.pool s' = None
    /\ PostgresProvider.config s' = PostgresProvider.config s
    /\ PostgresProvider.session s' = PostgresProvider.session s
    /\ PostgresProvider.tick s' = PostgresProvider.tick s.
Proof.
  unfold PostgresProvider.close, bind, get.
  destruct (PostgresProvider.pool s) eqn:Hp; cbn; eexists; (split; [reflexivity|]);
    cbn; auto.
Qed.

(** X25: shutting an agent down closes the PostgreSQL provider exactly
    when the agent was initialised, and never fails.  Afterwards the agent
    is not initialised and, if the provider was closed, it has no pool:
    each of its operations raises [NOT_INITIALIZED] without a statement
    being sent, while the server is as it was. *)
Theorem shutdown_closes_the_provider :
  forall st : Agent.state PostgresProvider.state,
    exists st',
      Agent.shutdown st = (Ok tt, st')
      /\ Agent.initialized st' = false
      /\ PostgresProvider.session (Agent.provider_state st')
         = PostgresProvider.session (Agent.provider_state st)
      /\ (Agent.initialized st = false ->
          Agent.provider_state st' = Agent.provider_state st)
      /\ (Agent.initialized st = true ->
          let p := Agent.provider_state st' in
          PostgresProvider.pool p = None
          /\ (forall request,
                 PostgresProvider.createEphemeralUser request p
                 = (Throw PostgresProvider.NOT_INITIALIZED, p))
          /\ (forall username,
                 PostgresProvider.dropUser username p
                 = (Throw PostgresProvider.NOT_INITIALIZED, p))
          /\ PostgresProvider.listEphemeralUsers p
             = (Throw PostgresProvider.NOT_INITIALIZED, p)
          /\ (forall olderThanMinutes,
                 PostgresProvider.cleanupExpiredUsers olderThanMinutes p
                 = (Throw PostgresProvider.NOT_INITIALIZED, p))).
Proof.
  intros st. rewrite shutdown_run.
  destruct (Agent.initialized st) eqn:Hi.
  - destruct (close_run (Agent.provider_state st)) as (s' & E & Hp & Hc & Hs & Ht).
    change (@close _ PostgresProvider.provider_close) with PostgresProvider.close.
    rewrite E. eexists. split; [reflexivity|].
    cbn [shut_down Agent.initialized Agent.provider_state].
    split; [reflexivity|]. split; [exact Hs|]. split; [discriminate|].
    intros _. cbv zeta. split; [exact Hp|].
    unfold PostgresProvider.createEphemeralUser, PostgresProvider.dropUser,
      PostgresProvider.listEphemeralUsers, PostgresProvider.cleanupExpiredUsers,
      bind, get. rewrite Hp. repeat split.
  - eexists. split; [reflexivity|].
    cbn [shut_down Agent.initialized Agent.provider_state].
    split; [reflexivity|]. split; [reflexivity|]. split; [reflexivity|].
    discriminate.
Qed.

End ShutdownProperties.

(* --------------------------------------------------------------------- *)
(** ** The registry *)
(* --------------------------------------------------------------------- *)

Section RegistryProperties.
Import DefaultDatabaseProviderRegistry ProviderFactory.

(** The class [registerDatabaseProviders] registers for a type. *)
Definition registered_for (type : DatabaseType) : NewProvider :=
  match type with
  | postgres => new_PostgresProvider
  | oracle => new_OracleProvider
  | sqlserver => new_SqlServerProvider
  | mysql => new_MySqlProvider
  end.

Lemma DatabaseType_eqb_eq a b : DatabaseType_eqb a b = true <-> a = b.
Proof. destruct a, b; cbn; split; congruence. Qed.

Lemma Map_get_set {P} type type' (f : DatabaseProviderFactory P) m :
  Map_get P type' (Map_set P type f m)
  = if DatabaseType_eqb type type' then Some f else Map_get P type' m.
Proof.
  induction m as [|[k v] m IH]; cbn.
  - reflexivity.
  - destruct (DatabaseType_eqb k type) eqn:E; cbn.
    + apply DatabaseType_eqb_eq in E. subst k.
      destruct (DatabaseType_eqb type type'); reflexivity.
    + rewrite IH. destruct (DatabaseType_eqb type type') eqn:E'; [|reflexivity].
      apply DatabaseType_eqb_eq in E'. subst type'. now rewrite E.
Qed.

Lemma Map_set_same {P} type (f : DatabaseProviderFactory P) m :
  Map_get P type m = Some f -> Map_set P type f m = m.
Proof.
  induction m as [|[k v] m IH]; cbn; [discriminate|].
  destruct (DatabaseType_eqb k type) eqn:E.
  - intros H. inversion H; subst. apply DatabaseType_eqb_eq in E. now subst.
  - intros H. now rewrite IH.
Qed.

(** X26: once [registerDatabaseProviders] has run, whatever the registry
    held before, every database type is supported and
    [createDatabaseProvider] never raises [PROVIDER_NOT_FOUND]: it makes
    the PostgreSQL provider for [postgres] and the stub of its type for the
    others, while only [postgres] is production-ready.  Registering again
    changes nothing. *)
Theorem every_type_has_a_provider_once_registered :
  forall (registry : t NewProvider) (type : DatabaseType),
    let registered := fst (registerDatabaseProviders registry) in
    isSupported _ type registered = true
    /\ createDatabaseProvider type registered = inr (registered_for type)
    /\ In type (snd (registerDatabaseProviders registry))
    /\ (isDatabaseTypeProductionReady type = true <-> type = postgres)
    /\ fst (registerDatabaseProviders registered) = registered.
Proof.
  intros registry type registered.
  assert (Hget : forall ty, exists f,
             Map_get _ ty registered = Some f /\ f tt = registered_for ty
             /\ f = match ty with
                    | postgres => fun _ => new_PostgresProvider
                    | oracle => fun _ => new_OracleProvider
                    | sqlserver => fun _ => new_SqlServerProvider
                    | mysql => fun _ => new_MySqlProvider
                    end).
  { intros ty. subst registered. unfold registerDatabaseProviders, register. cbn [fst].
    rewrite !Map_get_set. destruct ty; cbn; eexists; repeat split. }
  assert (Hlog : snd (registerDatabaseProviders registry) = map fst registered)
    by reflexivity.
  rewrite Hlog. clearbody registered. clear Hlog.
  assert (Hsup : isSupported _ type registered = true).
  { unfold isSupported. destruct (Hget type) as (f & -> & _). reflexivity. }
  split; [exact Hsup|]. split; [|split; [|split]].
  - unfold createDatabaseProvider, create. rewrite Hsup. cbn [negb].
    destruct (Hget type) as (f & -> & Hf & _). now rewrite Hf.
  - unfold isSupported in Hsup.
    clear Hget. induction registered as [|[k v] m IH]; cbn in *; [discriminate|].
    destruct (DatabaseType_eqb k type) eqn:E.
    + left. now apply DatabaseType_eqb_eq.
    + right. auto.
  - unfold isDatabaseTypeProductionReady. destruct type; cbn; split; congruence.
  - unfold registerDatabaseProviders, register. cbn [fst].
    destruct (Hget postgres) as (f1 & H1 & _ & ->).
    destruct (Hget oracle) as (f2 & H2 & _ & ->).
    destruct (Hget sqlserver) as (f3 & H3 & _ & ->).
    destruct (Hget mysql) as (f4 & H4 & _ & ->).
    rewrite (Map_set_same _ _ _ H1), (Map_set_same _ _ _ H2),
      (Map_set_same _ _ _ H3), (Map_set_same _ _ _ H4). reflexivity.
Qed.

End RegistryProperties.

(* --------------------------------------------------------------------- *)
(** ** The Lambda handler *)
(* --------------------------------------------------------------------- *)

Section HandlerProperties.
Context {platform : Platform} {runtime : Runtime}
        {S : Type} {provider : DatabaseProvider S}.
Variable config : AgentConfig.t.

(** The provider is reachable and reports [healthy]: the agent is or can
    be initialised, and the provider's own check then returns [healthy]. *)
Definition provider_is_healthy (st : Agent.state S) : Prop :=
  exists st1 r p,
    Agent.ensureInitialized config st = (Ok tt, st1)
    /\ healthCheck (Agent.provider_state st1) = (Ok r, p)
    /\ HealthCheckResult.status r = healthy.

(** The orchestrator's [healthCheck] never throws, and says [ok] exactly
    when the provider is healthy. *)
Lemma agent_healthCheck_returns (st : Agent.state S) :
  exists h st',
    Agent.healthCheck config st = (Ok h, st')
    /\ (AgentHealth.status h = AgentHealth.ok <-> provider_is_healthy st).
Proof.
  unfold Agent.healthCheck, try_catch, bind, provider_is_healthy.
  destruct (Agent.ensureInitialized config st) as [[[]|e] st1] eqn:Hinit.
  - unfold Agent.probe.
    destruct (healthCheck (Agent.provider_state st1)) as [[r|e] p] eqn:Hh; cbn.
    + eexists; eexists. split; [reflexivity|]. cbn. split.
      * intros Hs. exists st1, r, p. repeat split; auto.
        destruct (HealthCheckResult.status r); auto; discriminate.
      * intros (st2 & r2 & p2 & E1 & E2 & E3). inversion E1; subst st2.
        rewrite Hh in E2. inversion E2; subst. now rewrite E3.
    + eexists; eexists. split; [reflexivity|]. cbn. split; [discriminate|].
      intros (st2 & r2 & p2 & E1 & E2 & E3). inversion E1; subst st2.
      rewrite Hh in E2. discriminate.
  - cbn. eexists; eexists. split; [reflexivity|]. cbn. split; [discriminate|].
    intros (st2 & r2 & p2 & E1 & _). discriminate.
Qed.

Lemma log_run l msg (s : Lambda.state S) :
  Lambda.log l msg s
  = (Ok tt, {| Lambda.agentInstance := Lambda.agentInstance s;
               Lambda.container := Lambda.container s;
               Lambda.lines := (Lambda.lines s ++ [(l, msg)])%list |}).
Proof. reflexivity. Qed.

(** The handler's state once it holds the agent [st] and has written
    [l]. *)
Definition logged (l : list (Agent.level * string)) (st : Agent.state S)
  (s : Lambda.state S) : Lambda.state S :=
  {| Lambda.agentInstance := Some st;
     Lambda.container := Lambda.container s;
     Lambda.lines := (Lambda.lines s ++ l)%list |}.

(** The statements before the [try], when none of them throws: the handler
    is its [try] and [catch], run once the module holds the agent. *)
Lemma handler_past_its_first_statements event context (s : Lambda.state S)
      correlationId functionName remaining :
  Lambda.correlationId_of event context = inr correlationId ->
  Lambda.context_functionName context = inr functionName ->
  Lambda.context_remainingTimeInMillis context = inr remaining ->
  Lambda.handler config event context s
  = try_catch (Lambda.handler_try config event correlationId)
      (fun _ => Lambda.handler_catch event correlationId)
      (Lambda.set_agent (Lambda.agent s) s).
Proof.
  intros Hc Hf Hr. unfold Lambda.handler, bind, Lambda.getAgent.
  rewrite Hc, Hf, Hr. reflexivity.
Qed.

(** A context of the Lambda runtime never makes the handler throw. *)
Lemma runtime_context event requestId functionName remaining correlationId :
  JS.get event "correlationId" = inr correlationId ->
  let context := Lambda.context_value requestId functionName (Some (inr remaining)) in
  exists id,
    Lambda.correlationId_of event context = inr id
    /\ Lambda.context_functionName context = inr functionName
    /\ Lambda.context_remainingTimeInMillis context = inr remaining.
Proof.
  intros Hget context. unfold Lambda.correlationId_of. rewrite Hget.
  destruct (JS.truthy correlationId); [eexists; repeat split; reflexivity|].
  destruct (JS.truthy _); eexists; repeat split; reflexivity.
Qed.

Lemma on_agent_run {A} (m : M (Agent.state S) A) (s : Lambda.state S) r a :
  m (Lambda.agent s) = (r, a) ->
  Lambda.on_agent m (Lambda.set_agent (Lambda.agent s) s) = (r, Lambda.set_agent a s).
Proof.
  intros H. unfold Lambda.on_agent.
  change (Lambda.agent (Lambda.set_agent (Lambda.agent s) s)) with (Lambda.agent s).
  rewrite H. reflexivity.
Qed.

(** X27: for an event that is an object and a context whose
    [remainingTimeInMillis] returns, [GET /health] is answered with 200
    exactly when the provider is reachable and healthy, and with 503
    otherwise, whether the provider is degraded, unhealthy or cannot be
    initialised: the endpoint never answers 500 and the handler does not
    throw. *)
Theorem health_endpoint_answers_200_or_503 :
  forall (fields : list (string * jsval)) (requestId functionName remaining : jsval)
         (s : Lambda.state S),
    prop "httpMethod" fields = JStr "GET" ->
    prop "path" fields = JStr "/health" ->
    exists health s',
      Lambda.handler config (JObj fields)
        (Lambda.context_value requestId functionName (Some (inr remaining))) s
      = (Ok (Lambda.Response
               {| Lambda.statusCode :=
                    match AgentHealth.status health with
                    | AgentHealth.ok => 200
                    | _ => 503
                    end;
                  Lambda.headers := Lambda.json_headers;
                  Lambda.response_body := Lambda.health_body health |}), s')
      /\ (AgentHealth.status health = AgentHealth.ok
          <-> provider_is_healthy (Lambda.agent s)).
Proof.
  intros fields rid fn t s Hm Hp.
  destruct (runtime_context (JObj fields) rid fn t _ eq_refl) as (id & Hc & Hf & Hr).
  rewrite (handler_past_its_first_statements _ _ _ _ _ _ Hc Hf Hr).
  destruct (agent_healthCheck_returns (Lambda.agent s)) as (h & st' & E & Hok).
  unfold Lambda.handler_try, Lambda.handleHttpRequest.
  cbn [JS.optional_prop]. rewrite Hm, Hp.
  cbn [JS.truthy JS.or JS.strict_eq String.eqb Ascii.eqb Bool.eqb negb andb].
  unfold try_catch, bind. rewrite log_run.
  change {| Lambda.agentInstance :=
              Lambda.agentInstance (Lambda.set_agent (Lambda.agent s) s);
            Lambda.container := Lambda.container (Lambda.set_agent (Lambda.agent s) s);
            Lambda.lines :=
              (Lambda.lines (Lambda.set_agent (Lambda.agent s) s)
                 ++ [(Agent.info, "Processing HTTP request")])%list |}
    with (Lambda.set_agent
            (Lambda.agent (logged [(Agent.info, "Processing HTTP request")]
                             (Lambda.agent s) s))
            (logged [(Agent.info, "Processing HTTP request")] (Lambda.agent s) s)).
  rewrite (on_agent_run _ (logged [(Agent.info, "Processing HTTP request")]
                             (Lambda.agent s) s) _ _ E).
  eexists; eexists. split; [reflexivity|]. exact Hok.
Qed.

(** X28: for an event that is an object and a context whose
    [remainingTimeInMillis] returns, [POST /jobs] with a body that parses
    is answered with 200 by an initialised agent whatever becomes of the
    job: the result of [processJob], be it [ready] or [failed], is the
    body, and the correlation id is handed back in [X-Correlation-ID]. *)
Theorem http_job_is_answered_200_whatever_its_result :
  forall (fields : list (string * jsval)) (requestId functionName remaining : jsval)
         (s : Lambda.state S) (text : string) (jobData : jsval),
    prop "httpMethod" fields = JStr "POST" ->
    prop "path" fields = JStr "/jobs" ->
    prop "body" fields = JStr text ->
    text <> "" ->
    JSON_parse text = inr jobData ->
    Agent.initialized (Lambda.agent s) = true ->
    let context := Lambda.context_value requestId functionName (Some (inr remaining)) in
    exists correlationId result st',
      Lambda.correlationId_of (JObj fields) context = inr correlationId
      /\ Agent.processJob config jobData (Lambda.as_string correlationId) (Lambda.agent s)
         = (Ok result, st')
      /\ Lambda.handler config (JObj fields) context s
         = (Ok (Lambda.Response
                  {| Lambda.statusCode := 200;
                     Lambda.headers :=
                       [ ("Content-Type", JStr "application/json");
                         ("X-Correlation-ID", correlationId) ];
                     Lambda.response_body := Lambda.result_body result |}),
             logged [(Agent.info, "Processing HTTP request")] st' s).
Proof.
  intros fields rid fn t s text jobData Hm Hp Hb Hne Hparse Hinit context.
  destruct (runtime_context (JObj fields) rid fn t _ eq_refl) as (id & Hc & Hf & Hr).
  fold context in Hc, Hf, Hr.
  destruct (processJob_answers config (Lambda.agent s) jobData (Lambda.as_string id) Hinit)
    as (result & st' & E).
  exists id, result, st'. split; [exact Hc|]. split; [exact E|].
  rewrite (handler_past_its_first_statements _ _ _ _ _ _ Hc Hf Hr).
  unfold Lambda.handler_try, Lambda.handleHttpRequest.
  cbn [JS.optional_prop]. rewrite Hm, Hp, Hb.
  assert (Ht : JS.truthy (JStr text) = true)
    by (destruct text; [contradiction|reflexivity]).
  rewrite Ht.
  cbn [JS.truthy JS.or JS.strict_eq JS.ToString String.eqb Ascii.eqb Bool.eqb negb andb].
  rewrite Hparse.
  unfold try_catch, bind. rewrite log_run.
  change {| Lambda.agentInstance :=
              Lambda.agentInstance (Lambda.set_agent (Lambda.agent s) s);
            Lambda.container := Lambda.container (Lambda.set_agent (Lambda.agent s) s);
            Lambda.lines :=
              (Lambda.lines (Lambda.set_agent (Lambda.agent s) s)
                 ++ [(Agent.info, "Processing HTTP request")])%list |}
    with (Lambda.set_agent
            (Lambda.agent (logged [(Agent.info, "Processing HTTP request")]
                             (Lambda.agent s) s))
            (logged [(Agent.info, "Processing HTTP request")] (Lambda.agent s) s)).
  rewrite (on_agent_run _ (logged [(Agent.info, "Processing HTTP request")]
                             (Lambda.agent s) s) _ _ E).
  reflexivity.
Qed.

(** X29: for an event that is an object and a context whose
    [remainingTimeInMillis] returns, an HTTP request that is for neither
    endpoint is answered with 404 and the list of the two endpoints;
    [POST /jobs] without a body with 400; [POST /jobs] with a body that
    does not parse with 400 when the message of the [SyntaxError] mentions
    JSON and with 500 otherwise.  In none of these cases is a method of the
    agent called: the agent is the one [getAgent()] returned. *)
Theorem http_requests_the_agent_never_sees :
  forall (fields : list (string * jsval)) (requestId functionName remaining : jsval)
         (s : Lambda.state S),
    JS.truthy (prop "httpMethod" fields) = true ->
    let context := Lambda.context_value requestId functionName (Some (inr remaining)) in
    let method := prop "httpMethod" fields in
    let path := JS.or (prop "path" fields) (JStr "/") in
    let body := prop "body" fields in
    let is_health := (JS.strict_eq method "GET" && JS.strict_eq path "/health")%bool in
    let is_jobs := (JS.strict_eq method "POST" && JS.strict_eq path "/jobs")%bool in
    let st := Lambda.agent s in
    is_health = false ->
    (is_jobs = false ->
     Lambda.handler config (JObj fields) context s
     = (Ok (Lambda.Response
              {| Lambda.statusCode := 404;
                 Lambda.headers := Lambda.json_headers;
                 Lambda.response_body :=
                   Lambda.not_found_body "Not found" ["GET /health"; "POST /jobs"] |}),
         logged [(Agent.info, "Processing HTTP request")] st s))
    /\ (is_jobs = true -> JS.truthy body = false ->
        Lambda.handler config (JObj fields) context s
        = (Ok (Lambda.Response
                 {| Lambda.statusCode := 400;
                    Lambda.headers := Lambda.json_headers;
                    Lambda.response_body := Lambda.error_body "Request body required" |}),
            logged [(Agent.info, "Processing HTTP request")] st s))
    /\ (forall message,
           is_jobs = true -> JS.truthy body = true ->
           JSON_parse (JS.ToString body) = inl message ->
           exists correlationId,
             Lambda.correlationId_of (JObj fields) context = inr correlationId
             /\ Lambda.handler config (JObj fields) context s
                = (Ok (Lambda.Response
                         (if Str.includes message "JSON" then Lambda.invalid_json
                          else Lambda.internal_server_error correlationId)),
                    logged [ (Agent.info, "Processing HTTP request");
                             (Agent.error, "HTTP request failed") ] st s)).
Proof.
  intros fields rid fn t s Hhttp context method path body is_health is_jobs st Hnh.
  destruct (runtime_context (JObj fields) rid fn t _ eq_refl) as (id & Hc & Hf & Hr).
  fold context in Hc, Hf, Hr.
  rewrite (handler_past_its_first_statements _ _ _ _ _ _ Hc Hf Hr).
  unfold Lambda.handler_try, Lambda.handleHttpRequest.
  cbn [JS.optional_prop]. rewrite Hhttp.
  fold method path body is_health is_jobs.
  rewrite Hnh. unfold try_catch, bind. rewrite log_run.
  split; [|split].
  - intros ->. reflexivity.
  - intros -> ->. reflexivity.
  - intros message -> -> ->. exists id. split; [exact Hc|].
    cbn [negb]. unfold Lambda.http_catch_SyntaxError, bind.
    rewrite log_run. unfold logged. cbn [Lambda.agentInstance Lambda.lines Lambda.container
                                            Lambda.set_agent].
    rewrite <- app_assoc. destruct (Str.includes message "JSON"); reflexivity.
Qed.

Lemma handler_catch_returns (event : jsval) (correlationId : jsval)
  (s : Lambda.state S) :
  exists r s', Lambda.handler_catch event correlationId s = (Ok r, s').
Proof.
  unfold Lambda.handler_catch, bind. rewrite log_run.
  destruct (JS.truthy (JS.optional_prop event "httpMethod"));
    eexists; eexists; reflexivity.
Qed.

(** X30: the handler throws from the statements before its [try] and from
    nowhere else.  On an event that is [null] or [undefined] it throws the
    [TypeError] of reading [correlationId]; on a context without a
    function [remainingTimeInMillis] it throws the [TypeError] of the
    call, and when that function throws, what it throws; each time the
    module has got its agent before.  On an event that is neither [null]
    nor [undefined] and a context whose [remainingTimeInMillis] returns,
    it returns a response or a job result, whatever the event; and when
    the agent cannot be initialised, so that [processJob] throws, a direct
    invocation gets [{status: failed}] with code [LAMBDA_ERROR], not
    retryable, instead of the error. *)
Theorem handler_throws_only_before_its_try :
  forall (event : jsval) (requestId functionName : jsval) (s : Lambda.state S),
    let runtime_context remaining :=
      Lambda.context_value requestId functionName (Some (inr remaining)) in
    (forall context e,
        JS.get event "correlationId" = inl e ->
        Lambda.handler config event context s
        = (Throw e, Lambda.set_agent (Lambda.agent s) s))
    /\ (forall correlationId e,
           JS.get event "correlationId" = inr correlationId ->
           Lambda.handler config event
             (Lambda.context_value requestId functionName (Some (inl e))) s
           = (Throw e, Lambda.set_agent (Lambda.agent s) s)
           /\ Lambda.handler config event
                (Lambda.context_value requestId functionName None) s
              = (Throw (JsError "context.remainingTimeInMillis is not a function"),
                  Lambda.set_agent (Lambda.agent s) s)
           /\ exists e',
               Lambda.handler config event Lambda.context_undefined s
               = (Throw e', Lambda.set_agent (Lambda.agent s) s))
    /\ (forall correlationId remaining,
           JS.get event "correlationId" = inr correlationId ->
           exists r s',
             Lambda.handler config event (runtime_context remaining) s = (Ok r, s'))
    /\ (forall remaining e p,
           JS.truthy (JS.optional_prop event "httpMethod") = false ->
           JS.truthy (JS.optional_prop event "jobData") = true ->
           Agent.initialized (Lambda.agent s) = false ->
           initialize (AgentConfig.connection config) (AgentConfig.credentials config)
             (Agent.provider_state (Lambda.agent s)) = (Throw e, p) ->
           exists s',
             Lambda.handler config event (runtime_context remaining) s
             = (Ok (Lambda.Direct
                      (Failed {| JobError.code := "LAMBDA_ERROR";
                                 JobError.message := "Lambda execution failed";
                                 JobError.retryable := false |})), s')
             /\ Agent.initialized (Lambda.agent s') = false).
Proof.
  intros event rid fn s runtime_context0. split; [|split; [|split]].
  - intros context e He. unfold Lambda.handler, bind, Lambda.getAgent,
      Lambda.correlationId_of. rewrite He. reflexivity.
  - intros id e Hid.
    assert (Hc : forall r, exists id',
                 Lambda.correlationId_of event (Lambda.context_value rid fn r) = inr id').
    { intros r. unfold Lambda.correlationId_of. rewrite Hid.
      destruct (JS.truthy id); [eexists; reflexivity|].
      destruct (JS.truthy _); eexists; reflexivity. }
    split; [|split].
    + destruct (Hc (Some (inl e))) as [id' E].
      unfold Lambda.handler, bind, Lambda.getAgent. rewrite E. reflexivity.
    + destruct (Hc None) as [id' E].
      unfold Lambda.handler, bind, Lambda.getAgent. rewrite E. reflexivity.
    + unfold Lambda.handler, bind, Lambda.getAgent, Lambda.correlationId_of. rewrite Hid.
      destruct (JS.truthy id); [eexists; reflexivity|].
      destruct (JS.truthy _); eexists; reflexivity.
  - intros id t Hid.
    destruct (runtime_context event rid fn t _ Hid) as (id' & Hc & Hf & Hr).
    subst runtime_context0. cbv beta.
    rewrite (handler_past_its_first_statements _ _ _ _ _ _ Hc Hf Hr).
    unfold try_catch at 1.
    destruct (Lambda.handler_try config event id' _) as [[r|e] s1].
    + eauto.
    + apply handler_catch_returns.
  - intros t e p Hhttp Hjob Hinit Hfail.
    assert (Hid : exists id, JS.get event "correlationId" = inr id).
    { destruct event; cbn in Hjob; try discriminate; cbn; eauto. }
    destruct Hid as [id Hid].
    destruct (runtime_context event rid fn t _ Hid) as (id' & Hc & Hf & Hr).
    subst runtime_context0. cbv beta.
    rewrite (handler_past_its_first_statements _ _ _ _ _ _ Hc Hf Hr).
    destruct (processJob_uninitialised config (Lambda.agent s)
                (JS.optional_prop event "jobData") (Lambda.as_string id') e p Hinit Hfail)
      as (st' & E & Hi).
    unfold Lambda.handler_try. rewrite Hhttp, Hjob.
    unfold try_catch, bind at 1. rewrite (on_agent_run _ _ _ _ E).
    unfold Lambda.handler_catch, bind. rewrite log_run. rewrite Hhttp.
    eexists. split; [reflexivity|]. exact Hi.
Qed.

End HandlerProperties.

(* --------------------------------------------------------------------- *)
(** ** The further properties at work *)
(* --------------------------------------------------------------------- *)

Module MoreRuns.
Import Scenario Requests.

Ltac run_it := vm_compute; reflexivity.

Lemma gk_create_ephemeral_user_adds_exactly_one_role_witness :
  let create name :=
    snd (Bootstrap.gk_create_ephemeral_user (Some name) (Some "pw")
           (t0 + 60000) "app_read" 2 bootstrapped) in
  (Pg.role_exists "gk_a1" bootstrapped = false
   /\ Pg.pg_roles (create "gk_a1")
      = (Pg.pg_roles bootstrapped
           ++ [ephemeral_role "gk_a1" "pw" (t0 + 60000) "app_read" 2])%list)
  /\ (String.length long_name = 73%nat
      /\ Pg.pg_roles (create long_name)
         = (Pg.pg_roles bootstrapped
              ++ [ephemeral_role
                    "gk_aaaaaaaaaabbbbbbbbbbccccccccccddddddddddeeeeeeeeeeffffffffff"
                    "pw" (t0 + 60000) "app_read" 2])%list).
Proof.
  intros create. split.
  - destruct (gk_create_ephemeral_user_adds_exactly_one_role
                "gk_a1" "pw" (t0 + 60000) "app_read" 2 bootstrapped (create "gk_a1")
                ltac:(run_it))
      as (H1 & H2 & _).
    split; assumption.
  - destruct (gk_create_ephemeral_user_adds_exactly_one_role
                long_name "pw" (t0 + 60000) "app_read" 2 bootstrapped (create long_name)
                ltac:(run_it))
      as (_ & H2 & _).
    split; [reflexivity|exact H2].
Defined.

Lemma gk_drop_user_twice_is_false_witness :
  let db' := snd (Bootstrap.gk_drop_user (Some "gk_old") populated) in
  Bootstrap.gk_drop_user (Some "gk_old") db' = (inr false, db').
Proof.
  intros db'.
  exact (gk_drop_user_twice_is_false "gk_old" populated db' ltac:(run_it)).
Defined.


Lemma cleanup_leaves_every_other_role_witness :
  Pg.role_exists "gk_live" (snd (Bootstrap.gk_cleanup_expired_users 0 populated)) = true.
Proof.
  rewrite (cleanup_leaves_every_other_role 0 populated "gk_live").
  - reflexivity.
  - intros r Hin Hname. vm_compute in Hin.
    repeat (destruct Hin as [Hr|Hin];
            [subst r; first [discriminate Hname | vm_compute; reflexivity]|]).
    destruct Hin.
Defined.

Lemma cleaned_principals_are_gone_witness :
  exists name,
    name = "gk_old"
    /\ Pg.role_exists name (snd (Bootstrap.gk_cleanup_expired_users 0 populated)) = false.
Proof.
  destruct (cleaned_principals_are_gone 0 populated
              [ ("username", Pg.TEXT "gk_old"); ("was_expired", Pg.BOOLEAN true);
                ("dropped", Pg.BOOLEAN true); ("error_message", Pg.NULL) ]
              ltac:(vm_compute; left; reflexivity) ltac:(run_it))
    as (name & Hn & _ & Hgone).
  exists name. split; [|exact Hgone].
  vm_compute in Hn. now inversion Hn.
Defined.

Lemma names_outside_the_listing_pattern_are_invisible_witness :
  re_gk_word "gk_a_b" = true
  /\ Pg.role_exists "gk_a_b" populated = true
  /\ ~ In (Pg.TEXT "gk_a_b")
         (map (Pg.col "username") (Bootstrap.gk_list_ephemeral_users populated))
  /\ Pg.role_exists "gk_a_b" (snd (Bootstrap.gk_cleanup_expired_users 0 populated)) = true.
Proof.
  destruct (names_outside_the_listing_pattern_are_invisible "gk_a_b" 0 populated
              ltac:(run_it)) as (H1 & _ & H3).
  split; [run_it|]. split; [run_it|]. split; [exact H1|].
  rewrite H3. run_it.
Defined.

Lemma healthCheck_is_healthy_iff_the_setup_is_valid_witness :
  (exists r s',
      PostgresProvider.healthCheck (ready_provider bootstrapped) = (Ok r, s')
      /\ HealthCheckResult.status r = healthy)
  /\ (exists r s',
         PostgresProvider.healthCheck
           (ready_provider (Pg.with_roles (fun _ => []) bootstrapped)) = (Ok r, s')
         /\ HealthCheckResult.status r = degraded).
Proof.
  split.
  - destruct (healthCheck_is_healthy_iff_the_setup_is_valid (ready_provider bootstrapped)
                (Runs.ready_can_connect bootstrapped) ltac:(run_it) ltac:(run_it))
      as (r & s' & H & Hs & _).
    exists r, s'. split; [exact H|]. rewrite Hs. run_it.
  - destruct (healthCheck_is_healthy_iff_the_setup_is_valid
                (ready_provider (Pg.with_roles (fun _ => []) bootstrapped))
                (Runs.ready_can_connect _) ltac:(run_it) ltac:(run_it))
      as (r & s' & H & Hs & _).
    exists r, s'. split; [exact H|]. rewrite Hs. run_it.
Defined.

Lemma initialize_rejects_another_database_type_witness :
  exists s',
    PostgresProvider.initialize oracle_connection credentials (fresh_provider bootstrapped)
    = (Throw (DatabaseProviderError
                "Failed to initialize postgres provider: Failed to initialize postgres provider: Invalid database type: oracle"
                "PROVIDER_INIT_ERROR" true (Some postgres)), s')
    /\ PostgresProvider.pool s' = None
    /\ PostgresProvider.config s' = Some oracle_connection.
Proof.
  destruct (initialize_rejects_another_database_type oracle_connection credentials
              (fresh_provider bootstrapped) ltac:(discriminate))
    as (s' & H & Hp & Hc & _).
  exists s'. split; [exact H|]. split; [exact Hp|exact Hc].
Defined.


Lemma listEphemeralUsers_mirrors_the_helper_witness :
  exists users s',
    PostgresProvider.listEphemeralUsers (ready_provider populated) = (Ok users, s')
    /\ map EphemeralUser.username users = ["gk_old"; "gk_owner"; "gk_live"; "gk_forever"].
Proof.
  destruct (listEphemeralUsers_mirrors_the_helper (ready_provider populated)
              (Runs.ready_can_connect populated) ltac:(run_it))
    as (users & s' & H & Hn & _).
  exists users, s'. split; [exact H|]. rewrite Hn. run_it.
Defined.

Lemma generateDsn_determines_the_credentials_witness :
  PostgresProvider.generateDsn connection "gk_060708090a0b" "p@ss:w/rd"
  = "postgresql://gk_060708090a0b:p%40ss%3Aw%2Frd@db:5432/app?sslmode=prefer"
  /\ "gk_060708090a0b" = "gk_060708090a0b" /\ "p@ss:w/rd" = "p@ss:w/rd".
Proof.
  split; [run_it|].
  exact (generateDsn_determines_the_credentials connection
           "gk_060708090a0b" "p@ss:w/rd" "gk_060708090a0b" "p@ss:w/rd" eq_refl).
Defined.

Lemma processJob_always_answers_once_initialised_witness :
  exists result st',
    Agent.processJob (config 1440) (JStr "not a job") None (agent bootstrapped)
    = (Ok result, st')
    /\ Agent.initialized st' = true.
Proof.
  destruct (@processJob_always_answers_once_initialised platform _
              PostgresProvider.provider (config 1440) (agent bootstrapped)
              (JStr "not a job") None ltac:(run_it))
    as (result & st' & added & H & Hi & _).
  exists result, st'. split; assumption.
Defined.

Lemma processJob_throws_when_initialisation_fails_witness :
  exists m st',
    Agent.processJob (config 1440) (create_job 15) None (cold (unreachable bootstrapped))
    = (Throw (DatabaseProviderError m "PROVIDER_INIT_ERROR" true (Some postgres)), st')
    /\ Agent.initialized st' = false.
Proof.
  destruct (@processJob_throws_when_initialisation_fails platform _
              PostgresProvider.provider (config 1440) (cold (unreachable bootstrapped))
              (create_job 15) None
              (DatabaseProviderError
                 "Failed to initialize postgres provider: connect ECONNREFUSED 10.0.0.5:5432"
                 "PROVIDER_INIT_ERROR" true (Some postgres))
              (snd (PostgresProvider.initialize connection credentials
                      (unreachable bootstrapped)))
              ltac:(run_it) ltac:(run_it))
    as (st' & H & Hi & _).
  eexists; exists st'. split; [exact H|exact Hi].
Defined.

Lemma processJob_initialises_on_first_use_witness :
  fst (Agent.processJob (config 1440) (create_job 15) None
         (cold (fresh_provider bootstrapped)))
  = Ok (CreateSessionReady "ses_000102030405"
          "postgresql://gk_060708090a0b:DA0ODxAREhMUFRYXGBkaGw%3D%3D1c1d1e1f@db:5432/app?sslmode=prefer"
          (t0 + 900000) "gk_060708090a0b").
Proof.
  rewrite (@processJob_initialises_on_first_use platform _ PostgresProvider.provider
             (config 1440) (cold (fresh_provider bootstrapped)) (create_job 15) None
             (ready_provider bootstrapped) ltac:(run_it) ltac:(run_it)).
  run_it.
Defined.

Lemma rejected_payload_is_a_validation_failure_witness :
  fst (Agent.processJob (config 1440) (JObj [("type", JStr "drop_everything")]) None
         (agent bootstrapped))
  = Ok (Failed
          {| JobError.code := "VALIDATION_ERROR";
             JobError.message :=
               "Invalid agent job: Invalid discriminator value. Expected 'create_session' | 'revoke_session' | 'cleanup'";
             JobError.retryable := false |}).
Proof.
  destruct (@rejected_payload_is_a_validation_failure platform _
              PostgresProvider.provider (config 1440) (agent bootstrapped)
              (JObj [("type", JStr "drop_everything")]) None
              (ValidationError
                 "Invalid agent job: Invalid discriminator value. Expected 'create_session' | 'revoke_session' | 'cleanup'"
                 (Some "type"))
              ltac:(run_it) ltac:(run_it))
    as (message & field & He & _ & H).
  rewrite H. inversion He. reflexivity.
Defined.

Lemma validateAgentJob_decodes_the_named_variant_witness :
  exists o,
    create_job 15 = JObj o
    /\ prop "type" o = JStr "create_session"
    /\ prop "id" o = JStr "j1".
Proof.
  destruct (@validateAgentJob_decodes_the_named_variant platform (create_job 15)
              (create_session_job (decoded_create_job 15)) ltac:(run_it))
    as (o & H1 & H2 & H3 & _).
  exists o. split; [exact H1|]. split; [exact H2|exact H3].
Defined.

Lemma decoded_create_session_job_is_within_bounds_witness :
  1 <= 5432 <= 65535 /\ 1 <= 15 <= 1440.
Proof.
  destruct (@decoded_create_session_job_is_within_bounds platform (create_job 15)
              (decoded_create_job 15) ltac:(run_it))
    as (_ & Hport & _ & Httl & _).
  split; [exact Hport|exact Httl].
Defined.

Lemma decoded_cleanup_threshold_is_not_negative_witness :
  0 <= 0
  /\ exists message field,
      Zod.validateAgentJob (cleanup_job_data (-1)) = inl (ValidationError message field).
Proof.
  split.
  - exact (proj1 (@decoded_cleanup_threshold_is_not_negative platform (cleanup_job_data 0)
                    (decoded_cleanup_job 0) ltac:(run_it))).
  - eexists; eexists. run_it.
Defined.

Lemma created_identifiers_pass_the_validators_witness :
  Zod.validateSessionId "ses_000102030405" = inr "ses_000102030405"
  /\ Zod.validateEphemeralUsername "gk_060708090a0b" = inr "gk_060708090a0b".
Proof.
  exact (@created_identifiers_pass_the_validators platform _ PostgresProvider.provider
           (config 1440) (decoded_create_job 15) (agent bootstrapped)
           (snd (@Agent.createSession platform _ PostgresProvider.provider
                   (config 1440) (decoded_create_job 15) (agent bootstrapped)))
           "ses_000102030405"
           "postgresql://gk_060708090a0b:DA0ODxAREhMUFRYXGBkaGw%3D%3D1c1d1e1f@db:5432/app?sslmode=prefer"
           "gk_060708090a0b" (t0 + 900000) ltac:(run_it)).
Defined.

Lemma health_endpoint_answers_200_or_503_witness :
  (exists health s',
      Lambda.handler (config 1440) (http "GET" "/health" None) context
        (lambda (agent bootstrapped))
      = (Ok (Lambda.Response
               {| Lambda.statusCode := 200;
                  Lambda.headers := Lambda.json_headers;
                  Lambda.response_body := Lambda.health_body health |}), s'))
  /\ (exists health s',
         Lambda.handler (config 1440) (http "GET" "/health" None) context
           (cold_start (unreachable bootstrapped))
         = (Ok (Lambda.Response
                  {| Lambda.statusCode := 503;
                     Lambda.headers := Lambda.json_headers;
                     Lambda.response_body := Lambda.health_body health |}), s')).
Proof.
  split.
  - destruct (@health_endpoint_answers_200_or_503 platform runtime _
                PostgresProvider.provider (config 1440) (http_fields "GET" "/health" None)
                (JStr "ctx-1") (JStr "gatekeeper-agent") (JNum 30000)
                (lambda (agent bootstrapped)) ltac:(run_it) ltac:(run_it))
      as (health & s' & H & Hiff).
    assert (Hok : AgentHealth.status health = AgentHealth.ok).
    { apply Hiff. eexists; eexists; eexists.
      split; [run_it|]. split; run_it. }
    rewrite Hok in H. eauto.
  - destruct (@health_endpoint_answers_200_or_503 platform runtime _
                PostgresProvider.provider (config 1440) (http_fields "GET" "/health" None)
                (JStr "ctx-1") (JStr "gatekeeper-agent") (JNum 30000)
                (cold_start (unreachable bootstrapped))
                ltac:(run_it) ltac:(run_it))
      as (health & s' & H & Hiff).
    assert (Hdown : AgentHealth.status health <> AgentHealth.ok).
    { intros Hok. apply Hiff in Hok. destruct Hok as (st1 & r & p & E1 & _).
      vm_compute in E1. discriminate E1. }
    destruct (AgentHealth.status health); [contradiction| |]; eauto.
Defined.

Lemma http_job_is_answered_200_whatever_its_result_witness :
  exists message r,
    fst (Lambda.handler (config 1440)
           (http "POST" "/jobs" (Some (stringify (create_job 9999)))) context
           (lambda (agent bootstrapped))) = Ok (Lambda.Response r)
    /\ Lambda.statusCode r = 200
    /\ Lambda.response_body r
       = Lambda.result_body
           (Failed {| JobError.code := "VALIDATION_ERROR";
                      JobError.message := message;
                      JobError.retryable := false |})
    /\ Lambda.headers r
       = [ ("Content-Type", JStr "application/json");
           ("X-Correlation-ID", JStr "req-1") ].
Proof.
  destruct (@http_job_is_answered_200_whatever_its_result platform runtime _
              PostgresProvider.provider (config 1440)
              (http_fields "POST" "/jobs" (Some (stringify (create_job 9999))))
              (JStr "ctx-1") (JStr "gatekeeper-agent") (JNum 30000)
              (lambda (agent bootstrapped)) (stringify (create_job 9999))
              (create_job 9999)
              ltac:(run_it) ltac:(run_it) ltac:(run_it) ltac:(vm_compute; discriminate)
              ltac:(run_it) ltac:(run_it))
    as (id & result & st' & Hid & E & H).
  vm_compute in Hid. injection Hid as Hid. subst id.
  vm_compute in E. injection E as Hres _.
  eexists; eexists.
  change (Lambda.handler (config 1440)
            (http "POST" "/jobs" (Some (stringify (create_job 9999)))) context
            (lambda (agent bootstrapped)))
    with (Lambda.handler (config 1440)
            (JObj (http_fields "POST" "/jobs" (Some (stringify (create_job 9999)))))
            (Lambda.context_value (JStr "ctx-1") (JStr "gatekeeper-agent")
               (Some (inr (JNum 30000))))
            (lambda (agent bootstrapped))).
  rewrite H. cbn [fst]. split; [reflexivity|].
  cbn [Lambda.statusCode Lambda.response_body Lambda.headers].
  split; [reflexivity|]. split; [now rewrite <- Hres|]. reflexivity.
Defined.

Lemma http_requests_the_agent_never_sees_witness :
  (exists r s',
      Lambda.handler (config 1440) (http "DELETE" "/jobs" None) context
        (lambda (agent bootstrapped)) = (Ok (Lambda.Response r), s')
      /\ Lambda.statusCode r = 404
      /\ Lambda.agentInstance s' = Some (agent bootstrapped))
  /\ (exists r s',
         Lambda.handler (config 1440) (http "POST" "/jobs" None) context
           (lambda (agent bootstrapped)) = (Ok (Lambda.Response r), s')
         /\ Lambda.statusCode r = 400
         /\ Lambda.agentInstance s' = Some (agent bootstrapped))
  /\ (exists r s',
         Lambda.handler (config 1440) (http "POST" "/jobs" (Some "{oops")) context
           (lambda (agent bootstrapped)) = (Ok (Lambda.Response r), s')
         /\ Lambda.statusCode r = 400
         /\ Lambda.agentInstance s' = Some (agent bootstrapped)).
Proof.
  split; [|split].
  - destruct (@http_requests_the_agent_never_sees platform runtime _
                PostgresProvider.provider (config 1440) (http_fields "DELETE" "/jobs" None)
                (JStr "ctx-1") (JStr "gatekeeper-agent") (JNum 30000)
                (lambda (agent bootstrapped)) ltac:(run_it) ltac:(run_it))
      as (H & _ & _).
    eexists; eexists. split; [exact (H ltac:(run_it))|]. split; reflexivity.
  - destruct (@http_requests_the_agent_never_sees platform runtime _
                PostgresProvider.provider (config 1440) (http_fields "POST" "/jobs" None)
                (JStr "ctx-1") (JStr "gatekeeper-agent") (JNum 30000)
                (lambda (agent bootstrapped)) ltac:(run_it) ltac:(run_it))
      as (_ & H & _).
    eexists; eexists. split; [exact (H ltac:(run_it) ltac:(run_it))|]. split; reflexivity.
  - destruct (@http_requests_the_agent_never_sees platform runtime _
                PostgresProvider.provider (config 1440)
                (http_fields "POST" "/jobs" (Some "{oops"))
                (JStr "ctx-1") (JStr "gatekeeper-agent") (JNum 30000)
                (lambda (agent bootstrapped)) ltac:(run_it) ltac:(run_it))
      as (_ & _ & H).
    destruct (H "Unexpected token in JSON at position 0"
                ltac:(run_it) ltac:(run_it) ltac:(run_it)) as (id & _ & Hrun).
    eexists; eexists. split; [exact Hrun|]. split; reflexivity.
Defined.

(** The handler at the edge of what the Lambda runtime hands over: a
    [null] event and a context without the method make it throw, at a cold
    start as well, and leave the module with its agent; a direct invocation
    at a cold start in front of a provider that cannot be reached is
    answered [LAMBDA_ERROR]. *)
Lemma handler_throws_only_before_its_try_at_work :
  fst (Lambda.handler (config 1440) JNull context (cold_start (unreachable bootstrapped)))
  = Throw (JsError "Cannot read properties of null (reading 'correlationId')")
  /\ fst (Lambda.handler (config 1440) (direct (create_job 15)) context_without_method
            (lambda (agent bootstrapped)))
     = Throw (JsError "context.remainingTimeInMillis is not a function")
  /\ fst (Lambda.handler (config 1440) (direct (create_job 15)) context
            (cold_start (unreachable bootstrapped)))
     = Ok (Lambda.Direct
             (Failed {| JobError.code := "LAMBDA_ERROR";
                        JobError.message := "Lambda execution failed";
                        JobError.retryable := false |})).
Proof.
  destruct (@handler_throws_only_before_its_try platform runtime _
              PostgresProvider.provider (config 1440) JNull
              (JStr "ctx-1") (JStr "gatekeeper-agent")
              (cold_start (unreachable bootstrapped))) as (Hnull & _).
  destruct (@handler_throws_only_before_its_try platform runtime _
              PostgresProvider.provider (config 1440) (direct (create_job 15))
              (JStr "ctx-1") (JStr "gatekeeper-agent")
              (lambda (agent bootstrapped))) as (_ & Hcontext & _).
  destruct (@handler_throws_only_before_its_try platform runtime _
              PostgresProvider.provider (config 1440) (direct (create_job 15))
              (JStr "ctx-1") (JStr "gatekeeper-agent")
              (cold_start (unreachable bootstrapped))) as (_ & _ & _ & Hcold).
  split; [|split].
  - rewrite (Hnull context _ eq_refl). reflexivity.
  - destruct (Hcontext _ (JsError "") eq_refl) as (_ & H & _).
    change context_without_method
      with (Lambda.context_value (JStr "ctx-1") (JStr "gatekeeper-agent") None).
    rewrite H. reflexivity.
  - destruct (Hcold (JNum 30000) _ _ ltac:(run_it) ltac:(run_it) ltac:(run_it)
                ltac:(run_it)) as (s' & H & _).
    change context
      with (Lambda.context_value (JStr "ctx-1") (JStr "gatekeeper-agent")
              (Some (inr (JNum 30000)))).
    rewrite H. reflexivity.
Defined.

End MoreRuns.
